(** * Pull-and-cache engine of singularity: Shub.Pull, OciPull, Oras.Pull

    A shallow embedding of the three pull functions found in the sources
    (the Hub backend [Shub.Pull], the OCI/Docker backend [OciPull] with
    [convertDockerToSIF] and [openOutputImage], and the artifact-registry
    backend [Oras.Pull]).

    The pull functions are sequences of calls to collaborators (remote
    clients, the cache handle, the build pipeline, the [os] and [io]
    packages, the logger).  Each such call is an operation [Op]; a pull
    function is a program [prog] that issues operations and continues on
    their results.  [run] executes a program against a handler that answers
    the operations, and records the trace of calls with their results. *)

From Stdlib Require Import ZArith Ascii String.
From stdpp Require Import base option list strings gmap.

Open Scope string_scope.
Open Scope list_scope.

(** ** Values exchanged with the collaborators *)

(** Go [error] values.  [ErrBadChecksum] is the sentinel of the cache
    package, compared by identity in [Oras.Pull]; [ExtError] is any other
    error produced by a collaborator; [Errorf] is an error built by
    [fmt.Errorf] with its format string and arguments. *)
Inductive error : Type :=
| ErrBadChecksum
| ExtError (msg : string)
| Errorf (format : string) (args : list fmt_arg)
with fmt_arg : Type :=
| AStr (s : string)
| AErr (e : error).

(** [shub.ShubURI]: the parsed reference, only passed on to [GetManifest]. *)
Record ShubURI := { parsedRef : string }.

(** [shub.ShubAPIResponse]: the manifest; [Pull] reads its [Commit]. *)
Record ShubAPIResponse := { Commit : string }.

(** [ocitypes.DockerAuthConfig] *)
Record DockerAuthConfig := { Username : string; Password : string }.

(** [ocitypes.SystemContext], the three fields set by [OciPull]. *)
Record SystemContext := {
  OCIInsecureSkipTLSVerify : bool;
  DockerInsecureSkipTLSVerify : bool;
  sysDockerAuthConfig : option DockerAuthConfig
}.

(** Modelled from the spec: the cache handle ([cache.Handle], whose
    declaration is not among the sources) is process-scoped state carrying
    the cache root path and a disabled flag. *)
Record Handle := { rootDir : string; disabled : bool }.

Definition IsDisabled (c : Handle) : bool := disabled c.

(** [types.Options] and [build.Config], the fields set by
    [convertDockerToSIF]. *)
Record Options := {
  TmpDir : string;
  NoCache : bool;
  NoTest : bool;
  NoHTTPS : bool;
  optDockerAuthConfig : option DockerAuthConfig;
  ImgCache : Handle
}.

Record Config := { Dest : string; Format : string; Opts : Options }.

(** The value returned by [build.NewBuild]. *)
Record Build := { buildSpec : string; buildConf : Config }.

(** [*os.File] *)
Record File := { Name : string }.

(** [os.O_WRONLY], [os.O_CREATE], [os.O_TRUNC] (Linux values) *)
Definition O_WRONLY : Z := 1.
Definition O_CREATE : Z := 64.
Definition O_TRUNC : Z := 512.

(** The permission bits [0755] (octal) given to [os.OpenFile]. *)
Definition perm_0755 : Z := 7 * 64 + 5 * 8 + 5.

(** ** Operations *)

Inductive Op : Type :=
(* pkg/client/shub *)
| ShubParseReference (from : string)
| ShubGetManifest (u : ShubURI) (noHttps : bool)
| ShubDownloadImage (manifest : ShubAPIResponse) (filePath shubRef : string)
                    (force noHttps : bool)
(* internal/pkg/client/oci, internal/pkg/oras *)
| OciImageSHA (uri : string) (sysCtx : SystemContext)
| OrasImageSHA (from : string) (auth : option DockerAuthConfig)
| OrasDownloadImage (path from : string) (auth : option DockerAuthConfig)
| OrasImageHash (path : string)
(* internal/pkg/client/cache *)
| ShubImageExists (c : Handle) (sum name : string)
| OciTempExists (c : Handle) (sum name : string)
| OrasImageExists (c : Handle) (sum name : string)
(* internal/pkg/build *)
| NewBuild (spec : string) (conf : Config)
| BuildFull (b : Build)
(* sylog *)
| Infof (format : string) (args : list fmt_arg)
| Warningf (format : string) (args : list fmt_arg)
(* go interruptCleanup(path) *)
| GoInterruptCleanup (path : string)
(* os, io *)
| OsOpenFile (path : string) (flag perm : Z)
| OsOpen (path : string)
| OsRemove (path : string)
| IoCopy (dst src : File)
| FileClose (f : File).

(** Result type of each operation, as the Go signatures have them: a
    [(value, error)] pair is a pair whose second component is [None] for
    [nil]. *)
Definition Resp (o : Op) : Type :=
  match o with
  | ShubParseReference _ => ShubURI * option error
  | ShubGetManifest _ _ => ShubAPIResponse * option error
  | ShubDownloadImage _ _ _ _ _ => option error
  | OciImageSHA _ _ => string * option error
  | OrasImageSHA _ _ => string * option error
  | OrasDownloadImage _ _ _ => option error
  | OrasImageHash _ => string * option error
  | ShubImageExists _ _ _ => bool * option error
  | OciTempExists _ _ _ => bool * option error
  | OrasImageExists _ _ _ => bool * option error
  | NewBuild _ _ => Build * option error
  | BuildFull _ => option error
  | Infof _ _ => unit
  | Warningf _ _ => unit
  | GoInterruptCleanup _ => unit
  | OsOpenFile _ _ _ => File * option error
  | OsOpen _ => File * option error
  | OsRemove _ => option error
  | IoCopy _ _ => Z * option error
  | FileClose _ => option error
  end.

(** ** Programs *)

Inductive prog (R : Type) : Type :=
| Ret (r : R)
| Call (o : Op) (k : Resp o -> prog R).
Arguments Ret {R} r.
Arguments Call {R} o k.

Fixpoint pbind {A B} (p : prog A) (f : A -> prog B) : prog B :=
  match p with
  | Ret a => f a
  | Call o k => Call o (fun r => pbind (k r) f)
  end.

(** A Go function body that may [return err] early: [inl e] is the early
    return of error [e], [inr a] the normal continuation with [a]. *)
Definition M (A : Type) : Type := prog (error + A).

Definition ret {A} (a : A) : M A := Ret (inr a).
Definition throw {A} (e : error) : M A := Ret (inl e).
Definition op (o : Op) : M (Resp o) := Call o (fun r => Ret (inr r)).

Definition bind {A B} (m : M A) (f : A -> M B) : M B :=
  pbind m (fun x => match x with inl e => Ret (inl e) | inr a => f a end).

#[export] Instance M_ret : MRet M := @ret.
#[export] Instance M_bind : MBind M := fun A B f m => bind m f.

(** [if err != nil { return wrap(err) }] *)
Definition check (err : option error) (wrap : error -> error) : M unit :=
  match err with
  | Some e => throw (wrap e)
  | None => ret tt
  end.

(** [defer f.Close()]: the rest of the function runs, then the file is
    closed, whichever way the rest returned. *)
Definition defer_Close {A} (f : File) (rest : M A) : M A :=
  pbind rest (fun x => Call (FileClose f) (fun _ => Ret x)).

(** [err := f(...)] for a Go function [f] with body [m]: the error that
    [f] returns becomes a value of the caller. *)
Definition call_fn (m : M unit) : M (option error) :=
  pbind m (fun x => Ret (inr (match x with inl e => Some e | inr _ => None end))).

(** The [error] result of a Go function whose body is [m]. *)
Definition returns (m : M unit) : prog (option error) :=
  pbind m (fun x => match x with inl e => Ret (Some e) | inr _ => Ret None end).

(** ** The pull functions *)

(** Path and name computations used by the pull functions; they belong to
    the [uri] and [cache] packages, whose sources are not available, and do
    not touch the file system. *)
Record Layout := {
  GetName : string -> string;
  ShubImage : Handle -> string -> string -> string;
  OciTempImage : Handle -> string -> string -> string;
  OrasImage : Handle -> string -> string -> string
}.

Record Shub := { shubCache : Handle; noHttps : bool }.
Record Oras := { orasCache : Handle; ociAuth : option DockerAuthConfig }.

Definition NewShub (c : Handle) (noHttps : bool) : Shub :=
  {| shubCache := c; noHttps := noHttps |}.
Definition NewOras (c : Handle) (auth : option DockerAuthConfig) : Oras :=
  {| orasCache := c; ociAuth := auth |}.

(** [openOutputImage] *)
Definition openOutputImage (path : string) : M File :=
  '(file, err) ← op (OsOpenFile path (Z.lor (Z.lor O_CREATE O_TRUNC) O_WRONLY) perm_0755);
  check err (fun e => Errorf "while opening destination file: %s" [AErr e]);;
  ret file.

(** [convertDockerToSIF]; the handle is a pointer that the function tests
    against [nil]. *)
Definition convertDockerToSIF (imgCache : option Handle) (image cachedImgPath tmpDir : string)
    (noHTTPS : bool) (authConf : option DockerAuthConfig) : M unit :=
  match imgCache with
  | None => throw (Errorf "image cache is undefined" [])
  | Some c =>
      '(b, err) ← op (NewBuild image
          {| Dest := cachedImgPath;
             Format := "sif";
             Opts := {| TmpDir := tmpDir;
                        NoCache := IsDisabled c;
                        NoTest := true;
                        NoHTTPS := noHTTPS;
                        optDockerAuthConfig := authConf;
                        ImgCache := c |} |});
      check err (fun e => Errorf "unable to create new build: %v" [AErr e]);;
      err ← op (BuildFull b);
      check err (fun e => e)
  end.

Section Pull.
Context (L : Layout).

(** [Shub.Pull] *)
Definition Shub_Pull_body (s : Shub) (from to : string) : M unit :=
  '(shubURI, err) ← op (ShubParseReference from);
  check err (fun e => Errorf "failed to parse shub uri: %s" [AErr e]);;
  '(manifest, err) ← op (ShubGetManifest shubURI (noHttps s));
  check err (fun e => Errorf "failed to get manifest for: %s: %s" [AStr from; AErr e]);;
  let imageName := GetName L from in
  let imagePath := ShubImage L (shubCache s) (Commit manifest) imageName in
  if IsDisabled (shubCache s) then
    err ← op (ShubDownloadImage manifest to from true (noHttps s));
    check err (fun e => e)
  else
    '(exists_, err) ← op (ShubImageExists (shubCache s) (Commit manifest) imageName);
    check err (fun e => Errorf "unable to check if %v exists: %v" [AStr imagePath; AErr e]);;
    (if negb exists_ then
       op (Infof "Downloading shub image" []);;
       op (GoInterruptCleanup imagePath);;
       err ← op (ShubDownloadImage manifest imagePath from true (noHttps s));
       check err (fun e => e)
     else
       op (Infof "Use image from cache" []));;
    dstFile ← openOutputImage to;
    defer_Close dstFile (
      '(srcFile, err) ← op (OsOpen imagePath);
      check err (fun e => Errorf "while opening cached image: %v" [AErr e]);;
      defer_Close srcFile (
        '(_, err) ← op (IoCopy dstFile srcFile);
        check err (fun e => Errorf "while copying image from cache: %v" [AErr e]))).

Definition Shub_Pull (s : Shub) (from to : string) : prog (option error) :=
  returns (Shub_Pull_body s from to).

(** [OciPull]; the handle is dereferenced by [imgCache.IsDisabled()], so it
    is taken non-nil here and passed on as a pointer. *)
Definition OciPull_body (imgCache : Handle) (name imageURI tmpDir : string)
    (ociAuth : option DockerAuthConfig) (noHTTPS : bool) : M unit :=
  let sysCtx := {| OCIInsecureSkipTLSVerify := noHTTPS;
                   DockerInsecureSkipTLSVerify := noHTTPS;
                   sysDockerAuthConfig := ociAuth |} in
  '(sum, err) ← op (OciImageSHA imageURI sysCtx);
  check err (fun e => Errorf "failed to get checksum for %s: %s" [AStr imageURI; AErr e]);;
  if IsDisabled imgCache then
    err ← call_fn (convertDockerToSIF (Some imgCache) imageURI name tmpDir noHTTPS ociAuth);
    check err (fun e => Errorf "while building SIF from layers: %v" [AErr e])
  else
    let imgName := GetName L imageURI in
    let cachedImgPath := OciTempImage L imgCache sum imgName in
    '(exists_, err) ← op (OciTempExists imgCache sum imgName);
    check err (fun e => Errorf "unable to check if %s exists: %s" [AStr imgName; AErr e]);;
    (if negb exists_ then
       op (Infof "Converting OCI blobs to SIF format" []);;
       op (GoInterruptCleanup imgName);;
       err ← call_fn (convertDockerToSIF (Some imgCache) imageURI cachedImgPath tmpDir noHTTPS ociAuth);
       check err (fun e => Errorf "while building SIF from layers: %v" [AErr e]);;
       op (Infof "Build complete: %s" [AStr name])
     else ret tt);;
    dstFile ← openOutputImage name;
    defer_Close dstFile (
      '(srcFile, err) ← op (OsOpen cachedImgPath);
      check err (fun e => Errorf "unable to open file for reading: %s: %v" [AStr name; AErr e]);;
      defer_Close srcFile (
        '(_, err) ← op (IoCopy dstFile srcFile);
        check err (fun e => Errorf "failed while copying files: %v" [AErr e]))).

Definition OciPull (imgCache : Handle) (name imageURI tmpDir : string)
    (ociAuth : option DockerAuthConfig) (noHTTPS : bool) : prog (option error) :=
  returns (OciPull_body imgCache name imageURI tmpDir ociAuth noHTTPS).

(** [Oras.Pull] *)
Definition Oras_Pull_body (o : Oras) (from to : string) : M unit :=
  '(sum, err) ← op (OrasImageSHA from (ociAuth o));
  check err (fun e => Errorf "failed to get checksum for %s: %s" [AStr from; AErr e]);;
  let imageName := GetName L ("oras:" +:+ from) in
  let cacheImagePath := OrasImage L (orasCache o) sum imageName in
  '(exists_, err) ← op (OrasImageExists (orasCache o) sum imageName);
  match err with
  | Some ErrBadChecksum =>
      op (Warningf "Removing cached image: %s: cache could be corrupted" [AStr cacheImagePath]);;
      err ← op (OsRemove cacheImagePath);
      check err (fun e => Errorf "unable to remove corrupted cache: %v" [AErr e])
  | Some e => throw (Errorf "unable to check if %s exists: %v" [AStr cacheImagePath; AErr e])
  | None => ret tt
  end;;
  (if negb exists_ then
     op (Infof "Downloading image with ORAS" []);;
     op (GoInterruptCleanup cacheImagePath);;
     err ← op (OrasDownloadImage cacheImagePath from (ociAuth o));
     check err (fun e => Errorf "unable to Download Image: %v" [AErr e]);;
     '(cacheFileHash, err) ← op (OrasImageHash cacheImagePath);
     match err with
     | Some e => throw (Errorf "error getting ImageHash: %v" [AErr e])
     | None =>
         if negb (String.eqb cacheFileHash sum) then
           throw (Errorf "cached file hash(%s) and expected hash(%s) does not match"
                    [AStr cacheFileHash; AStr sum])
         else ret tt
     end
   else
     op (Infof "Using cached image" []));;
  dstFile ← openOutputImage to;
  defer_Close dstFile (
    '(srcFile, err) ← op (OsOpen cacheImagePath);
    check err (fun e => Errorf "while opening cached image: %v" [AErr e]);;
    defer_Close srcFile (
      '(_, err) ← op (IoCopy dstFile srcFile);
      check err (fun e => Errorf "while copying image from cache: %v" [AErr e]);;
      op (Infof "Pull complete: %s\n" [AStr to]))).

Definition Oras_Pull (o : Oras) (from to : string) : prog (option error) :=
  returns (Oras_Pull_body o from to).

End Pull.

(** ** Executions *)

(** The result of an operation as it is recorded in a trace. *)
Inductive Val : Type :=
| VUnit
| VErr (e : option error)
| VStr (s : string) (e : option error)
| VBool (b : bool) (e : option error)
| VInt (n : Z) (e : option error)
| VUri (u : ShubURI) (e : option error)
| VManifest (m : ShubAPIResponse) (e : option error)
| VBuild (b : Build) (e : option error)
| VFile (f : File) (e : option error).

Definition to_val (o : Op) : Resp o -> Val :=
  match o with
  | ShubParseReference _ => fun r => VUri r.1 r.2
  | ShubGetManifest _ _ => fun r => VManifest r.1 r.2
  | ShubDownloadImage _ _ _ _ _ => fun r => VErr r
  | OciImageSHA _ _ => fun r => VStr r.1 r.2
  | OrasImageSHA _ _ => fun r => VStr r.1 r.2
  | OrasDownloadImage _ _ _ => fun r => VErr r
  | OrasImageHash _ => fun r => VStr r.1 r.2
  | ShubImageExists _ _ _ => fun r => VBool r.1 r.2
  | OciTempExists _ _ _ => fun r => VBool r.1 r.2
  | OrasImageExists _ _ _ => fun r => VBool r.1 r.2
  | NewBuild _ _ => fun r => VBuild r.1 r.2
  | BuildFull _ => fun r => VErr r
  | Infof _ _ => fun _ => VUnit
  | Warningf _ _ => fun _ => VUnit
  | GoInterruptCleanup _ => fun _ => VUnit
  | OsOpenFile _ _ _ => fun r => VFile r.1 r.2
  | OsOpen _ => fun r => VFile r.1 r.2
  | OsRemove _ => fun r => VErr r
  | IoCopy _ _ => fun r => VInt r.1 r.2
  | FileClose _ => fun r => VErr r
  end.

(** One call in a trace: the operation and what it returned; [None] when
    the process was terminated (by a signal) during the call. *)
Inductive Event : Type := Ev (o : Op) (v : option Val).

(** A handler answers every operation from a state of its own; it answers
    [None] when the process is terminated during the call. *)
Definition Handler (St : Type) : Type := forall o : Op, St -> St * option (Resp o).

(** [run h p s]: the final state, the trace, and the value returned by [p]
    ([None] when the process was terminated before [p] returned). *)
Fixpoint run {St R} (h : Handler St) (p : prog R) (s : St) : St * list Event * option R :=
  match p with
  | Ret r => (s, [], Some r)
  | Call o k =>
      match h o s with
      | (s', Some r) =>
          let '(s'', t, v) := run h (k r) s' in (s'', Ev o (Some (to_val o r)) :: t, v)
      | (s', None) => (s', [Ev o None], None)
      end
  end.

Definition trace_of {St R} (x : St * list Event * option R) : list Event := x.1.2.
Definition result_of {St R} (x : St * list Event * option R) : option R := x.2.
Definition state_of {St R} (x : St * list Event * option R) : St := x.1.1.

(** [execs p t v]: [p] can produce the trace [t] and the result [v], for
    some answers of the collaborators. *)
Fixpoint execs {R} (p : prog R) (t : list Event) (v : option R) : Prop :=
  match p with
  | Ret r => t = [] /\ v = Some r
  | Call o k =>
      (t = [Ev o None] /\ v = None) \/
      (exists r t', t = Ev o (Some (to_val o r)) :: t' /\ execs (k r) t' v)
  end.

(** ** A reference environment: file system, remote services, interruption

    The collaborators are not among the sources.  The handler [machine]
    gives them the behaviour that the specification describes, over a file
    system and the set of armed interrupt guards, so that a pull can be run
    on concrete inputs.  Theorems stated for every handler do not depend on
    it. *)

Record World := {
  files : gmap string string;   (* path to bytes *)
  guards : list string          (* arguments of the running interruptCleanup goroutines *)
}.

(** What the transfer of a payload does. *)
Inductive Transfer : Type :=
| Complete (bytes : string)
| Broken (partial : option string) (e : error)
| Interrupted (partial : string).

Record Env := {
  parse_ref : string -> ShubURI * option error;
  manifest_of : ShubURI -> ShubAPIResponse * option error;
  digest_of : string -> string * option error;
  payload_of : string -> Transfer;
  hash_of : string -> string;
  copy_fault : string -> option (nat * error)
}.

Definition write (path bytes : string) (w : World) : World :=
  {| files := <[path := bytes]> (files w); guards := guards w |}.

Definition unlink (path : string) (w : World) : World :=
  {| files := delete path (files w); guards := guards w |}.

(** Modelled from the spec: the interrupt guard [interruptCleanup] (not
    among the sources), upon process interruption, deletes the path it was
    armed with; the process then ends. *)
Definition interrupt (w : World) : World :=
  {| files := foldr delete (files w) (guards w); guards := [] |}.

(** Modelled from the spec: [Fetch] transfers the full content to the
    target path; a transfer can fail, and the process can be interrupted
    mid-stream.  With the force flag unset an existing target is not
    overwritten. *)
Definition fetch (E : Env) (ref target : string) (force : bool) (w : World)
    : World * option (option error) :=
  if negb force && bool_decide (is_Some (files w !! target)) then
    (w, Some (Some (ExtError "image file already exists - will not overwrite")))
  else
    match payload_of E ref with
    | Complete bytes => (write target bytes w, Some None)
    | Broken (Some partial) e => (write target partial w, Some (Some e))
    | Broken None e => (w, Some (Some e))
    | Interrupted partial => (interrupt (write target partial w), None)
    end.

(** Modelled from the spec: [Exists] reports present-and-valid as
    [(true, nil)], absent as [(false, nil)] and present-but-corrupt (the
    stored bytes do not hash to the identifier) as
    [(false, ErrBadChecksum)]; a disabled cache never reads. *)
Definition cache_exists (E : Env) (c : Handle) (path sum : string) (w : World)
    : bool * option error :=
  if IsDisabled c then (false, None)
  else match files w !! path with
       | None => (false, None)
       | Some bytes =>
           if String.eqb (hash_of E bytes) sum then (true, None)
           else (false, Some ErrBadChecksum)
       end.

Definition machine (L : Layout) (E : Env) : Handler World :=
  fun o =>
    match o as o return World -> World * option (Resp o) with
    | ShubParseReference from => fun w => (w, Some (parse_ref E from))
    | ShubGetManifest u _ => fun w => (w, Some (manifest_of E u))
    | ShubDownloadImage _ filePath shubRef force _ => fetch E shubRef filePath force
    | OciImageSHA uri _ => fun w => (w, Some (digest_of E uri))
    | OrasImageSHA from _ => fun w => (w, Some (digest_of E from))
    | OrasDownloadImage path from _ => fetch E from path true
    | OrasImageHash path => fun w =>
        match files w !! path with
        | Some bytes => (w, Some (hash_of E bytes, None))
        | None => (w, Some ("", Some (ExtError "no such file or directory")))
        end
    | ShubImageExists c sum name => fun w =>
        (w, Some (cache_exists E c (ShubImage L c sum name) sum w))
    | OciTempExists c sum name => fun w =>
        (w, Some (cache_exists E c (OciTempImage L c sum name) sum w))
    | OrasImageExists c sum name => fun w =>
        (w, Some (cache_exists E c (OrasImage L c sum name) sum w))
    | NewBuild spec conf => fun w =>
        (w, Some ({| buildSpec := spec; buildConf := conf |}, None))
    | BuildFull b => fetch E (buildSpec b) (Dest (buildConf b)) true
    | Infof _ _ => fun w => (w, Some tt)
    | Warningf _ _ => fun w => (w, Some tt)
    | GoInterruptCleanup path => fun w =>
        ({| files := files w; guards := path :: guards w |}, Some tt)
    | OsOpenFile path flag _ => fun w =>
        match files w !! path with
        | Some bytes =>
            ((if Z.testbit flag 9 then write path "" w else w),
             Some ({| Name := path |}, None))
        | None =>
            if Z.testbit flag 6 then (write path "" w, Some ({| Name := path |}, None))
            else (w, Some ({| Name := path |}, Some (ExtError "no such file or directory")))
        end
    | OsOpen path => fun w =>
        match files w !! path with
        | Some _ => (w, Some ({| Name := path |}, None))
        | None => (w, Some ({| Name := path |}, Some (ExtError "no such file or directory")))
        end
    | OsRemove path => fun w =>
        match files w !! path with
        | Some _ => (unlink path w, Some None)
        | None => (w, Some (Some (ExtError "no such file or directory")))
        end
    | IoCopy dst src => fun w =>
        match files w !! Name src with
        | None => (w, Some (0%Z, Some (ExtError "bad file descriptor")))
        | Some bytes =>
            match copy_fault E (Name dst) with
            | Some (n, e) =>
                (write (Name dst) (String.substring 0 n bytes) w,
                 Some (Z.of_nat (String.length (String.substring 0 n bytes)), Some e))
            | None => (write (Name dst) bytes w, Some (Z.of_nat (String.length bytes), None))
            end
        end
    | FileClose _ => fun w => (w, Some None)
    end.

(** A sample layout and environment for concrete runs. *)
Fixpoint last_segment_from (acc s : string) : string :=
  match s with
  | EmptyString => acc
  | String c s' =>
      if Ascii.eqb c "/"%char then last_segment_from "" s'
      else last_segment_from (acc +:+ String c "") s'
  end.

Definition last_segment (s : string) : string := last_segment_from "" s.

Definition sample_layout : Layout := {|
  GetName := fun uri => last_segment uri +:+ ".sif";
  ShubImage := fun c sum name => rootDir c +:+ "/shub/" +:+ sum +:+ "/" +:+ name;
  OciTempImage := fun c sum name => rootDir c +:+ "/oci-tmp/" +:+ sum +:+ "/" +:+ name;
  OrasImage := fun c sum name => rootDir c +:+ "/oras/" +:+ sum +:+ "/" +:+ name
|}.

Definition sample_env (t : Transfer) (fault : option (nat * error)) : Env := {|
  parse_ref := fun from => ({| parsedRef := from |}, None);
  manifest_of := fun u => ({| Commit := "c0ffee" |}, None);
  digest_of := fun _ => ("sha256.abc", None);
  payload_of := fun _ => t;
  hash_of := fun bytes => if String.eqb bytes "IMAGE" then "sha256.abc"
                          else if String.eqb bytes "SHUBIMAGE" then "c0ffee"
                          else "sha256.def";
  copy_fault := fun _ => fault
|}.

Definition enabled_cache : Handle := {| rootDir := "/cache"; disabled := false |}.
Definition disabled_cache : Handle := {| rootDir := "/cache"; disabled := true |}.
Definition empty_world : World := {| files := ∅; guards := [] |}.

(** ** The pulls, uniformly *)

Inductive PullCall : Type :=
| ShubPull (s : Shub) (from to : string)
| OciPullCall (imgCache : Handle) (name imageURI tmpDir : string)
              (ociAuth : option DockerAuthConfig) (noHTTPS : bool)
| OrasPull (o : Oras) (from to : string).

Definition pull (L : Layout) (c : PullCall) : prog (option error) :=
  match c with
  | ShubPull s from to => Shub_Pull L s from to
  | OciPullCall imgCache name imageURI tmpDir ociAuth noHTTPS =>
      OciPull L imgCache name imageURI tmpDir ociAuth noHTTPS
  | OrasPull o from to => Oras_Pull L o from to
  end.

(** The caller's destination path. *)
Definition destination (c : PullCall) : string :=
  match c with
  | ShubPull _ _ to => to
  | OciPullCall _ name _ _ _ _ => name
  | OrasPull _ _ to => to
  end.

Definition handle_of (c : PullCall) : Handle :=
  match c with
  | ShubPull s _ _ => shubCache s
  | OciPullCall imgCache _ _ _ _ _ => imgCache
  | OrasPull o _ _ => orasCache o
  end.

(** ** Classification of operations *)

Definition ev_op (e : Event) : Op := match e with Ev o _ => o end.
Definition ev_val (e : Event) : option Val := match e with Ev _ v => v end.

(** Identity resolution: the remote interaction that names the content. *)
Definition is_resolve (o : Op) : Prop :=
  match o with
  | ShubParseReference _ | ShubGetManifest _ _ | OciImageSHA _ _ | OrasImageSHA _ _ => True
  | _ => False
  end.

(** The cache existence check, and the cache path it stands for. *)
Definition cache_check_path (L : Layout) (o : Op) : option string :=
  match o with
  | ShubImageExists c sum name => Some (ShubImage L c sum name)
  | OciTempExists c sum name => Some (OciTempImage L c sum name)
  | OrasImageExists c sum name => Some (OrasImage L c sum name)
  | _ => None
  end.

(** Fetch operations: the downloads, and the two steps of a build. *)
Definition is_fetch (o : Op) : Prop :=
  match o with
  | ShubDownloadImage _ _ _ _ _ | OrasDownloadImage _ _ _ | NewBuild _ _ | BuildFull _ => True
  | _ => False
  end.

(** The path that a fetch is told to write; a build is told when it is
    created. *)
Definition fetch_target (o : Op) : option string :=
  match o with
  | ShubDownloadImage _ filePath _ _ _ => Some filePath
  | OrasDownloadImage path _ _ => Some path
  | NewBuild _ conf => Some (Dest conf)
  | _ => None
  end.

(** The copy stage: open the destination, open the cache file, stream,
    close; log messages aside. *)
Definition is_copy_stage (to path : string) (o : Op) : Prop :=
  match o with
  | OsOpenFile p _ _ => p = to
  | OsOpen p => p = path
  | IoCopy _ _ | FileClose _ | Infof _ _ => True
  | _ => False
  end.

(** ** Properties of traces *)

(** The result of the operation carried an error. *)
Definition val_err (v : Val) : option error :=
  match v with
  | VUnit => None
  | VErr e | VStr _ e | VBool _ e | VInt _ e | VUri _ e | VManifest _ e
  | VBuild _ e | VFile _ e => e
  end.

Definition is_cache_check (o : Op) : Prop :=
  match o with
  | ShubImageExists _ _ _ | OciTempExists _ _ _ | OrasImageExists _ _ _ => True
  | _ => False
  end.

(** A step returned without error; the present-but-corrupt outcome of the
    cache check counts as an outcome, not as a failure. *)
Definition step_succeeded (e : Event) : Prop :=
  match e with
  | Ev o (Some v) =>
      val_err v = None \/ (is_cache_check o /\ val_err v = Some ErrBadChecksum)
  | Ev _ None => False
  end.

(** The cache existence check that the identity table prescribes for a
    pull, given the result of its resolution step: the manifest for the
    Hub backend, the image digest for the artifact registry. *)
Definition identity_check (L : Layout) (c : PullCall) (v : Val) : option Op :=
  match c, v with
  | ShubPull sh from _, VManifest m None =>
      Some (ShubImageExists (shubCache sh) (Commit m) (GetName L from))
  | OrasPull o from _, VStr sum None =>
      Some (OrasImageExists (orasCache o) sum (GetName L ("oras:" +:+ from)))
  | _, _ => None
  end.

(** An operation on the cache uses the entry named by the check [check]. *)
Definition uses_key (L : Layout) (check : Op) (o : Op) : Prop :=
  match o with
  | ShubImageExists _ _ _ | OciTempExists _ _ _ | OrasImageExists _ _ _ => o = check
  | OsOpen p | OsRemove p | GoInterruptCleanup p => Some p = cache_check_path L check
  | _ => True
  end.

(** The execute bits [0111] (octal). *)
Definition exec_bits : Z := 1 * 64 + 1 * 8 + 1.

(** The system context that [OciPull] builds. *)
Definition OciPull_sysCtx (ociAuth : option DockerAuthConfig) (noHTTPS : bool) : SystemContext :=
  {| OCIInsecureSkipTLSVerify := noHTTPS;
     DockerInsecureSkipTLSVerify := noHTTPS;
     sysDockerAuthConfig := ociAuth |}.

(** The disabled-mode branch of [OciPull]: the build writes the caller's
    destination [name]; the digest does not occur in it. *)
Definition OciPull_direct (imgCache : Handle) (name imageURI tmpDir : string)
    (ociAuth : option DockerAuthConfig) (noHTTPS : bool) : prog (option error) :=
  returns (
    err ← call_fn (convertDockerToSIF (Some imgCache) imageURI name tmpDir noHTTPS ociAuth);
    check err (fun e => Errorf "while building SIF from layers: %v" [AErr e])).

(** The reaction to a present-but-corrupt entry as the spec words it: the
    corruption is logged, the entry is deleted, and a fetch into the cache
    path follows. *)
Definition recovers_from_corruption (L : Layout) (t : list Event) : Prop :=
  forall pre o path post,
    t = pre ++ Ev o (Some (VBool false (Some ErrBadChecksum))) :: post ->
    cache_check_path L o = Some path ->
    exists format args rest,
      post = Ev (Warningf format args) (Some VUnit)
             :: Ev (OsRemove path) (Some (VErr None)) :: rest /\
      Exists (fun e => fetch_target (ev_op e) = Some path) rest.

(** Post-fetch verification as the spec words it: a file whose hash does
    not match the identifier [sum] is deleted from the cache before the
    pull fails. *)
Definition mismatch_is_purged (sum : string) (t : list Event) : Prop :=
  forall pre path hash post,
    t = pre ++ Ev (OrasImageHash path) (Some (VStr hash None)) :: post ->
    hash <> sum ->
    In (Ev (OsRemove path) (Some (VErr None))) post.

(** The spec's wording on the reference environment: a pull that returns a
    failure leaves the destination as it was. *)
Definition destination_untouched_on_failure (L : Layout) (E : Env) (c : PullCall)
    (w : World) : Prop :=
  forall e, result_of (run (machine L E) (pull L c) w) = Some (Some e) ->
    files (state_of (run (machine L E) (pull L c) w)) !! destination c
      = files w !! destination c.

(** The resolution step with which a pull starts. *)
Definition first_step (c : PullCall) : Op :=
  match c with
  | ShubPull _ from _ => ShubParseReference from
  | OciPullCall _ _ imageURI _ ociAuth noHTTPS =>
      OciImageSHA imageURI (OciPull_sysCtx ociAuth noHTTPS)
  | OrasPull o from _ => OrasImageSHA from (ociAuth o)
  end.

(** The resolution step [o] that yields the identity, after the events
    [pre]: for the Hub backend the manifest of the parsed reference, for
    the artifact registry the digest of the reference. *)
Definition yields_identity (c : PullCall) (pre : list Event) (o : Op) : Prop :=
  match c with
  | ShubPull sh from _ =>
      exists uri, pre = [Ev (ShubParseReference from) (Some (VUri uri None))] /\
                  o = ShubGetManifest uri (noHttps sh)
  | OrasPull r from _ => pre = [] /\ o = OrasImageSHA from (ociAuth r)
  | OciPullCall _ _ _ _ _ _ => False
  end.

(** The pull goes through the cache: always in [Oras.Pull], which does not
    test the handle, and unless the cache is disabled in [Shub.Pull]. *)
Definition goes_through_cache (c : PullCall) : bool :=
  match c with
  | ShubPull sh _ _ => negb (IsDisabled (shubCache sh))
  | _ => true
  end.

(** The path that the fetch of a pull is to write and to verify: the path
    of the entry named by [check] when the pull goes through the cache,
    and the destination otherwise. *)
Definition fetch_path (L : Layout) (c : PullCall) (check : Op) : option string :=
  if goes_through_cache c then cache_check_path L check else Some (destination c).

(** A download or a hash is on the path of the entry named by [check];
    the Hub and the artifact-registry backend do not build. *)
Definition fetches_key (L : Layout) (c : PullCall) (check : Op) (o : Op) : Prop :=
  match o with
  | ShubDownloadImage _ p _ _ _ | OrasDownloadImage p _ _ | OrasImageHash p =>
      Some p = fetch_path L c check
  | NewBuild _ _ | BuildFull _ => False
  | _ => True
  end.

(** The pull takes the disabled-mode branch, in which the fetch writes
    the destination directly: [Shub.Pull] and [OciPull] with a disabled
    cache; [Oras.Pull] has no such branch. *)
Definition takes_disabled_branch (c : PullCall) : bool :=
  match c with
  | ShubPull sh _ _ => IsDisabled (shubCache sh)
  | OciPullCall imgCache _ _ _ _ _ => IsDisabled imgCache
  | OrasPull _ _ _ => false
  end.

(** [p] is the path of an entry of the cache for the image of the pull,
    under some content identifier. *)
Definition entry_path (L : Layout) (c : PullCall) (p : string) : Prop :=
  exists sum,
    p = match c with
        | ShubPull sh from _ => ShubImage L (shubCache sh) sum (GetName L from)
        | OciPullCall imgCache _ imageURI _ _ _ =>
            OciTempImage L imgCache sum (GetName L imageURI)
        | OrasPull o from _ => OrasImage L (orasCache o) sum (GetName L ("oras:" +:+ from))
        end.

Definition is_open_for_writing (o : Op) : bool :=
  match o with OsOpenFile _ _ _ => true | _ => false end.

(** The events of a trace before the first open for writing. *)
Fixpoint before_open (t : list Event) : list Event :=
  match t with
  | [] => []
  | e :: t' => if is_open_for_writing (ev_op e) then [] else e :: before_open t'
  end.

(** The path that an operation is told to write or to remove; a build is
    told when it is created. *)
Definition written_path (o : Op) : option string :=
  match o with
  | ShubDownloadImage _ p _ _ _ | OrasDownloadImage p _ _ | OsRemove p | OsOpenFile p _ _ =>
      Some p
  | NewBuild _ conf => Some (Dest conf)
  | IoCopy dst _ => Some (Name dst)
  | _ => None
  end.

(** The operation changes the file at [d] in the reference environment. *)
Definition touches (d : string) (o : Op) : Prop :=
  match o with
  | ShubDownloadImage _ p _ _ _ | OrasDownloadImage p _ _ | OsRemove p | OsOpenFile p _ _ =>
      p = d
  | BuildFull b => Dest (buildConf b) = d
  | IoCopy dst _ => Name dst = d
  | _ => False
  end.

(** ** Concrete pulls in the reference environment *)

Definition hub_hello : PullCall :=
  ShubPull (NewShub enabled_cache false) "shub://vsoch/hello-world" "hello.sif".

Definition hub_hello_nocache : PullCall :=
  ShubPull (NewShub disabled_cache false) "shub://vsoch/hello-world" "hello.sif".

Definition oras_alpine : PullCall :=
  OrasPull (NewOras enabled_cache None) "registry/alpine" "alpine.sif".

Definition oras_alpine_nocache : PullCall :=
  OrasPull (NewOras disabled_cache None) "registry/alpine" "alpine.sif".

Definition oci_alpine : PullCall :=
  OciPullCall enabled_cache "alpine_latest.sif" "docker://alpine" "/tmp" None false.

Definition good_remote : Env := sample_env (Complete "IMAGE") None.
Definition hub_remote : Env := sample_env (Complete "SHUBIMAGE") None.
Definition bad_remote : Env := sample_env (Complete "GARBAGE") None.
Definition interrupted : Env := sample_env (Interrupted "PART") None.
Definition disk_full : Env :=
  sample_env (Complete "IMAGE") (Some (2, ExtError "no space left on device")).

Definition corrupt_shub_world : World :=
  {| files := {[ "/cache/shub/c0ffee/hello-world.sif" := "garbage" ]}; guards := [] |}.

Definition corrupt_oras_world : World :=
  {| files := {[ "/cache/oras/sha256.abc/alpine.sif" := "garbage" ]}; guards := [] |}.

Definition cached_oras_world : World :=
  {| files := {[ "/cache/oras/sha256.abc/alpine.sif" := "IMAGE" ]}; guards := [] |}.

Definition stale_destination_world : World :=
  {| files := {[ "hello.sif" := "OLD" ]}; guards := [] |}.

Definition hub_pull_on_corrupt_entry :=
  run (machine sample_layout hub_remote) (pull sample_layout hub_hello) corrupt_shub_world.

Definition hub_pull_into_cache :=
  run (machine sample_layout hub_remote) (pull sample_layout hub_hello) empty_world.

Definition hub_pull_over_stale_destination :=
  run (machine sample_layout hub_remote) (pull sample_layout hub_hello_nocache)
      stale_destination_world.

Definition oras_pull_on_corrupt_entry :=
  run (machine sample_layout good_remote) (pull sample_layout oras_alpine) corrupt_oras_world.

Definition oras_pull_into_cache :=
  run (machine sample_layout good_remote) (pull sample_layout oras_alpine) empty_world.

Definition oras_pull_from_cache :=
  run (machine sample_layout good_remote) (pull sample_layout oras_alpine) cached_oras_world.

Definition oras_pull_of_bad_payload :=
  run (machine sample_layout bad_remote) (pull sample_layout oras_alpine) empty_world.

Definition oras_pull_disk_full :=
  run (machine sample_layout disk_full) (pull sample_layout oras_alpine) cached_oras_world.

Definition oras_pull_cache_disabled :=
  run (machine sample_layout good_remote) (pull sample_layout oras_alpine_nocache) empty_world.

Definition oras_pull_interrupted :=
  run (machine sample_layout interrupted) (pull sample_layout oras_alpine) empty_world.

Definition oci_pull_interrupted :=
  run (machine sample_layout interrupted) (pull sample_layout oci_alpine) empty_world.

Definition oci_pull_cache_disabled :=
  run (machine sample_layout good_remote)
      (OciPull sample_layout disabled_cache "alpine_latest.sif" "docker://alpine" "/tmp" None false)
      empty_world.

Definition oci_build_config : Config :=
  {| Dest := "/cache/oci-tmp/sha256.abc/alpine.sif";
     Format := "sif";
     Opts := {| TmpDir := "/tmp"; NoCache := false; NoTest := true; NoHTTPS := false;
                optDockerAuthConfig := None; ImgCache := enabled_cache |} |}.

Definition stale_alpine_world : World :=
  {| files := {[ "alpine.sif" := "OLD" ]}; guards := [] |}.

Definition oras_pull_of_bad_payload_over_stale :=
  run (machine sample_layout bad_remote) (pull sample_layout oras_alpine) stale_alpine_world.

(** ** Further vocabulary on the traces of the pulls *)

(** The error that a pull returns when its resolution step [o] fails with [e]. *)
Definition resolution_error (c : PullCall) (o : Op) (e : error) : error :=
  match c, o with
  | ShubPull _ _ _, ShubParseReference _ => Errorf "failed to parse shub uri: %s" [AErr e]
  | ShubPull _ from _, _ => Errorf "failed to get manifest for: %s: %s" [AStr from; AErr e]
  | OciPullCall _ _ imageURI _ _ _, _ =>
      Errorf "failed to get checksum for %s: %s" [AStr imageURI; AErr e]
  | OrasPull _ from _, _ => Errorf "failed to get checksum for %s: %s" [AStr from; AErr e]
  end.

(** The error that a pull returns when its fetch step [o] fails with [e]. *)
Definition fetch_error (o : Op) (e : error) : error :=
  match o with
  | OrasDownloadImage _ _ _ => Errorf "unable to Download Image: %v" [AErr e]
  | NewBuild _ _ =>
      Errorf "while building SIF from layers: %v"
        [AErr (Errorf "unable to create new build: %v" [AErr e])]
  | BuildFull _ => Errorf "while building SIF from layers: %v" [AErr e]
  | _ => e
  end.

Definition is_log (o : Op) : Prop :=
  match o with Infof _ _ | Warningf _ _ => True | _ => False end.


Definition is_guard (o : Op) : Prop :=
  match o with GoInterruptCleanup _ => True | _ => False end.

(** A cache check that answered "not there". *)
Definition reported_missing (e : Event) : Prop :=
  match e with
  | Ev o (Some (VBool false _)) => is_cache_check o
  | _ => False
  end.

(** Further concrete pulls in the reference environment. *)
Definition unknown_image : Env := {|
  parse_ref := fun from => ({| parsedRef := from |}, None);
  manifest_of := fun u => ({| Commit := "" |}, None);
  digest_of := fun _ => ("", Some (ExtError "manifest unknown"));
  payload_of := fun _ => Broken None (ExtError "manifest unknown");
  hash_of := fun _ => "";
  copy_fault := fun _ => None
|}.

Definition connection_reset : Env :=
  sample_env (Broken None (ExtError "connection reset by peer")) None.

Definition oras_pull_of_unknown_image :=
  run (machine sample_layout unknown_image) (pull sample_layout oras_alpine) empty_world.

Definition oras_pull_connection_reset :=
  run (machine sample_layout connection_reset) (pull sample_layout oras_alpine) empty_world.

Definition oci_pull_into_cache :=
  run (machine sample_layout good_remote)
      (OciPull sample_layout enabled_cache "alpine_latest.sif" "docker://alpine" "/tmp" None false)
      empty_world.

(** ** Programs over further sets of operations

    The remaining functions of the sources talk to other collaborators
    (the [os/exec], [plugin], [sif], [tar] and [gzip] packages, the command
    line flags, the progress bar).  The same construction is used for them,
    over a set of operations [O] with results [Rsp] that a trace records
    through [rec]. *)

Section Free.
Context {O : Type} {Rsp : O -> Type} {V : Type}.

Inductive fprog (A : Type) : Type :=
| FRet (a : A)
| FCall (o : O) (k : Rsp o -> fprog A).
Arguments FRet {A} a.
Arguments FCall {A} o k.

Fixpoint fbind {A B} (p : fprog A) (f : A -> fprog B) : fprog B :=
  match p with
  | FRet a => f a
  | FCall o k => FCall o (fun r => fbind (k r) f)
  end.

(** The body of a Go function with results [R]: [inl r] is [return r], [inr
    a] goes on with [a]. *)
Definition Fn (R A : Type) : Type := fprog (R + A).

Definition fn_ret {R A} (a : A) : Fn R A := FRet (inr a).
Definition return_ {R A} (r : R) : Fn R A := FRet (inl r).
Definition call {R} (o : O) : Fn R (Rsp o) := FCall o (fun r => FRet (inr r)).

Definition fn_bind {R A B} (m : Fn R A) (f : A -> Fn R B) : Fn R B :=
  fbind m (fun x => match x with inl r => FRet (inl r) | inr a => f a end).

(** [x := f(...)]: the results of the called function [f] are a value of
    the caller. *)
Definition invoke {R R'} (f : fprog R') : Fn R R' := fbind f (fun r => FRet (inr r)).

(** [defer o]: the rest of the function runs, then [o], whichever way the
    rest returned; the result of [o] is dropped. *)
Definition defer {R A} (o : O) (rest : Fn R A) : Fn R A :=
  fbind rest (fun x => FCall o (fun _ => FRet x)).

(** The results of the Go function whose body is [m]; the body ends in a
    [return]. *)
Definition body {R} (m : Fn R R) : fprog R :=
  fbind m (fun x => match x with inl r => FRet r | inr r => FRet r end).

Context (rec : forall o, Rsp o -> V).

Inductive FEvent : Type := FEv (o : O) (v : option V).

Definition fev_op (e : FEvent) : O := match e with FEv o _ => o end.

Definition FHandler (St : Type) : Type := forall o : O, St -> St * option (Rsp o).

Fixpoint frun {St A} (h : FHandler St) (p : fprog A) (s : St) : St * list FEvent * option A :=
  match p with
  | FRet a => (s, [], Some a)
  | FCall o k =>
      match h o s with
      | (s', Some r) =>
          let '(s'', t, v) := frun h (k r) s' in (s'', FEv o (Some (rec o r)) :: t, v)
      | (s', None) => (s', [FEv o None], None)
      end
  end.

Definition ftrace {St A} (x : St * list FEvent * option A) : list FEvent := x.1.2.
Definition fresult {St A} (x : St * list FEvent * option A) : option A := x.2.
Definition fstate {St A} (x : St * list FEvent * option A) : St := x.1.1.

Fixpoint fexecs {A} (p : fprog A) (t : list FEvent) (v : option A) : Prop :=
  match p with
  | FRet a => t = [] /\ v = Some a
  | FCall o k =>
      (t = [FEv o None] /\ v = None) \/
      (exists r t', t = FEv o (Some (rec o r)) :: t' /\ fexecs (k r) t' v)
  end.

End Free.

Arguments fprog O Rsp A : clear implicits.
Arguments Fn O Rsp R A : clear implicits.
Arguments FRet {O Rsp A} a.
Arguments FCall {O Rsp A} o k.
Arguments FEvent O V : clear implicits.
Arguments FEv {O V} o v.
Arguments FHandler O Rsp St : clear implicits.

#[export] Instance Fn_ret {O Rsp R} : MRet (Fn O Rsp R) := @fn_ret O Rsp R.
#[export] Instance Fn_bind {O Rsp R} : MBind (Fn O Rsp R) := fun A B f m => fn_bind m f.

(** ** Plugin compilation: [CompilePlugin] and the functions it calls *)

Module PluginCompile.

(** [os.FileInfo] *)
Record FileInfo := { Size : Z; IsDir : bool }.

(** [exec.Cmd], the fields set by [buildPlugin]. *)
Inductive Stream : Type := OsStdout | OsStderr.

Record Cmd := {
  cmdName : string;
  cmdArgs : list string;
  cmdDir : string;
  cmdStderr : Stream;
  cmdStdout : Stream;
  cmdEnv : list string
}.

(** [*plugin.Plugin], the symbols it yields, and [pluginapi.Plugin] with
    its manifest. *)
Record PluginObject := { openedFrom : string }.
Record Manifest := { manifestOf : string }.
Record Plugin := { pluginManifest : Manifest }.
Inductive Symbol : Type := SymPlugin (p : Plugin) | SymOther.

(** [sif.DescriptorInput] and [sif.CreateInfo]; the constants of the [sif]
    package are fields of [Lib] below. *)
Record DescriptorInput := {
  Datatype : Z;
  Groupid : Z;
  Link : Z;
  dSize : Z;
  Fname : string;
  Fp : option File;
  Extra : string
}.

(** [sif.DescriptorInput{}] *)
Definition zero_descriptor : DescriptorInput :=
  {| Datatype := 0; Groupid := 0; Link := 0; dSize := 0; Fname := ""; Fp := None;
     Extra := "" |}.

Record CreateInfo := {
  Pathname : string;
  Launchstr : string;
  Sifversion : string;
  ID : string;
  InputDescr : list DescriptorInput
}.

(** [*gzip.Writer] on a file, [*tar.Writer] on a gzip writer, [*tar.Header] *)
Record GzWriter := { gzOut : File }.
Record TarWriter := { tarOut : GzWriter }.
Record Header := { hdrName : string; hdrSize : Z; hdrIsDir : bool }.

(** Constants and pure functions of packages that are not among the
    sources. *)
Record Lib := {
  Join : list string -> string;                       (* filepath.Join *)
  Base : string -> string;                            (* filepath.Base *)
  Rel : string -> string -> string * option error;    (* filepath.Rel *)
  IsNotExist : error -> bool;                         (* os.IsNotExist on a non-nil error *)
  GO_BUILD_TAGS : string;                             (* buildcfg.GO_BUILD_TAGS *)
  GOARCH : string;                                    (* runtime.GOARCH *)
  GetSIFArch : string -> string;                      (* sif.GetSIFArch *)
  PluginSymbol : string;                              (* pluginapi.PluginSymbol *)
  HdrLaunch : string;
  HdrVersion : string;
  DataPartition : Z;
  DataGeneric : Z;
  DataGenericJSON : Z;
  DescrDefaultGroup : Z;
  DescrUnusedLink : Z;
  FsRaw : Z;
  PartData : Z
}.

Inductive Op : Type :=
| OsGetwd
| OsStat (name : string)
| IoutilTempDir (dir prefix : string)
| OsRemoveAll (path : string)
| Debugf (format : string) (args : list fmt_arg)
| OsEnviron
| CmdRun (cmd : Cmd)
| PluginOpen (path : string)
| PluginLookup (p : PluginObject) (symName : string)
| JsonMarshal (m : Manifest)
| IoutilWriteFile (filename data : string) (perm : Z)
| UuidNewV4
| OsOpen (name : string)
| OsCreate (name : string)
| FileStat (f : File)
| FileClose (f : File)
| SetPartExtra (d : DescriptorInput) (fs part : Z) (arch : string)
| SifCreateContainer (info : CreateInfo)
| GzClose (w : GzWriter)
| TarClose (w : TarWriter)
| FilepathWalk (root : string) (w : TarWriter)
| TarFileInfoHeader (fi : option FileInfo) (link : string)
| TarWriteHeader (w : TarWriter) (hdr : Header)
| IoCopy (dst : TarWriter) (src : File)
| GoPanic (msg : string).

Definition Rsp (o : Op) : Type :=
  match o with
  | OsGetwd => string * option error
  | OsStat _ => FileInfo * option error
  | IoutilTempDir _ _ => string * option error
  | OsRemoveAll _ => option error
  | Debugf _ _ => unit
  | OsEnviron => list string
  | CmdRun _ => option error
  | PluginOpen _ => PluginObject * option error
  | PluginLookup _ _ => Symbol * option error
  | JsonMarshal _ => string * option error
  | IoutilWriteFile _ _ _ => option error
  | UuidNewV4 => string
  | OsOpen _ => File * option error
  | OsCreate _ => File * option error
  | FileStat _ => FileInfo * option error
  | FileClose _ => option error
  | SetPartExtra _ _ _ _ => string * option error
  | SifCreateContainer _ => option error
  | GzClose _ => option error
  | TarClose _ => option error
  | FilepathWalk _ _ => option error
  | TarFileInfoHeader _ _ => Header * option error
  | TarWriteHeader _ _ => option error
  | IoCopy _ _ => Z * option error
  | GoPanic _ => Empty_set
  end.

(** What a trace records of a result. *)
Inductive Val : Type :=
| VUnit
| VErr (e : option error)
| VStr (s : string) (e : option error)
| VStrs (l : list string)
| VInt (n : Z) (e : option error)
| VFile (f : File) (e : option error)
| VInfo (fi : FileInfo) (e : option error)
| VObject (p : PluginObject) (e : option error)
| VSymbol (y : Symbol) (e : option error)
| VHeader (hd : Header) (e : option error).

Definition rec (o : Op) : Rsp o -> Val :=
  match o with
  | OsGetwd => fun r => VStr r.1 r.2
  | OsStat _ => fun r => VInfo r.1 r.2
  | IoutilTempDir _ _ => fun r => VStr r.1 r.2
  | OsRemoveAll _ => fun r => VErr r
  | Debugf _ _ => fun _ => VUnit
  | OsEnviron => fun r => VStrs r
  | CmdRun _ => fun r => VErr r
  | PluginOpen _ => fun r => VObject r.1 r.2
  | PluginLookup _ _ => fun r => VSymbol r.1 r.2
  | JsonMarshal _ => fun r => VStr r.1 r.2
  | IoutilWriteFile _ _ _ => fun r => VErr r
  | UuidNewV4 => fun r => VStr r None
  | OsOpen _ => fun r => VFile r.1 r.2
  | OsCreate _ => fun r => VFile r.1 r.2
  | FileStat _ => fun r => VInfo r.1 r.2
  | FileClose _ => fun r => VErr r
  | SetPartExtra _ _ _ _ => fun r => VStr r.1 r.2
  | SifCreateContainer _ => fun r => VErr r
  | GzClose _ => fun r => VErr r
  | TarClose _ => fun r => VErr r
  | FilepathWalk _ _ => fun r => VErr r
  | TarFileInfoHeader _ _ => fun r => VHeader r.1 r.2
  | TarWriteHeader _ _ => fun r => VErr r
  | IoCopy _ _ => fun r => VInt r.1 r.2
  | GoPanic _ => fun r => match r with end
  end.

Definition prog := fprog Op Rsp.
Definition F := Fn Op Rsp.
Definition Event := FEvent Op Val.

(** The double quote character, for format strings that contain it. *)
Definition dquote : string := String (Ascii.ascii_of_nat 34) EmptyString.

(** A run-time panic ends the process. *)
Definition panic {R A} (msg : string) : F R A :=
  FCall (GoPanic msg) (fun r : Empty_set => match r with end).

Section Functions.
Context (L : Lib).

(** [getSingularitySrcDir] *)
Definition getSingularitySrcDir : prog (string * option error) :=
  body (
    '(dir, err) ← call OsGetwd;
    (if err is Some e then return_ ("", Some e) else mret tt);;
    let canary := Join L [dir; "cmd"; "singularity"; "cli.go"] in
    '(_, err) ← call (OsStat canary);
    match err with
    | Some e =>
        if IsNotExist L e then
          return_ ("", Some (Errorf "cannot find %q" [AStr canary]))
        else
          return_ ("", Some (Errorf "unexpected error while looking for %q: %s"
                               [AStr canary; AErr e]))
    | None => return_ (dir, None)
    end).

(** [buildPlugin] *)
Definition buildPlugin (sourceDir mainPkg destDir : string) : prog (string * option error) :=
  body (
    '(workpath, err) ← invoke getSingularitySrcDir;
    (if err is Some _ then
       return_ ("", Some (ExtError "singularity source directory not found"))
     else mret tt);;
    let out := Join L [destDir; "plugin.so"] in
    let args := [ "build";
                  "-o"; out;
                  "-buildmode=plugin";
                  "-mod=vendor";
                  "-tags"; GO_BUILD_TAGS L;
                  "-gcflags=all=-trimpath=" +:+ workpath;
                  "-asmflags=all=-trimpath=" +:+ workpath;
                  Join L [sourceDir; mainPkg] ] in
    call (Debugf "Running: go %s" [AStr (String.concat " " args)]);;
    environ ← call OsEnviron;
    let buildcmd := {| cmdName := "go";
                       cmdArgs := args;
                       cmdDir := workpath;
                       cmdStderr := OsStderr;
                       cmdStdout := OsStdout;
                       cmdEnv := environ ++ ["GO111MODULE=on"] |} in
    err ← call (CmdRun buildcmd);
    return_ (out, err)).

(** [generateManifest] *)
Definition generateManifest (pluginPath destDir : string) : prog (string * option error) :=
  body (
    call (Debugf "Opening %q" [AStr pluginPath]);;
    '(pluginPointer, err) ← call (PluginOpen pluginPath);
    (if err is Some e then return_ ("", Some e) else mret tt);;
    '(sym, err) ← call (PluginLookup pluginPointer (PluginSymbol L));
    (if err is Some e then return_ ("", Some e) else mret tt);;
    match sym with
    | SymOther =>
        return_ ("", Some (Errorf ("symbol " +:+ dquote +:+ "Plugin" +:+ dquote
                                   +:+ " not of type Plugin") []))
    | SymPlugin p =>
        '(manifest, err) ← call (JsonMarshal (pluginManifest p));
        (if err is Some e then
           return_ ("", Some (Errorf "could not marshal manifest to json: %v" [AErr e]))
         else mret tt);;
        let out := Join L [destDir; "manifest.json"] in
        err ← call (IoutilWriteFile out manifest (6 * 64 + 4 * 8 + 4));
        (if err is Some e then
           return_ ("", Some (Errorf "could not write manifest: %v" [AErr e]))
         else mret tt);;
        return_ (out, None)
    end).

(** [getPluginObjDescr] *)
Definition getPluginObjDescr (objPath : string) : prog (DescriptorInput * option error) :=
  body (
    let objInput := {| Datatype := DataPartition L;
                       Groupid := DescrDefaultGroup L;
                       Link := DescrUnusedLink L;
                       dSize := 0;
                       Fname := objPath;
                       Fp := None;
                       Extra := "" |} in
    '(fp, err) ← call (OsOpen (Fname objInput));
    (if err is Some e then
       return_ (zero_descriptor,
                Some (Errorf "while opening plugin object file %s: %s"
                        [AStr (Fname objInput); AErr e]))
     else mret tt);;
    '(fstat, err) ← call (FileStat fp);
    (if err is Some e then
       return_ (zero_descriptor,
                Some (Errorf "while calling stat on plugin object file %s: %s"
                        [AStr (Fname objInput); AErr e]))
     else mret tt);;
    let objInput := {| Datatype := Datatype objInput;
                       Groupid := Groupid objInput;
                       Link := Link objInput;
                       dSize := Size fstat;
                       Fname := Fname objInput;
                       Fp := Some fp;
                       Extra := Extra objInput |} in
    '(extra, err) ← call (SetPartExtra objInput (FsRaw L) (PartData L) (GetSIFArch L (GOARCH L)));
    (if err is Some e then return_ (zero_descriptor, Some e) else mret tt);;
    return_ ({| Datatype := Datatype objInput;
                Groupid := Groupid objInput;
                Link := Link objInput;
                dSize := dSize objInput;
                Fname := Fname objInput;
                Fp := Fp objInput;
                Extra := extra |}, None)).

(** [getSourceGzObjDescr] *)
Definition getSourceGzObjDescr (objPath : string) : prog (DescriptorInput * option error) :=
  body (
    let objInput := {| Datatype := DataGeneric L;
                       Groupid := DescrDefaultGroup L;
                       Link := DescrUnusedLink L;
                       dSize := 0;
                       Fname := objPath;
                       Fp := None;
                       Extra := "" |} in
    '(fp, err) ← call (OsOpen (Fname objInput));
    (if err is Some e then
       return_ (zero_descriptor,
                Some (Errorf "while opening source gz file %s: %s"
                        [AStr (Fname objInput); AErr e]))
     else mret tt);;
    '(fstat, err) ← call (FileStat fp);
    (if err is Some e then
       return_ (zero_descriptor,
                Some (Errorf "while calling stat on source gz file %s: %s"
                        [AStr (Fname objInput); AErr e]))
     else mret tt);;
    return_ ({| Datatype := Datatype objInput;
                Groupid := Groupid objInput;
                Link := Link objInput;
                dSize := Size fstat;
                Fname := Fname objInput;
                Fp := Some fp;
                Extra := Extra objInput |}, None)).

(** [getPluginManifestDescr] *)
Definition getPluginManifestDescr (manifestPath : string)
    : prog (DescriptorInput * option error) :=
  body (
    let manifestInput := {| Datatype := DataGenericJSON L;
                            Groupid := DescrDefaultGroup L;
                            Link := DescrUnusedLink L;
                            dSize := 0;
                            Fname := manifestPath;
                            Fp := None;
                            Extra := "" |} in
    '(fp, err) ← call (OsOpen (Fname manifestInput));
    (if err is Some e then
       return_ (zero_descriptor,
                Some (Errorf "while opening manifest file %s: %s"
                        [AStr (Fname manifestInput); AErr e]))
     else mret tt);;
    '(fstat, err) ← call (FileStat fp);
    (if err is Some e then
       return_ (zero_descriptor,
                Some (Errorf "while calling stat on manifest file %s: %s"
                        [AStr (Fname manifestInput); AErr e]))
     else mret tt);;
    return_ ({| Datatype := Datatype manifestInput;
                Groupid := Groupid manifestInput;
                Link := Link manifestInput;
                dSize := Size fstat;
                Fname := Fname manifestInput;
                Fp := Some fp;
                Extra := Extra manifestInput |}, None)).

(** [if fp, ok := d.Fp.(io.Closer); ok { defer fp.Close() }] *)
Definition defer_Close_Fp {R A} (d : DescriptorInput) (rest : F R A) : F R A :=
  match Fp d with
  | Some fp => defer (FileClose fp) rest
  | None => rest
  end.

(** [makeSIF] *)
Definition makeSIF (sifPath pluginPath manifestPath gzPath : string) : prog (option error) :=
  body (
    id ← call UuidNewV4;
    let plCreateInfo := {| Pathname := sifPath;
                           Launchstr := HdrLaunch L;
                           Sifversion := HdrVersion L;
                           ID := id;
                           InputDescr := [] |} in
    '(plObjInput, err) ← invoke (getPluginObjDescr pluginPath);
    (if err is Some e then return_ (Some e) else mret tt);;
    defer_Close_Fp plObjInput (
      let inputs := InputDescr plCreateInfo ++ [plObjInput] in
      '(plManifestInput, err) ← invoke (getPluginManifestDescr manifestPath);
      (if err is Some e then return_ (Some e) else mret tt);;
      defer_Close_Fp plManifestInput (
        let inputs := inputs ++ [plManifestInput] in
        '(plGzInput, err) ← invoke (getSourceGzObjDescr gzPath);
        (if err is Some e then return_ (Some e) else mret tt);;
        defer_Close_Fp plGzInput (
          let inputs := inputs ++ [plGzInput] in
          call (OsRemoveAll sifPath);;
          err ← call (SifCreateContainer {| Pathname := Pathname plCreateInfo;
                                            Launchstr := Launchstr plCreateInfo;
                                            Sifversion := Sifversion plCreateInfo;
                                            ID := ID plCreateInfo;
                                            InputDescr := inputs |});
          (if err is Some e then
             return_ (Some (Errorf "while creating sif file: %s" [AErr e]))
           else mret tt);;
          return_ None)))).

(** The function passed to [filepath.Walk] by [compressDir]; its third
    argument, the error of the walk, is shadowed before it is read. *)
Definition walkFn (trw : TarWriter) (file : string) (fi : option FileInfo)
    : prog (option error) :=
  body (
    '(header, err) ← call (TarFileInfoHeader fi file);
    (if err is Some e then return_ (Some e) else mret tt);;
    let header := {| hdrName := file; hdrSize := hdrSize header; hdrIsDir := hdrIsDir header |} in
    err ← call (TarWriteHeader trw header);
    (if err is Some e then return_ (Some e) else mret tt);;
    match fi with
    | None => panic "invalid memory address or nil pointer dereference"
    | Some info =>
        if IsDir info then return_ None
        else
          '(data, err) ← call (OsOpen file);
          (if err is Some e then return_ (Some e) else mret tt);;
          defer (FileClose data) (
            '(_, err) ← call (IoCopy trw data);
            (if err is Some e then return_ (Some e) else mret tt);;
            return_ None)
    end).

(** [compressDir].  [filepath.Walk] with [walkFn] is one operation here:
    which entries the walk visits, and so how often it calls the function,
    is the standard library's business; its result is any error. *)
Definition compressDir (sourcePath destDir : string) : prog (string * option error) :=
  body (
    '(wd, err) ← call OsGetwd;
    (if err is Some e then
       return_ ("", Some (Errorf "Could not get working dir: %s" [AErr e]))
     else mret tt);;
    let '(sourcePath, err) := Rel L wd sourcePath in
    (if err is Some e then
       return_ ("", Some (Errorf "Could not make source path relative: %s" [AErr e]))
     else mret tt);;
    let destFilePath := Join L [destDir; "plugin.tar.gz"] in
    '(destFile, err) ← call (OsCreate destFilePath);
    (if err is Some e then
       return_ ("", Some (Errorf "could not create plugin gzip file: %s" [AErr e]))
     else mret tt);;
    defer (FileClose destFile) (
      let gzw := {| gzOut := destFile |} in
      defer (GzClose gzw) (
        let trw := {| tarOut := gzw |} in
        defer (TarClose trw) (
          err ← call (FilepathWalk sourcePath trw);
          (if err is Some e then
             return_ ("", Some (Errorf "could not compress dir: %s" [AErr e]))
           else mret tt);;
          return_ (destFilePath, None))))).

(** [CompilePlugin] *)
Definition CompilePlugin (sourceDir mainPkg destSif tmpDir : string) : prog (option error) :=
  body (
    '(pluginDir, err) ← call (IoutilTempDir tmpDir (Base L sourceDir));
    (if err is Some e then
       return_ (Some (Errorf "could not create temp dir: %v" [AErr e]))
     else mret tt);;
    defer (OsRemoveAll pluginDir) (
      '(pluginPath, err) ← invoke (buildPlugin sourceDir mainPkg pluginDir);
      (if err is Some e then
         return_ (Some (Errorf "while building plugin .so: %v" [AErr e]))
       else mret tt);;
      '(manifestPath, err) ← invoke (generateManifest pluginPath pluginDir);
      (if err is Some e then
         return_ (Some (Errorf "while generating plugin manifest: %s" [AErr e]))
       else mret tt);;
      '(gzPath, err) ← invoke (compressDir sourceDir pluginDir);
      (if err is Some e then
         return_ (Some (Errorf "while generating source gz: %s" [AErr e]))
       else mret tt);;
      err ← invoke (makeSIF destSif pluginPath manifestPath gzPath);
      (if err is Some e then
         return_ (Some (Errorf "while making sif file: %s" [AErr e]))
       else mret tt);;
      return_ None)).

End Functions.

(** *** Vocabulary on traces *)

(** The error carried by a recorded result. *)
Definition val_err (v : Val) : option error :=
  match v with
  | VUnit | VStrs _ => None
  | VErr e | VStr _ e | VInt _ e | VFile _ e | VInfo _ e | VObject _ e | VSymbol _ e
  | VHeader _ e => e
  end.

(** Operations whose error the caller drops. *)
Definition error_dropped (o : Op) : Prop :=
  match o with
  | OsRemoveAll _ | FileClose _ | GzClose _ | TarClose _ => True
  | _ => False
  end.

Definition step_ok (e : Event) : Prop :=
  match e with
  | FEv o (Some v) => error_dropped o \/ val_err v = None
  | FEv _ None => False
  end.

(** The directory that the first step of [CompilePlugin] created. *)
Definition tempdir_of (t : list Event) : string :=
  match t with
  | FEv (IoutilTempDir _ _) (Some (VStr d _)) :: _ => d
  | _ => ""
  end.

(** The files that a trace opened for reading, and those it closed, in
    order. *)
Fixpoint opened (t : list Event) : list File :=
  match t with
  | FEv (OsOpen _) (Some (VFile f None)) :: t' => f :: opened t'
  | _ :: t' => opened t'
  | [] => []
  end.

Fixpoint closed (t : list Event) : list File :=
  match t with
  | FEv (FileClose f) _ :: t' => f :: closed t'
  | _ :: t' => closed t'
  | [] => []
  end.

Fixpoint opened_paths (t : list Event) : list string :=
  match t with
  | FEv (OsOpen q) (Some (VFile _ None)) :: t' => q :: opened_paths t'
  | _ :: t' => opened_paths t'
  | [] => []
  end.

(** A descriptor getter failed after it had opened its file. *)
Definition failed_after_open (e : Event) : bool :=
  match e with
  | FEv (FileStat _) (Some (VInfo _ (Some _))) => true
  | FEv (SetPartExtra _ _ _ _) (Some (VStr _ (Some _))) => true
  | _ => false
  end.

(** *** A scripted environment for concrete runs

    Every operation returns a fixed answer, with the error [e]; a panic
    ends the process. *)
Definition answer (e : option error) (o : Op) : option (Rsp o) :=
  match o as o return option (Rsp o) with
  | OsGetwd => Some ("/go/src/singularity", e)
  | OsStat _ => Some ({| Size := 4096; IsDir := false |}, e)
  | IoutilTempDir dir prefix => Some (dir +:+ "/" +:+ prefix +:+ "042", e)
  | OsRemoveAll _ => Some e
  | Debugf _ _ => Some tt
  | OsEnviron => Some ["HOME=/root"]
  | CmdRun _ => Some e
  | PluginOpen path => Some ({| openedFrom := path |}, e)
  | PluginLookup _ _ =>
      Some (SymPlugin {| pluginManifest := {| manifestOf := "example-plugin" |} |}, e)
  | JsonMarshal m => Some ("{name: " +:+ manifestOf m +:+ "}", e)
  | IoutilWriteFile _ _ _ => Some e
  | UuidNewV4 => Some "7f8f1d5e"
  | OsOpen name => Some ({| Name := name |}, e)
  | OsCreate name => Some ({| Name := name |}, e)
  | FileStat _ => Some ({| Size := 1024; IsDir := false |}, e)
  | FileClose _ => Some e
  | SetPartExtra _ _ _ _ => Some ("raw/data/amd64", e)
  | SifCreateContainer _ => Some e
  | GzClose _ => Some e
  | TarClose _ => Some e
  | FilepathWalk _ _ => Some e
  | TarFileInfoHeader fi link =>
      Some ({| hdrName := last_segment link;
               hdrSize := match fi with Some i => Size i | None => 0 end;
               hdrIsDir := match fi with Some i => IsDir i | None => false end |}, e)
  | TarWriteHeader _ _ => Some e
  | IoCopy _ _ => Some (1024%Z, e)
  | GoPanic _ => None
  end.

(** The operations selected by [fails] fail; the others succeed. *)
Definition scripted (fails : Op -> bool) : FHandler Op Rsp unit :=
  fun o s => (s, answer (if fails o then Some (ExtError "failed") else None) o).

Definition no_failure (o : Op) : bool := false.

Definition stat_fails (o : Op) : bool :=
  match o with OsStat _ => true | _ => false end.

Definition manifest_stat_fails (o : Op) : bool :=
  match o with
  | FileStat f => String.eqb (Name f) "/tmp/example042/manifest.json"
  | _ => false
  end.

Definition sample_lib : Lib := {|
  Join := String.concat "/";
  Base := last_segment;
  Rel := fun _ target => (target, None);
  IsNotExist := fun _ => true;
  GO_BUILD_TAGS := "containers_image_openpgp sylog";
  GOARCH := "amd64";
  GetSIFArch := fun _ => "02";
  PluginSymbol := "Plugin";
  HdrLaunch := "#!/usr/bin/env run-singularity";
  HdrVersion := "01";
  DataPartition := 16388;
  DataGeneric := 16386;
  DataGenericJSON := 16392;
  DescrDefaultGroup := 1;
  DescrUnusedLink := 0;
  FsRaw := 4;
  PartData := 3
|}.

Definition example_tar : TarWriter :=
  {| tarOut := {| gzOut := {| Name := "/tmp/example042/plugin.tar.gz" |} |} |}.

Definition compile_example :=
  frun rec (scripted no_failure)
    (CompilePlugin sample_lib "plugins/example" "." "example.sif" "/tmp") tt.

Definition make_example_sif (fails : Op -> bool) :=
  frun rec (scripted fails)
    (makeSIF sample_lib "example.sif" "/tmp/example042/plugin.so"
       "/tmp/example042/manifest.json" "/tmp/example042/plugin.tar.gz") tt.

Definition build_example (fails : Op -> bool) :=
  frun rec (scripted fails) (buildPlugin sample_lib "plugins/example" "." "/tmp/example042") tt.

Definition manifest_example :=
  frun rec (scripted no_failure)
    (generateManifest sample_lib "/tmp/example042/plugin.so" "/tmp/example042") tt.

Definition compress_example :=
  frun rec (scripted no_failure) (compressDir sample_lib "plugins/example" "/tmp/example042") tt.

Definition walk_example :=
  frun rec (scripted no_failure)
    (walkFn example_tar "plugins/example/main.go" (Some {| Size := 1024; IsDir := false |})) tt.

Definition example_descriptor (datatype : Z) (file extra : string) : DescriptorInput :=
  {| Datatype := datatype; Groupid := 1; Link := 0; dSize := 1024;
     Fname := "/tmp/example042/" +:+ file;
     Fp := Some {| Name := "/tmp/example042/" +:+ file |};
     Extra := extra |}.

Definition example_info : CreateInfo :=
  {| Pathname := "example.sif";
     Launchstr := "#!/usr/bin/env run-singularity";
     Sifversion := "01";
     ID := "7f8f1d5e";
     InputDescr := [ example_descriptor 16388 "plugin.so" "raw/data/amd64";
                     example_descriptor 16392 "manifest.json" "";
                     example_descriptor 16386 "plugin.tar.gz" "" ] |}.

Definition example_command : Cmd :=
  {| cmdName := "go";
     cmdArgs := [ "build"; "-o"; "/tmp/example042/plugin.so"; "-buildmode=plugin";
                  "-mod=vendor"; "-tags"; "containers_image_openpgp sylog";
                  "-gcflags=all=-trimpath=/go/src/singularity";
                  "-asmflags=all=-trimpath=/go/src/singularity";
                  "plugins/example/." ];
     cmdDir := "/go/src/singularity";
     cmdStderr := OsStderr;
     cmdStdout := OsStdout;
     cmdEnv := ["HOME=/root"; "GO111MODULE=on"] |}.

End PluginCompile.

(** ** The build command: [run] and [makeDockerCredentials] *)

Module BuildCmd.

(** The package-level variables that the flags of the command set. *)
Record Globals := {
  sandbox : bool;
  update : bool;
  remote : bool;
  detached : bool;
  force : bool;
  noTest : bool;
  noHTTPS : bool;
  noCleanUp : bool;
  dockerLogin : bool;
  authToken : string;
  authWarning : string;
  libraryURL : string;
  builderURL : string;
  tmpDir : string;
  sections : list string;
  dockerUsername : string;
  dockerPassword : string
}.

Definition set_dockerUsername (u : string) (g : Globals) : Globals :=
  {| sandbox := sandbox g; update := update g; remote := remote g; detached := detached g;
     force := force g; noTest := noTest g; noHTTPS := noHTTPS g; noCleanUp := noCleanUp g;
     dockerLogin := dockerLogin g; authToken := authToken g; authWarning := authWarning g;
     libraryURL := libraryURL g; builderURL := builderURL g; tmpDir := tmpDir g;
     sections := sections g; dockerUsername := u; dockerPassword := dockerPassword g |}.

Definition set_dockerPassword (p : string) (g : Globals) : Globals :=
  {| sandbox := sandbox g; update := update g; remote := remote g; detached := detached g;
     force := force g; noTest := noTest g; noHTTPS := noHTTPS g; noCleanUp := noCleanUp g;
     dockerLogin := dockerLogin g; authToken := authToken g; authWarning := authWarning g;
     libraryURL := libraryURL g; builderURL := builderURL g; tmpDir := tmpDir g;
     sections := sections g; dockerUsername := dockerUsername g; dockerPassword := p |}.

(** [*pflag.Flag]: whether the flag was set, and its value; the flag set of
    the command maps names to flags, [Lookup] of an undefined name is
    [nil]. *)
Record Flag := { Changed : bool; Value : string }.

(** [types.Options], the fields set by [run]. *)
Record Options := {
  TmpDir : string;
  Update : bool;
  Force : bool;
  Sections : list string;
  NoTest : bool;
  NoHTTPS : bool;
  NoCleanUp : bool;
  DockerAuthConfig' : option DockerAuthConfig
}.

Record Definition_ := { defOf : string }.
Record RemoteBuilder := { rbDest : string }.
Record Build := { buildOf : string }.

(** The format of a [Fatalf]: a literal, or the text of an error
    ([sylog.Fatalf(err.Error())]). *)
Inductive Format : Type := Lit (s : string) | ErrorText (e : error).

Inductive Op : Type :=
| SylabsToken (args : list string)
| CheckBuildTarget (path : string) (update : bool)
| OsExit (code : Z)
| Fatalf (format : Format) (args : list fmt_arg)
| DefinitionFromSpec (spec : string)
| RemoteBuilderNew (imagePath libraryURL : string) (d : Definition_) (isDetached force : bool)
                   (builderAddr authToken : string)
| RemoteBuild (b : RemoteBuilder)
| CheckSections
| AskQuestion (prompt : string)
| AskQuestionNoEcho (prompt : string)
| NewBuild (spec dest format libraryURL authToken : string) (opts : Options)
| BuildFull (b : Build)
| GoPanic (msg : string)
(* the earlier version of the file *)
| SypluginInit
| NewBuild0 (spec dest format : string) (force update : bool) (sections : list string)
            (noTest : bool) (libraryURL authToken : string).

Definition Rsp (o : Op) : Type :=
  match o with
  | SylabsToken _ => unit
  | CheckBuildTarget _ _ => bool
  | OsExit _ => Empty_set
  | Fatalf _ _ => Empty_set
  | DefinitionFromSpec _ => Definition_ * option error
  | RemoteBuilderNew _ _ _ _ _ _ _ => RemoteBuilder * option error
  | RemoteBuild _ => option error
  | CheckSections => option error
  | AskQuestion _ => string * option error
  | AskQuestionNoEcho _ => string * option error
  | NewBuild _ _ _ _ _ _ => Build * option error
  | BuildFull _ => option error
  | GoPanic _ => Empty_set
  | SypluginInit => unit
  | NewBuild0 _ _ _ _ _ _ _ _ _ => Build * option error
  end.

Inductive Val : Type :=
| VUnit
| VBool (b : bool)
| VErr (e : option error)
| VStr (s : string) (e : option error)
| VDef (d : Definition_) (e : option error)
| VRemote (b : RemoteBuilder) (e : option error)
| VBuild (b : Build) (e : option error).

Definition rec (o : Op) : Rsp o -> Val :=
  match o with
  | SylabsToken _ => fun _ => VUnit
  | CheckBuildTarget _ _ => fun r => VBool r
  | OsExit _ => fun r => match r with end
  | Fatalf _ _ => fun r => match r with end
  | DefinitionFromSpec _ => fun r => VDef r.1 r.2
  | RemoteBuilderNew _ _ _ _ _ _ _ => fun r => VRemote r.1 r.2
  | RemoteBuild _ => fun r => VErr r
  | CheckSections => fun r => VErr r
  | AskQuestion _ => fun r => VStr r.1 r.2
  | AskQuestionNoEcho _ => fun r => VStr r.1 r.2
  | NewBuild _ _ _ _ _ _ => fun r => VBuild r.1 r.2
  | BuildFull _ => fun r => VErr r
  | GoPanic _ => fun r => match r with end
  | SypluginInit => fun _ => VUnit
  | NewBuild0 _ _ _ _ _ _ _ _ _ => fun r => VBuild r.1 r.2
  end.

Definition prog := fprog Op Rsp.
Definition F := Fn Op Rsp.
Definition Event := FEvent Op Val.

(** Calls that do not return: [sylog.Fatalf], [os.Exit], a panic. *)
Definition fatalf {R A} (format : Format) (args : list fmt_arg) : F R A :=
  FCall (Fatalf format args) (fun r : Empty_set => match r with end).
Definition exit {R A} (code : Z) : F R A :=
  FCall (OsExit code) (fun r : Empty_set => match r with end).
Definition panic {R A} (msg : string) : F R A :=
  FCall (GoPanic msg) (fun r : Empty_set => match r with end).

(** Dereference of a [*pflag.Flag]. *)
Definition deref {R} (f : option Flag) : F R Flag :=
  match f with
  | Some fl => mret fl
  | None => panic "invalid memory address or nil pointer dereference"
  end.

(** The state that [makeDockerCredentials] reads and writes. *)
Record State := { globals : Globals; flags : gmap string Flag }.

(** [makeDockerCredentials]; its results are named [(authConf, err)], and
    the state it leaves is returned with them. *)
Definition makeDockerCredentials (st : State)
    : prog (State * (option DockerAuthConfig * option error)) :=
  body (
    let g := globals st in
    let fs := flags st in
    (* usernameFlag and passwordFlag are pointers into the flag set *)
    st ←
      (if dockerLogin g then
         usernameFlag ← deref (fs !! "docker-username");
         st ←
           (if negb (Changed usernameFlag) then
              '(u, err) ← call (AskQuestion "Enter Docker Username: ");
              let g := set_dockerUsername u g in
              (if err is Some e then
                 return_ ({| globals := g; flags := fs |}, (None, Some e))
               else mret tt);;
              mret {| globals := g;
                      flags := <["docker-username" := {| Changed := true; Value := u |}]> fs |}
            else mret {| globals := g; flags := fs |});
         let g := globals st in
         let fs := flags st in
         '(p, err) ← call (AskQuestionNoEcho "Enter Docker Password: ");
         let g := set_dockerPassword p g in
         (if err is Some e then
            return_ ({| globals := g; flags := fs |}, (None, Some e))
          else mret tt);;
         _ ← deref (fs !! "docker-password");
         mret {| globals := g;
                 flags := <["docker-password" := {| Changed := true; Value := p |}]> fs |}
       else mret st);
    let g := globals st in
    let fs := flags st in
    usernameFlag ← deref (fs !! "docker-username");
    if Changed usernameFlag then
      passwordFlag ← deref (fs !! "docker-password");
      if Changed passwordFlag then
        return_ (st, (Some {| Username := dockerUsername g; Password := dockerPassword g |},
                      None))
      else return_ (st, (None, None))
    else return_ (st, (None, None))).

(** [preRun] *)
Definition preRun (args : list string) : prog unit :=
  body (call (SylabsToken args);; return_ tt).

(** [run]; [args[0]] and [args[1]] panic when [args] is too short. *)
Definition run (st : State) (args : list string) : prog unit :=
  body (
    let g := globals st in
    let buildFormat := if sandbox g then "sandbox" else "sif" in
    match args with
    | dest :: spec :: _ =>
        ok ← call (CheckBuildTarget dest (update g));
        (if negb ok then exit 1 else mret tt);;
        if remote g then
          (if String.eqb (authToken g) "" then
             fatalf (Lit "Unable to submit build job: %v") [AStr (authWarning g)]
           else mret tt);;
          '(def, err) ← call (DefinitionFromSpec spec);
          (if err is Some e then
             fatalf (Lit "Unable to build from %s: %v") [AStr spec; AErr e]
           else mret tt);;
          '(b, err) ← call (RemoteBuilderNew dest (libraryURL g) def (detached g) (force g)
                              (builderURL g) (authToken g));
          (if err is Some e then fatalf (Lit "Failed to create builder: %v") [AErr e]
           else mret tt);;
          err ← call (RemoteBuild b);
          (if err is Some e then fatalf (Lit "While performing build: %v") [AErr e]
           else mret tt);;
          return_ tt
        else
          err ← call CheckSections;
          (if err is Some e then fatalf (ErrorText e) [] else mret tt);;
          '(_, (authConf, err)) ← invoke (makeDockerCredentials st);
          (if err is Some e then
             fatalf (Lit "While creating Docker credentials: %v") [AErr e]
           else mret tt);;
          '(b, err) ← call (NewBuild spec dest buildFormat (libraryURL g) (authToken g)
                              {| TmpDir := tmpDir g;
                                 Update := update g;
                                 Force := force g;
                                 Sections := sections g;
                                 NoTest := noTest g;
                                 NoHTTPS := noHTTPS g;
                                 NoCleanUp := noCleanUp g;
                                 DockerAuthConfig' := authConf |});
          (if err is Some e then fatalf (Lit "Unable to create build: %v") [AErr e]
           else mret tt);;
          err ← call (BuildFull b);
          (if err is Some e then fatalf (Lit "While performing build: %v") [AErr e]
           else mret tt);;
          return_ tt
    | _ => panic "index out of range"
    end).

(** The earlier version of the same file. *)
Module Earlier.

(** [preRun] *)
Definition preRun (args : list string) : prog unit :=
  body (call (SylabsToken args);; call SypluginInit;; return_ tt).

(** [run]; the error of the remote [b.Build] is not looked at. *)
Definition run (st : State) (args : list string) : prog unit :=
  body (
    let g := globals st in
    let buildFormat := if sandbox g then "sandbox" else "sif" in
    match args with
    | dest :: spec :: _ =>
        ok ← call (CheckBuildTarget dest (update g));
        (if negb ok then exit 1 else mret tt);;
        if remote g then
          (if String.eqb (authToken g) "" then
             fatalf (Lit "Unable to submit build job: %v") [AStr (authWarning g)]
           else mret tt);;
          '(def, err) ← call (DefinitionFromSpec spec);
          (if err is Some e then
             fatalf (Lit "Unable to build from %s: %v") [AStr spec; AErr e]
           else mret tt);;
          '(b, err) ← call (RemoteBuilderNew dest (libraryURL g) def (detached g) (force g)
                              (builderURL g) (authToken g));
          (if err is Some e then fatalf (Lit "failed to create builder: %v") [AErr e]
           else mret tt);;
          call (RemoteBuild b);;
          return_ tt
        else
          err ← call CheckSections;
          (if err is Some e then fatalf (ErrorText e) [] else mret tt);;
          '(b, err) ← call (NewBuild0 spec dest buildFormat (force g) (update g) (sections g)
                              (noTest g) (libraryURL g) (authToken g));
          (if err is Some e then fatalf (Lit "Unable to create build: %v") [AErr e]
           else mret tt);;
          err ← call (BuildFull b);
          (if err is Some e then fatalf (Lit "While performing build: %v") [AErr e]
           else mret tt);;
          return_ tt
    | _ => panic "index out of range"
    end).

End Earlier.

(** *** Vocabulary on traces *)

Definition is_prompt (o : Op) : Prop :=
  match o with
  | AskQuestion _ | AskQuestionNoEcho _ => True
  | _ => False
  end.

Definition is_build (o : Op) : Prop :=
  match o with
  | RemoteBuild _ | BuildFull _ => True
  | _ => False
  end.

(** The error carried by a recorded result. *)
Definition val_err (v : Val) : option error :=
  match v with
  | VUnit | VBool _ => None
  | VErr e | VStr _ e | VDef _ e | VRemote _ e | VBuild _ e => e
  end.

(** The step returned, and returned what lets the command go on. *)
Definition step_ok (e : Event) : Prop :=
  match e with
  | FEv (CheckBuildTarget _ _) (Some v) => v = VBool true
  | FEv _ (Some v) => val_err v = None
  | FEv _ None => False
  end.

(** What [run] does after the failure of a step: the call that ends the
    process. *)
Definition fatal_after (spec : string) (e : Event) : option Op :=
  match e with
  | FEv (CheckBuildTarget _ _) (Some (VBool false)) => Some (OsExit 1)
  | FEv (DefinitionFromSpec _) (Some (VDef _ (Some e))) =>
      Some (Fatalf (Lit "Unable to build from %s: %v") [AStr spec; AErr e])
  | FEv (RemoteBuilderNew _ _ _ _ _ _ _) (Some (VRemote _ (Some e))) =>
      Some (Fatalf (Lit "Failed to create builder: %v") [AErr e])
  | FEv (RemoteBuild _) (Some (VErr (Some e))) =>
      Some (Fatalf (Lit "While performing build: %v") [AErr e])
  | FEv CheckSections (Some (VErr (Some e))) => Some (Fatalf (ErrorText e) [])
  | FEv (AskQuestion _) (Some (VStr _ (Some e)))
  | FEv (AskQuestionNoEcho _) (Some (VStr _ (Some e))) =>
      Some (Fatalf (Lit "While creating Docker credentials: %v") [AErr e])
  | FEv (NewBuild _ _ _ _ _ _) (Some (VBuild _ (Some e))) =>
      Some (Fatalf (Lit "Unable to create build: %v") [AErr e])
  | FEv (BuildFull _) (Some (VErr (Some e))) =>
      Some (Fatalf (Lit "While performing build: %v") [AErr e])
  | _ => None
  end.

(** *** A scripted environment for concrete runs

    Every operation returns a fixed answer, with the error [e]; the target
    check answers [ok]; the calls that do not return end the process. *)
Definition answer (ok : bool) (e : option error) (o : Op) : option (Rsp o) :=
  match o as o return option (Rsp o) with
  | SylabsToken _ => Some tt
  | CheckBuildTarget _ _ => Some ok
  | OsExit _ => None
  | Fatalf _ _ => None
  | DefinitionFromSpec spec => Some ({| defOf := spec |}, e)
  | RemoteBuilderNew imagePath _ _ _ _ _ _ => Some ({| rbDest := imagePath |}, e)
  | RemoteBuild _ => Some e
  | CheckSections => Some e
  | AskQuestion _ => Some ("alice", e)
  | AskQuestionNoEcho _ => Some ("s3cret", e)
  | NewBuild spec _ _ _ _ _ => Some ({| buildOf := spec |}, e)
  | BuildFull _ => Some e
  | GoPanic _ => None
  | SypluginInit => Some tt
  | NewBuild0 spec _ _ _ _ _ _ _ _ => Some ({| buildOf := spec |}, e)
  end.

(** The operations selected by [fails] fail; the others succeed. *)
Definition scripted (fails : Op -> bool) : FHandler Op Rsp unit :=
  fun o s => (s, answer (negb (fails o)) (if fails o then Some (ExtError "failed") else None) o).

Definition no_failure (o : Op) : bool := false.

Definition password_prompt_fails (o : Op) : bool :=
  match o with AskQuestionNoEcho _ => true | _ => false end.

Definition remote_build_fails (o : Op) : bool :=
  match o with RemoteBuild _ => true | _ => false end.

(** The state of the command: [isRemote] and [login] are the flags
    [--remote] and [--docker-login]; with [given], [--docker-username] and
    [--docker-password] were on the command line. *)
Definition sample_state (isRemote login given : bool) : State :=
  {| globals := {| sandbox := false; update := false; remote := isRemote;
                   detached := false; force := false; noTest := false; noHTTPS := false;
                   noCleanUp := false; dockerLogin := login; authToken := "token";
                   authWarning := "no token"; libraryURL := "https://library.sylabs.io";
                   builderURL := "https://build.sylabs.io"; tmpDir := "";
                   sections := ["all"];
                   dockerUsername := if given then "bob" else "";
                   dockerPassword := if given then "hunter2" else "" |};
     flags := {[ "docker-username" := {| Changed := given;
                                          Value := if given then "bob" else "" |};
                 "docker-password" := {| Changed := given;
                                          Value := if given then "hunter2" else "" |} ]} |}.

Definition build_args : list string := ["alpine.sif"; "docker://alpine"].

Definition credentials_example (fails : Op -> bool) (login given : bool) :=
  frun rec (scripted fails) (makeDockerCredentials (sample_state false login given)) tt.

Definition run_example (fails : Op -> bool) (isRemote login : bool) :=
  frun rec (scripted fails) (run (sample_state isRemote login false) build_args) tt.

Definition earlier_run_example :=
  frun rec (scripted remote_build_fails)
    (Earlier.run (sample_state true false false) build_args) tt.

(** The state after the two prompts were answered. *)
Definition answered_state : State :=
  let st := sample_state false true false in
  {| globals := set_dockerPassword "s3cret" (set_dockerUsername "alice" (globals st));
     flags := <["docker-password" := {| Changed := true; Value := "s3cret" |}]>
                (<["docker-username" := {| Changed := true; Value := "alice" |}]> (flags st)) |}.

(** The state after the user name prompt was answered and the password
    prompt failed. *)
Definition half_answered_state : State :=
  let st := sample_state false true false in
  {| globals := set_dockerPassword "s3cret" (set_dockerUsername "alice" (globals st));
     flags := <["docker-username" := {| Changed := true; Value := "alice" |}]> (flags st) |}.

Definition example_options : Options :=
  {| TmpDir := ""; Update := false; Force := false; Sections := ["all"]; NoTest := false;
     NoHTTPS := false; NoCleanUp := false;
     DockerAuthConfig' := Some {| Username := "alice"; Password := "s3cret" |} |}.

End BuildCmd.

(** ** [libexec]: the pull functions of the earlier command line *)

Module Libexec.

(** [types.Options], the fields set by [PullOciImage]. *)
Record Options := { Force : bool; NoHTTPS : bool }.

Record Build := { buildOf : string }.

Inductive Op : Type :=
| LibraryDownloadImage (image libraryRef libraryURL : string) (force : bool)
                       (authToken : string)
| ShubDownloadImage (filePath shubRef : string) (force : bool)
| NewBuild (spec dest format libraryURL authToken : string) (opts : Options)
| BuildFull (b : Build)
| Fatalf (format : string) (args : list fmt_arg).

Definition Rsp (o : Op) : Type :=
  match o with
  | LibraryDownloadImage _ _ _ _ _ => option error
  | ShubDownloadImage _ _ _ => option error
  | NewBuild _ _ _ _ _ _ => Build * option error
  | BuildFull _ => option error
  | Fatalf _ _ => Empty_set
  end.

Inductive Val : Type :=
| VErr (e : option error)
| VBuild (b : Build) (e : option error).

Definition rec (o : Op) : Rsp o -> Val :=
  match o with
  | LibraryDownloadImage _ _ _ _ _ => fun r => VErr r
  | ShubDownloadImage _ _ _ => fun r => VErr r
  | NewBuild _ _ _ _ _ _ => fun r => VBuild r.1 r.2
  | BuildFull _ => fun r => VErr r
  | Fatalf _ _ => fun r => match r with end
  end.

Definition prog := fprog Op Rsp.
Definition F := Fn Op Rsp.
Definition Event := FEvent Op Val.

Definition fatalf {R A} (format : string) (args : list fmt_arg) : F R A :=
  FCall (Fatalf format args) (fun r : Empty_set => match r with end).

(** [PullLibraryImage] *)
Definition PullLibraryImage (image libraryRef libraryURL : string) (force : bool)
    (authToken : string) : prog unit :=
  body (
    err ← call (LibraryDownloadImage image libraryRef libraryURL force authToken);
    (if err is Some e then fatalf "%v\n" [AErr e] else mret tt);;
    return_ tt).

(** [PullShubImage] *)
Definition PullShubImage (filePath shubRef : string) (force : bool) : prog unit :=
  body (
    err ← call (ShubDownloadImage filePath shubRef force);
    (if err is Some e then fatalf "%v\n" [AErr e] else mret tt);;
    return_ tt).

(** [PullOciImage] *)
Definition PullOciImage (path uri : string) (force noHTTPS : bool) : prog unit :=
  body (
    '(b, err) ← call (NewBuild uri path "sif" "" ""
                        {| Force := force; NoHTTPS := noHTTPS |});
    (if err is Some e then fatalf "Unable to pull %v: %v" [AStr uri; AErr e] else mret tt);;
    err ← call (BuildFull b);
    (if err is Some e then fatalf "Unable to pull %v: %v" [AStr uri; AErr e] else mret tt);;
    return_ tt).

(** A scripted environment for concrete runs: the operations selected by
    [fails] fail, the others succeed; [Fatalf] ends the process. *)
Definition scripted (fails : Op -> bool) : FHandler Op Rsp unit :=
  fun o s =>
    let e := if fails o then Some (ExtError "failed") else None in
    (s, match o as o return option (Rsp o) with
        | LibraryDownloadImage _ _ _ _ _ => Some e
        | ShubDownloadImage _ _ _ => Some e
        | NewBuild spec _ _ _ _ _ => Some ({| buildOf := spec |}, e)
        | BuildFull _ => Some e
        | Fatalf _ _ => None
        end).

Definition full_fails (o : Op) : bool :=
  match o with BuildFull _ => true | _ => false end.

Definition pull_oci_example :=
  frun rec (scripted full_fails) (PullOciImage "alpine.sif" "docker://alpine" false false) tt.

End Libexec.

(** ** [printProgress] *)

Module Progress.

(** [*pb.ProgressBar], the fields set by [printProgress]; [io.Reader] and
    [io.Writer] are named streams. *)
Inductive Units : Type := U_NO | U_BYTES.

Record Bar := { Total : Z; BarUnits : Units; ShowTimeLeft : bool; ShowSpeed : bool }.

Inductive Reader : Type :=
| Stream (name : string)
| ProxyReader (bar : Bar) (r : Reader).

Record Writer := { writerName : string }.

Inductive Op : Type :=
| BarStart (bar : Bar)
| IoCopy (dst : Writer) (src : Reader)
| BarFinish (bar : Bar).

Definition Rsp (o : Op) : Type :=
  match o with
  | BarStart _ => unit
  | IoCopy _ _ => Z * option error
  | BarFinish _ => unit
  end.

Inductive Val : Type := VUnit | VInt (n : Z) (e : option error).

Definition rec (o : Op) : Rsp o -> Val :=
  match o with
  | BarStart _ => fun _ => VUnit
  | IoCopy _ _ => fun r => VInt r.1 r.2
  | BarFinish _ => fun _ => VUnit
  end.

Definition prog := fprog Op Rsp.
Definition Event := FEvent Op Val.

(** [printProgress] *)
Definition printProgress (totalSize : Z) (r : Reader) (w : Writer) : prog (option error) :=
  body (
    let bar := {| Total := totalSize; BarUnits := U_BYTES;
                  ShowTimeLeft := true; ShowSpeed := true |} in
    let bodyProgress := ProxyReader bar r in
    call (BarStart bar);;
    '(_, err) ← call (IoCopy w bodyProgress);
    (if err is Some e then return_ (Some e) else mret tt);;
    call (BarFinish bar);;
    return_ None).

(** A scripted environment for concrete runs: the copy moves [n] bytes and
    returns [e]. *)
Definition scripted (n : Z) (e : option error) : FHandler Op Rsp unit :=
  fun o s =>
    (s, match o as o return option (Rsp o) with
        | BarStart _ => Some tt
        | IoCopy _ _ => Some (n, e)
        | BarFinish _ => Some tt
        end).

Definition progress_example :=
  frun rec (scripted 1024 None)
    (printProgress 1024 (Stream "response body") {| writerName := "alpine.sif" |}) tt.

End Progress.

(** ** Symbolic execution of a program against an arbitrary handler *)

(** Every run is one of the executions. *)
Lemma run_execs {St R} (h : Handler St) (p : prog R) (s : St) :
  execs p (trace_of (run h p s)) (result_of (run h p s)).
Proof.
  revert s; induction p as [r|o k IH]; intros s; simpl.
  - split; reflexivity.
  - destruct (h o s) as [s' [r|]].
    + right. exists r, (trace_of (run h (k r) s')). specialize (IH r s').
      destruct (run h (k r) s') as [[? ?] ?]. split; [reflexivity | exact IH].
    + left. split; reflexivity.
Qed.

Ltac unfold_pull H :=
  unfold pull, Shub_Pull, OciPull, Oras_Pull,
    Shub_Pull_body, OciPull_body, Oras_Pull_body, convertDockerToSIF,
    openOutputImage, defer_Close, call_fn, returns, check, mbind, M_bind, bind,
    mret, M_ret, op, ret, throw in H.

(** One step on [H : execs p t v]: the program returned, the process was
    terminated during a call, or the call returned and the program goes
    on; case on a value that the program inspects.  A hypothesis
    [t = pre ++ e :: post] is split along. *)
Ltac split_step :=
  match goal with
  | Hs : [] = ?pre ++ _ :: _ |- _ => destruct pre; discriminate Hs
  | Hs : _ :: _ = ?pre ++ _ :: _ |- _ =>
      destruct pre as [|? pre]; simpl in Hs;
      [ injection Hs as Hs ?; first [ discriminate Hs | simplify_eq ]
      | let e := fresh in
        injection Hs as e Hs; match type of e with _ = ?x => subst x end ]
  end.

Ltac use_eq H :=
  match type of H with
  | ?x = _ => first [ is_var x; subst x | injection H as ? ?; subst | simplify_eq ]
  end.

Ltac exec_step H :=
  match type of H with
  | _ = [] /\ _ = Some _ =>
      let Ht := fresh in let Hv := fresh in
      destruct H as [Ht Hv]; use_eq Ht; try use_eq Hv
  | _ \/ _ =>
      let r := fresh "r" in let Ht := fresh in let Hv := fresh in
      destruct H as [[Ht Hv] | (r & ? & Ht & H)];
      [ use_eq Ht; try use_eq Hv | use_eq Ht; try destruct r ]
  | context [match ?x with _ => _ end] => is_var x; destruct x
  | context [if negb ?b then _ else _] => destruct b eqn:?
  | context [if ?b then _ else _] => destruct b eqn:?
  end.

Ltac exec H :=
  unfold_pull H;
  repeat first [ split_step | progress cbn -[String.eqb] in H | exec_step H ].

(** Start from a statement about [run]. *)
Ltac by_execs h p s :=
  let H := fresh "Hex" in
  pose proof (run_execs h p s) as H;
  generalize dependent (trace_of (run h p s));
  generalize dependent (result_of (run h p s)).

Lemma run_cons {St R} (x : St * list Event * option R) (e : Event) :
  (let '(s, t, v) := x in (s, e :: t, v)) = (state_of x, e :: trace_of x, result_of x).
Proof. destruct x as [[? ?] ?]; reflexivity. Qed.

(** Properties of every event of a concrete trace. *)
Ltac all_events :=
  repeat (apply Forall_cons; split); try apply Forall_nil; cbn;
  try tauto; try (intros [? ?]; discriminate); try done.

(** ** Theorems *)

(** *** Cache hits *)

(** C6: when the cache existence check of a pull returns present-and-valid
    [(true, nil)], the pull invokes no fetch (download or build) operation:
    before the check it only resolves the identity, after the check it only
    performs the copy stage from the cache path to the destination. *)
Theorem cache_hit_performs_no_fetch (L : Layout) St (h : Handler St) (s : St)
    (c : PullCall) (pre post : list Event) (o : Op) (path : string) :
  trace_of (run h (pull L c) s) = pre ++ Ev o (Some (VBool true None)) :: post ->
  cache_check_path L o = Some path ->
  Forall (fun e => is_resolve (ev_op e)) pre /\
  Forall (fun e => is_copy_stage (destination c) path (ev_op e)) post /\
  Forall (fun e => ~ is_fetch (ev_op e)) (trace_of (run h (pull L c) s)).
Proof.
  by_execs h (pull L c) s. intros v t Hex Hs Hp.
  destruct c.
  all: exec Hex.
  all: simplify_eq/=.
  all: repeat split; all_events.
Qed.

Lemma cache_hit_performs_no_fetch_witness :
  trace_of oras_pull_from_cache
    = take 1 (trace_of oras_pull_from_cache)
      ++ Ev (OrasImageExists enabled_cache "sha256.abc" "alpine.sif") (Some (VBool true None))
      :: drop 2 (trace_of oras_pull_from_cache) /\
  Forall (fun e => is_resolve (ev_op e)) (take 1 (trace_of oras_pull_from_cache)) /\
  Forall (fun e => is_copy_stage "alpine.sif" "/cache/oras/sha256.abc/alpine.sif" (ev_op e))
    (drop 2 (trace_of oras_pull_from_cache)) /\
  Forall (fun e => ~ is_fetch (ev_op e)) (trace_of oras_pull_from_cache).
Proof.
  split; [vm_compute; reflexivity|].
  apply (cache_hit_performs_no_fetch sample_layout World (machine sample_layout good_remote)
           cached_oras_world oras_alpine _ _
           (OrasImageExists enabled_cache "sha256.abc" "alpine.sif")).
  - vm_compute; reflexivity.
  - vm_compute; reflexivity.
Defined.

(** *** Identity derivation *)

(** C7: the identity of the spec's table is derived and used.  A pull
    starts with the resolution step of its backend.  In the Hub backend
    the manifest, obtained for the parsed reference, yields the identity:
    the check prescribed is [ShubImageExists] on the manifest's commit and
    the logical name of the reference.  In the artifact-registry backend
    the digest of the reference yields it: the check prescribed is
    [OrasImageExists] on the digest and the logical name of the reference
    prefixed with ["oras:"].  When the pull goes through the cache, this
    check is the next call; every later cache check is this one, the
    cache file opened, removed or guarded is the path of that entry, and
    every download and hash is on that path (on the destination in the
    Hub backend with the cache disabled). *)
Theorem identity_derivation (L : Layout) St (h : Handler St) (s : St) (c : PullCall) :
  (exists v0 rest, trace_of (run h (pull L c) s) = Ev (first_step c) v0 :: rest) /\
  forall (pre post : list Event) (o : Op) (v : Val) (check : Op),
    trace_of (run h (pull L c) s) = pre ++ Ev o (Some v) :: post ->
    is_resolve o ->
    identity_check L c v = Some check ->
    yields_identity c pre o /\
    (goes_through_cache c = true -> exists cv rest, post = Ev check cv :: rest) /\
    Forall (fun e => uses_key L check (ev_op e)) post /\
    Forall (fun e => fetches_key L c check (ev_op e)) post.
Proof.
  split.
  - by_execs h (pull L c) s. intros r t Hex.
    destruct c; unfold_pull Hex; cbn in Hex;
      destruct Hex as [[-> _] | (? & ? & -> & _)]; do 2 eexists; reflexivity.
  - intros pre post o v check.
    by_execs h (pull L c) s. intros r t Hex Hs Hr Hc.
    destruct o; try done; destruct c, v as [| | | | | |? [|]| |]; try discriminate Hc.
    all: exec Hex.
    all: simplify_eq/=.
    all: unfold fetches_key, fetch_path, goes_through_cache; cbn;
      try match goal with H : IsDisabled _ = _ |- _ => rewrite !H end; cbn.
    all: (split; [ first [ by (eexists; split; reflexivity) | by (split; reflexivity) ] | ]).
    all: (split; [ first [ by (intros _; do 2 eexists; reflexivity) | by (intros; discriminate) ] | ]).
    all: split; all_events.
Qed.

Lemma identity_derivation_witness :
  (trace_of hub_pull_into_cache
     = take 1 (trace_of hub_pull_into_cache)
       ++ Ev (ShubGetManifest {| parsedRef := "shub://vsoch/hello-world" |} false)
             (Some (VManifest {| Commit := "c0ffee" |} None))
       :: drop 2 (trace_of hub_pull_into_cache) /\
   (exists cv rest,
      drop 2 (trace_of hub_pull_into_cache)
        = Ev (ShubImageExists enabled_cache "c0ffee" "hello-world.sif") cv :: rest) /\
   Forall (fun e => fetches_key sample_layout hub_hello
                      (ShubImageExists enabled_cache "c0ffee" "hello-world.sif") (ev_op e))
     (drop 2 (trace_of hub_pull_into_cache))) /\
  (trace_of oras_pull_into_cache
     = [] ++ Ev (OrasImageSHA "registry/alpine" None) (Some (VStr "sha256.abc" None))
       :: drop 1 (trace_of oras_pull_into_cache) /\
   (exists cv rest,
      drop 1 (trace_of oras_pull_into_cache)
        = Ev (OrasImageExists enabled_cache "sha256.abc" "alpine.sif") cv :: rest) /\
   Forall (fun e => fetches_key sample_layout oras_alpine
                      (OrasImageExists enabled_cache "sha256.abc" "alpine.sif") (ev_op e))
     (drop 1 (trace_of oras_pull_into_cache))).
Proof.
  assert (Hhub : trace_of (run (machine sample_layout hub_remote)
                             (pull sample_layout hub_hello) empty_world)
                 = take 1 (trace_of hub_pull_into_cache)
                   ++ Ev (ShubGetManifest {| parsedRef := "shub://vsoch/hello-world" |} false)
                         (Some (VManifest {| Commit := "c0ffee" |} None))
                   :: drop 2 (trace_of hub_pull_into_cache))
    by (vm_compute; reflexivity).
  assert (Horas : trace_of (run (machine sample_layout good_remote)
                              (pull sample_layout oras_alpine) empty_world)
                  = [] ++ Ev (OrasImageSHA "registry/alpine" None)
                             (Some (VStr "sha256.abc" None))
                    :: drop 1 (trace_of oras_pull_into_cache))
    by (vm_compute; reflexivity).
  split.
  - split; [exact Hhub|].
    destruct (proj2 (identity_derivation sample_layout World _ _ hub_hello)
                _ _ _ _ (ShubImageExists enabled_cache "c0ffee" "hello-world.sif")
                Hhub I ltac:(vm_compute; reflexivity))
      as (_ & Hnext & _ & Hfetch).
    split; [exact (Hnext eq_refl) | exact Hfetch].
  - split; [exact Horas|].
    destruct (proj2 (identity_derivation sample_layout World _ _ oras_alpine)
                _ _ _ _ (OrasImageExists enabled_cache "sha256.abc" "alpine.sif")
                Horas I ltac:(vm_compute; reflexivity))
      as (_ & Hnext & _ & Hfetch).
    split; [exact (Hnext eq_refl) | exact Hfetch].
Defined.

(** *** The destination file *)

(** C8: the destination of a pull is opened with [O_CREATE|O_TRUNC|O_WRONLY]
    and permission bits [0755], which include the execute bits; once it is
    open, bytes reach it only through [io.Copy] from the opened cache file,
    and it is closed whenever the pull returns. *)
Theorem destination_opened_executable_truncated_closed (L : Layout) St (h : Handler St)
    (s : St) (c : PullCall) (pre post : list Event) (p : string) (flag perm : Z)
    (v : option Val) :
  trace_of (run h (pull L c) s) = pre ++ Ev (OsOpenFile p flag perm) v :: post ->
  (p = destination c /\
   perm = perm_0755 /\ Z.land perm exec_bits = exec_bits /\
   flag = Z.lor (Z.lor O_CREATE O_TRUNC) O_WRONLY /\
   Z.land flag O_CREATE = O_CREATE /\ Z.land flag O_TRUNC = O_TRUNC) /\
  (forall dstFile, v = Some (VFile dstFile None) ->
     Forall (fun e => match ev_op e with
                      | IoCopy dst src =>
                          dst = dstFile /\
                          exists q, In (Ev (OsOpen q) (Some (VFile src None))) post
                      | OsOpen _ | FileClose _ | Infof _ _ => True
                      | _ => False
                      end) post /\
     (is_Some (result_of (run h (pull L c) s)) ->
      exists cv, In (Ev (FileClose dstFile) cv) post)).
Proof.
  by_execs h (pull L c) s. intros r t Hex Hs.
  destruct c.
  all: exec Hex.
  all: (split; [ repeat split | intros dstFile Hf; split; [ | intros Hr ] ]).
  all: simplify_eq/=.
  all: try (all_events; eauto 10); try (exfalso; eapply is_Some_None; eassumption).
  all: try (eexists; cbn; eauto 10).
Qed.

Lemma destination_opened_executable_truncated_closed_witness :
  trace_of oras_pull_from_cache
    = take 3 (trace_of oras_pull_from_cache)
      ++ Ev (OsOpenFile "alpine.sif" 577 493) (Some (VFile {| Name := "alpine.sif" |} None))
      :: drop 4 (trace_of oras_pull_from_cache) /\
  Z.land 493 exec_bits = exec_bits /\
  Z.land 577 O_TRUNC = O_TRUNC /\
  exists cv, In (Ev (FileClose {| Name := "alpine.sif" |}) cv)
               (drop 4 (trace_of oras_pull_from_cache)).
Proof.
  assert (Hs : trace_of (run (machine sample_layout good_remote)
                           (pull sample_layout oras_alpine) cached_oras_world)
               = take 3 (trace_of oras_pull_from_cache)
                 ++ Ev (OsOpenFile "alpine.sif" 577 493)
                       (Some (VFile {| Name := "alpine.sif" |} None))
                 :: drop 4 (trace_of oras_pull_from_cache))
    by (vm_compute; reflexivity).
  destruct (destination_opened_executable_truncated_closed _ _ _ _ _ _ _ _ _ _ _ Hs)
    as [(_ & _ & Hx & _ & _ & Ht) Hclose].
  destruct (Hclose _ eq_refl) as [_ Hc].
  split; [exact Hs|]. split; [exact Hx|]. split; [exact Ht|].
  apply Hc. vm_compute. eauto.
Defined.

(** *** The Hub download *)

(** C9: every download issued by a Hub pull carries the force flag [true];
    with the cache disabled it targets the caller's destination, otherwise
    the cache path of the manifest's commit.  In the reference environment a
    forced download into an existing destination replaces its content. *)
Theorem shub_download_force_hardcoded (L : Layout) St (h : Handler St) (s : St)
    (sh : Shub) (from to : string) :
  Forall (fun e => match ev_op e with
                   | ShubDownloadImage m filePath _ force _ =>
                       force = true /\
                       filePath = if IsDisabled (shubCache sh) then to
                                  else ShubImage L (shubCache sh) (Commit m) (GetName L from)
                   | _ => True
                   end)
    (trace_of (run h (Shub_Pull L sh from to) s)) /\
  files stale_destination_world !! "hello.sif" = Some "OLD" /\
  result_of hub_pull_over_stale_destination = Some None /\
  files (state_of hub_pull_over_stale_destination) !! "hello.sif" = Some "SHUBIMAGE".
Proof.
  split; [ | repeat split; vm_compute; reflexivity ].
  by_execs h (Shub_Pull L sh from to) s. intros r t Hex.
  exec Hex.
  all: all_events.
  all: repeat match goal with H : IsDisabled _ = _ |- _ => rewrite H; clear H end; done.
Qed.

(** *** OciPull with the cache disabled *)

(** C10: with the cache disabled, [OciPull] still resolves the image digest
    first.  If the resolution fails the pull returns the checksum error and
    nothing else has run; if it succeeds, the rest of the pull is the direct
    build into the destination, in which the digest does not occur. *)
Theorem OciPull_disabled_resolves_digest_first (L : Layout) St (h : Handler St) (s : St)
    (imgCache : Handle) (name imageURI tmpDir : string)
    (ociAuth : option DockerAuthConfig) (noHTTPS : bool) :
  IsDisabled imgCache = true ->
  let resolve := OciImageSHA imageURI (OciPull_sysCtx ociAuth noHTTPS) in
  let r := run h (OciPull L imgCache name imageURI tmpDir ociAuth noHTTPS) s in
  match h resolve s with
  | (s1, Some (sum, Some e)) =>
      r = (s1, [Ev resolve (Some (VStr sum (Some e)))],
           Some (Some (Errorf "failed to get checksum for %s: %s" [AStr imageURI; AErr e])))
  | (s1, Some (sum, None)) =>
      let x := run h (OciPull_direct imgCache name imageURI tmpDir ociAuth noHTTPS) s1 in
      r = (state_of x, Ev resolve (Some (VStr sum None)) :: trace_of x, result_of x)
  | (s1, None) => r = (s1, [Ev resolve None], None)
  end.
Proof.
  intros Hdis resolve r. subst resolve r.
  unfold OciPull, OciPull_body, OciPull_direct, OciPull_sysCtx, returns.
  cbn -[convertDockerToSIF call_fn check].
  destruct (h _ s) as [s1 [[sum [e|]]|]]; cbn -[convertDockerToSIF call_fn check];
    [reflexivity | | reflexivity].
  rewrite Hdis. apply run_cons.
Qed.

Lemma OciPull_disabled_resolves_digest_first_witness :
  IsDisabled disabled_cache = true /\
  oci_pull_cache_disabled =
    (let x := run (machine sample_layout good_remote)
                (OciPull_direct disabled_cache "alpine_latest.sif" "docker://alpine" "/tmp"
                   None false) empty_world in
     (state_of x,
      Ev (OciImageSHA "docker://alpine" (OciPull_sysCtx None false))
         (Some (VStr "sha256.abc" None)) :: trace_of x,
      result_of x)).
Proof.
  split; [reflexivity|].
  exact (OciPull_disabled_resolves_digest_first sample_layout World
           (machine sample_layout good_remote) empty_world disabled_cache
           "alpine_latest.sif" "docker://alpine" "/tmp" None false eq_refl).
Defined.

(** *** Corrupt cache entries *)

(** C1, as the spec states it, fails for the Hub backend: on a
    present-but-corrupt entry [Shub.Pull] returns the error of the check;
    the entry is neither deleted nor fetched again. *)
Lemma hub_pull_fails_on_corrupt_entry :
  result_of hub_pull_on_corrupt_entry =
    Some (Some (Errorf "unable to check if %v exists: %v"
                  [AStr "/cache/shub/c0ffee/hello-world.sif"; AErr ErrBadChecksum])) /\
  files (state_of hub_pull_on_corrupt_entry) !! "/cache/shub/c0ffee/hello-world.sif"
    = Some "garbage" /\
  ~ recovers_from_corruption sample_layout (trace_of hub_pull_on_corrupt_entry).
Proof.
  split; [vm_compute; reflexivity|]. split; [vm_compute; reflexivity|].
  intros H.
  destruct (H (take 2 (trace_of hub_pull_on_corrupt_entry))
              (ShubImageExists enabled_cache "c0ffee" "hello-world.sif")
              "/cache/shub/c0ffee/hello-world.sif" [])
    as (format & args & rest & Hpost & _).
  - vm_compute; reflexivity.
  - vm_compute; reflexivity.
  - discriminate Hpost.
Qed.

(** C1, amended: on the present-but-corrupt outcome [(false, ErrBadChecksum)]
    of the cache check, [Oras.Pull] logs a warning and removes the cache
    path; if the removal fails the pull fails, otherwise it goes on to arm
    the guard and download into the cache path.  [Shub.Pull] and [OciPull]
    return the error of the check, and do nothing more. *)
Theorem corrupt_entry_handling (L : Layout) St (h : Handler St) (s : St) (c : PullCall)
    (pre post : list Event) (o : Op) (path : string) :
  trace_of (run h (pull L c) s)
    = pre ++ Ev o (Some (VBool false (Some ErrBadChecksum))) :: post ->
  cache_check_path L o = Some path ->
  is_Some (result_of (run h (pull L c) s)) ->
  match c with
  | OrasPull oras from _ =>
      exists rm rest,
        post = Ev (Warningf "Removing cached image: %s: cache could be corrupted" [AStr path])
                  (Some VUnit)
               :: Ev (OsRemove path) (Some (VErr rm)) :: rest /\
        match rm with
        | Some e =>
            rest = [] /\
            result_of (run h (pull L c) s)
              = Some (Some (Errorf "unable to remove corrupted cache: %v" [AErr e]))
        | None =>
            exists dl rest',
              rest = Ev (Infof "Downloading image with ORAS" []) (Some VUnit)
                     :: Ev (GoInterruptCleanup path) (Some VUnit)
                     :: Ev (OrasDownloadImage path from (ociAuth oras)) (Some (VErr dl))
                     :: rest'
        end
  | ShubPull _ _ _ =>
      post = [] /\
      result_of (run h (pull L c) s)
        = Some (Some (Errorf "unable to check if %v exists: %v"
                        [AStr path; AErr ErrBadChecksum]))
  | OciPullCall _ _ imageURI _ _ _ =>
      post = [] /\
      result_of (run h (pull L c) s)
        = Some (Some (Errorf "unable to check if %s exists: %s"
                        [AStr (GetName L imageURI); AErr ErrBadChecksum]))
  end.
Proof.
  by_execs h (pull L c) s. intros r t Hex Hs Hp Hr.
  destruct o; try discriminate Hp; destruct c.
  all: exec Hex.
  all: simplify_eq/=.
  all: try (exfalso; eapply is_Some_None; eassumption).
  all: try (split; reflexivity).
  all: do 2 eexists; (split; [reflexivity | cbn; eauto 10]).
Qed.

Lemma corrupt_entry_handling_witness :
  trace_of oras_pull_on_corrupt_entry
    = take 1 (trace_of oras_pull_on_corrupt_entry)
      ++ Ev (OrasImageExists enabled_cache "sha256.abc" "alpine.sif")
            (Some (VBool false (Some ErrBadChecksum)))
      :: drop 2 (trace_of oras_pull_on_corrupt_entry) /\
  is_Some (result_of oras_pull_on_corrupt_entry) /\
  exists rm rest,
    drop 2 (trace_of oras_pull_on_corrupt_entry)
      = Ev (Warningf "Removing cached image: %s: cache could be corrupted"
              [AStr "/cache/oras/sha256.abc/alpine.sif"]) (Some VUnit)
        :: Ev (OsRemove "/cache/oras/sha256.abc/alpine.sif") (Some (VErr rm)) :: rest.
Proof.
  assert (Hs : trace_of (run (machine sample_layout good_remote)
                           (pull sample_layout oras_alpine) corrupt_oras_world)
               = take 1 (trace_of oras_pull_on_corrupt_entry)
                 ++ Ev (OrasImageExists enabled_cache "sha256.abc" "alpine.sif")
                       (Some (VBool false (Some ErrBadChecksum)))
                 :: drop 2 (trace_of oras_pull_on_corrupt_entry))
    by (vm_compute; reflexivity).
  assert (Hr : is_Some (result_of (run (machine sample_layout good_remote)
                                     (pull sample_layout oras_alpine) corrupt_oras_world)))
    by (vm_compute; eauto).
  split; [exact Hs|]. split; [exact Hr|].
  destruct (corrupt_entry_handling sample_layout World _ _ _ _ _ _
              "/cache/oras/sha256.abc/alpine.sif" Hs eq_refl Hr)
    as (rm & rest & Hpost & _).
  exists rm, rest. exact Hpost.
Defined.

(** *** Post-fetch verification *)

(** C2, as the spec states it, fails: when the downloaded file does not
    hash to the digest, [Oras.Pull] returns the mismatch error and the file
    stays at the cache path; and [Shub.Pull] does not hash what it
    downloaded. *)
Lemma mismatching_entry_left_cached :
  result_of oras_pull_of_bad_payload =
    Some (Some (Errorf "cached file hash(%s) and expected hash(%s) does not match"
                  [AStr "sha256.def"; AStr "sha256.abc"])) /\
  files (state_of oras_pull_of_bad_payload) !! "/cache/oras/sha256.abc/alpine.sif"
    = Some "GARBAGE" /\
  ~ mismatch_is_purged "sha256.abc" (trace_of oras_pull_of_bad_payload) /\
  result_of hub_pull_into_cache = Some None /\
  Forall (fun e => match ev_op e with OrasImageHash _ => False | _ => True end)
    (trace_of hub_pull_into_cache).
Proof.
  split; [vm_compute; reflexivity|]. split; [vm_compute; reflexivity|].
  split; [|split; [vm_compute; reflexivity | vm_compute; repeat constructor]].
  intros H.
  refine (H (take 5 (trace_of oras_pull_of_bad_payload))
            "/cache/oras/sha256.abc/alpine.sif" "sha256.def" [] _ _).
  - vm_compute; reflexivity.
  - discriminate.
Qed.

(** C2, amended: after a successful download [Oras.Pull] hashes the cache
    path that it derived from the resolved digest.  If hashing fails, or if
    the hash differs from the digest, the pull returns the corresponding
    error at once: the destination is not opened and the file is not
    removed.  If the hash equals the digest the pull goes on to open the
    destination.  [Shub.Pull] never hashes the file it downloaded. *)
Theorem oras_fetch_is_rehashed (L : Layout) St (h : Handler St) (s : St)
    (o : Oras) (from to : string) (pre post : list Event) (path ref : string)
    (auth : option DockerAuthConfig) :
  trace_of (run h (Oras_Pull L o from to) s)
    = pre ++ Ev (OrasDownloadImage path ref auth) (Some (VErr None)) :: post ->
  is_Some (result_of (run h (Oras_Pull L o from to) s)) ->
  (exists sum hash herr rest,
    In (Ev (OrasImageSHA from (ociAuth o)) (Some (VStr sum None))) pre /\
    path = OrasImage L (orasCache o) sum (GetName L ("oras:" +:+ from)) /\
    post = Ev (OrasImageHash path) (Some (VStr hash herr)) :: rest /\
    match herr with
    | Some e =>
        rest = [] /\
        result_of (run h (Oras_Pull L o from to) s)
          = Some (Some (Errorf "error getting ImageHash: %v" [AErr e]))
    | None =>
        if String.eqb hash sum then
          exists v rest',
            rest = Ev (OsOpenFile to (Z.lor (Z.lor O_CREATE O_TRUNC) O_WRONLY) perm_0755) v
                   :: rest'
        else
          rest = [] /\
          result_of (run h (Oras_Pull L o from to) s)
            = Some (Some (Errorf "cached file hash(%s) and expected hash(%s) does not match"
                            [AStr hash; AStr sum]))
    end) /\
  (forall (sh : Shub) (from' to' : string),
     Forall (fun e => match ev_op e with OrasImageHash _ => False | _ => True end)
       (trace_of (run h (Shub_Pull L sh from' to') s))).
Proof.
  intros Hs Hr. split.
  - revert Hs Hr. by_execs h (Oras_Pull L o from to) s. intros r t Hex Hs Hr.
    exec Hex.
    all: simplify_eq/=.
    all: try (exfalso; eapply is_Some_None; eassumption).
    all: do 4 eexists;
      (split; [left; reflexivity | split; [reflexivity | split; [reflexivity|]]]).
    all: cbn -[String.eqb];
      repeat match goal with H : String.eqb _ _ = _ |- _ => rewrite H; clear H end; eauto.
  - intros sh from' to'. clear.
    by_execs h (Shub_Pull L sh from' to') s. intros r t Hex.
    exec Hex.
    all: all_events.
Qed.

Lemma oras_fetch_is_rehashed_witness :
  trace_of oras_pull_of_bad_payload
    = take 4 (trace_of oras_pull_of_bad_payload)
      ++ Ev (OrasDownloadImage "/cache/oras/sha256.abc/alpine.sif" "registry/alpine" None)
            (Some (VErr None))
      :: drop 5 (trace_of oras_pull_of_bad_payload) /\
  is_Some (result_of oras_pull_of_bad_payload) /\
  exists hash herr rest,
    drop 5 (trace_of oras_pull_of_bad_payload)
      = Ev (OrasImageHash "/cache/oras/sha256.abc/alpine.sif") (Some (VStr hash herr)) :: rest.
Proof.
  assert (Hs : trace_of (run (machine sample_layout bad_remote)
                           (Oras_Pull sample_layout (NewOras enabled_cache None)
                              "registry/alpine" "alpine.sif") empty_world)
               = take 4 (trace_of oras_pull_of_bad_payload)
                 ++ Ev (OrasDownloadImage "/cache/oras/sha256.abc/alpine.sif"
                          "registry/alpine" None) (Some (VErr None))
                 :: drop 5 (trace_of oras_pull_of_bad_payload))
    by (vm_compute; reflexivity).
  assert (Hr : is_Some (result_of (run (machine sample_layout bad_remote)
                                     (Oras_Pull sample_layout (NewOras enabled_cache None)
                                        "registry/alpine" "alpine.sif") empty_world)))
    by (vm_compute; eauto).
  split; [exact Hs|]. split; [exact Hr|].
  destruct (oras_fetch_is_rehashed _ _ _ _ _ _ _ _ _ _ _ _ Hs Hr)
    as [(sum & hash & herr & rest & _ & _ & Hpost & _) _].
  exists hash, herr, rest. exact Hpost.
Defined.

(** *** The destination on failure *)

(** C5, as the spec states it, fails: outside the disabled-mode branch,
    when the copy from the cache breaks off, the pull returns a failure
    and the destination, which did not exist before, is left with the
    bytes written so far. *)
Lemma failed_copy_leaves_partial_destination :
  takes_disabled_branch oras_alpine = false /\
  result_of oras_pull_disk_full
    = Some (Some (Errorf "while copying image from cache: %v"
                    [AErr (ExtError "no space left on device")])) /\
  files cached_oras_world !! "alpine.sif" = None /\
  files (state_of oras_pull_disk_full) !! "alpine.sif" = Some "IM" /\
  ~ destination_untouched_on_failure sample_layout disk_full oras_alpine cached_oras_world.
Proof.
  split; [reflexivity|].
  split; [vm_compute; reflexivity|]. split; [vm_compute; reflexivity|].
  split; [vm_compute; reflexivity|].
  intros H. specialize (H _ ltac:(vm_compute; reflexivity)).
  vm_compute in H. discriminate H.
Qed.

(** Until the destination is opened, a pull outside the disabled-mode
    branch writes and removes paths of cache entries only, and runs the
    build that it has just created. *)
Lemma prior_steps_address_the_cache (L : Layout) St (h : Handler St) (s : St)
    (c : PullCall) :
  takes_disabled_branch c = false ->
  Forall (fun e => forall p, written_path (ev_op e) = Some p -> entry_path L c p)
    (before_open (trace_of (run h (pull L c) s))) /\
  (forall pre b v post,
     before_open (trace_of (run h (pull L c) s)) = pre ++ Ev (BuildFull b) v :: post ->
     exists image conf pre',
       pre = pre' ++ [Ev (NewBuild image conf) (Some (VBuild b None))]) /\
  (forall pre p flag perm v post,
     trace_of (run h (pull L c) s) = pre ++ Ev (OsOpenFile p flag perm) v :: post ->
     before_open (trace_of (run h (pull L c) s)) = pre).
Proof.
  by_execs h (pull L c) s. intros r t Hex Hd.
  destruct c; cbn in Hd.
  all: exec Hex.
  all: try discriminate Hd.
  all: cbn; (split; [ | split; intros ? ? ? ? ]; [ | | intros ? ? ]; [ | intros Hs; repeat split_step .. ]).
  all: try (repeat (apply Forall_cons; split); try apply Forall_nil; cbn;
            first [ exact I
                  | intros p Hp;
                    first [ discriminate Hp | injection Hp as <-; eexists; reflexivity ] ]).
  all: try (do 2 eexists; eexists [_; _; _; _]; reflexivity).
  all: try reflexivity.
Qed.

(** In the reference environment an operation that returns changes no
    file other than those it [touches]. *)
Lemma machine_step_frame (L : Layout) (E : Env) (o : Op) (w w' : World) (r : Resp o)
    (d : string) :
  machine L E o w = (w', Some r) -> ~ touches d o -> files w' !! d = files w !! d.
Proof.
  intros Hm Ht.
  destruct o; cbn in Hm, Ht; unfold fetch, write, unlink, interrupt in Hm;
    repeat case_match; simplify_eq; cbn;
    rewrite ?lookup_insert_ne, ?lookup_delete_ne by exact Ht;
    first [ reflexivity | exfalso; apply Ht; reflexivity ].
Qed.

(** So does a program that returns. *)
Lemma machine_frame (L : Layout) (E : Env) {R} (p : prog R) (w : World) (d : string) :
  is_Some (result_of (run (machine L E) p w)) ->
  Forall (fun e => ~ touches d (ev_op e)) (trace_of (run (machine L E) p w)) ->
  files (state_of (run (machine L E) p w)) !! d = files w !! d.
Proof.
  revert w; induction p as [r|o k IH]; intros w Hres Hall; simpl in *.
  - reflexivity.
  - destruct (machine L E o w) as [w' [r|]] eqn:Hm.
    + rewrite run_cons in *. cbn in Hres, Hall |- *.
      apply Forall_cons in Hall as [Ho Hall].
      rewrite (IH r w' Hres Hall). exact (machine_step_frame L E o w w' r d Hm Ho).
    + destruct Hres as [? Hres]. discriminate Hres.
Qed.

(** In the reference environment the build that [NewBuild] returns is the
    build of the configuration it was given. *)
Lemma machine_builds (L : Layout) (E : Env) {R} (p : prog R) (w : World)
    (image : string) (conf : Config) (b : Build) (e : option error) :
  In (Ev (NewBuild image conf) (Some (VBuild b e))) (trace_of (run (machine L E) p w)) ->
  buildConf b = conf.
Proof.
  revert w; induction p as [r|o k IH]; intros w Hin; simpl in *.
  - destruct Hin.
  - destruct (machine L E o w) as [w' [r|]] eqn:Hm.
    + rewrite run_cons in Hin. cbn in Hin. destruct Hin as [Heq | Hin]; [|eauto].
      injection Heq as -> Hv. cbn in Hm, Hv. simplify_eq. reflexivity.
    + cbn in Hin. destruct Hin as [Heq | []]. discriminate Heq.
Qed.

(** Without an open for writing the whole trace is before it. *)
Lemma before_open_all (t : list Event) :
  Forall (fun e => is_open_for_writing (ev_op e) = false) t -> before_open t = t.
Proof.
  induction 1 as [|e t He _ IH]; cbn; [reflexivity|]. rewrite He, IH. reflexivity.
Qed.

(** The order of the steps around the open of the destination. *)
Lemma open_follows_prior_steps (L : Layout) St (h : Handler St) (s : St)
    (c : PullCall) (pre post : list Event) (p : string) (flag perm : Z) (v : option Val) :
  trace_of (run h (pull L c) s) = pre ++ Ev (OsOpenFile p flag perm) v :: post ->
  p = destination c /\
  Forall step_succeeded pre /\
  (forall path hash, In (Ev (OrasImageHash path) (Some (VStr hash None))) pre ->
     exists from auth, In (Ev (OrasImageSHA from auth) (Some (VStr hash None))) pre) /\
  Forall (fun e => match ev_op e with
                   | OsOpen _ | IoCopy _ _ | FileClose _ | Infof _ _ => True
                   | _ => False
                   end) post.
Proof.
  by_execs h (pull L c) s. intros r t Hex Hs.
  destruct c.
  all: exec Hex.
  all: simplify_eq/=.
  all: repeat match goal with H : String.eqb _ _ = true |- _ =>
         apply String.eqb_eq in H; subst end.
  all: split; [reflexivity | split; [ | split ]].
  all: try (all_events; first [ left; reflexivity | right; split; [exact I | reflexivity] ]).
  all: try (intros path hash Hin; cbn in Hin; intuition (simplify_eq; eauto 10)).
Qed.

(** C5, amended: for a pull outside the disabled-mode branch, the
    destination is opened only after every earlier step has returned
    without error (a present-but-corrupt cache entry having been removed)
    and, where the downloaded file was hashed, with a hash equal to the
    resolved digest; until then the pull writes and removes paths of cache
    entries only; after the destination is open the pull only opens the
    cache file, copies, logs and closes, so it never removes the
    destination again.  In the reference environment, a pull that returns
    a failure without having opened the destination leaves the file at
    the destination as it was, when the destination is not itself the
    path of a cache entry. *)
Theorem destination_opened_after_prior_steps (L : Layout) (c : PullCall) :
  takes_disabled_branch c = false ->
  (forall St (h : Handler St) (s : St) (pre post : list Event) (p : string)
          (flag perm : Z) (v : option Val),
     trace_of (run h (pull L c) s) = pre ++ Ev (OsOpenFile p flag perm) v :: post ->
     p = destination c /\
     Forall step_succeeded pre /\
     (forall path hash, In (Ev (OrasImageHash path) (Some (VStr hash None))) pre ->
        exists from auth, In (Ev (OrasImageSHA from auth) (Some (VStr hash None))) pre) /\
     Forall (fun e => forall q, written_path (ev_op e) = Some q -> entry_path L c q) pre /\
     Forall (fun e => match ev_op e with
                      | OsOpen _ | IoCopy _ _ | FileClose _ | Infof _ _ => True
                      | _ => False
                      end) post) /\
  (forall (E : Env) (w : World) (e : error),
     (forall q, entry_path L c q -> q <> destination c) ->
     result_of (run (machine L E) (pull L c) w) = Some (Some e) ->
     Forall (fun ev => is_open_for_writing (ev_op ev) = false)
       (trace_of (run (machine L E) (pull L c) w)) ->
     files (state_of (run (machine L E) (pull L c) w)) !! destination c
       = files w !! destination c).
Proof.
  intros Hd. split.
  - intros St h s pre post p flag perm v Hs.
    destruct (open_follows_prior_steps L St h s c pre post p flag perm v Hs)
      as (Hp & Hok & Hhash & Hpost).
    destruct (prior_steps_address_the_cache L St h s c Hd) as (Hpaths & _ & Hbefore).
    rewrite (Hbefore _ _ _ _ _ _ Hs) in Hpaths. auto.
  - intros E w e Hne Hres Hno.
    destruct (prior_steps_address_the_cache L World (machine L E) w c Hd)
      as (Hpaths & Hbuild & _).
    rewrite (before_open_all _ Hno) in Hpaths, Hbuild.
    apply machine_frame; [rewrite Hres; eauto|].
    apply Forall_forall. intros ev Hin Htouch.
    pose proof (proj1 (Forall_forall _ _) Hpaths ev Hin) as Hev.
    destruct ev as [o v]; cbn in Htouch, Hev.
    destruct o; cbn in Htouch, Hev; try contradiction;
      try exact (Hne _ (Hev _ eq_refl) Htouch).
    apply list_elem_of_split in Hin as (pre & post & Ht).
    destruct (Hbuild _ _ _ _ Ht) as (image & conf & pre' & ->).
    assert (Hnb : Ev (NewBuild image conf) (Some (VBuild b None))
                    ∈ trace_of (run (machine L E) (pull L c) w)).
    { rewrite Ht. set_solver. }
    pose proof (machine_builds L E _ w image conf b None
                  (proj1 (list_elem_of_In _ _) Hnb)) as Hconf.
    pose proof (proj1 (Forall_forall _ _) Hpaths _ Hnb) as Hq.
    cbn in Hq. apply (Hne _ (Hq _ eq_refl)). rewrite <- Hconf. exact Htouch.
Qed.

Lemma destination_opened_after_prior_steps_witness :
  takes_disabled_branch oras_alpine = false /\
  (trace_of oras_pull_into_cache
     = take 6 (trace_of oras_pull_into_cache)
       ++ Ev (OsOpenFile "alpine.sif" 577 493) (Some (VFile {| Name := "alpine.sif" |} None))
       :: drop 7 (trace_of oras_pull_into_cache) /\
   Forall step_succeeded (take 6 (trace_of oras_pull_into_cache)) /\
   Forall (fun e => forall q, written_path (ev_op e) = Some q ->
                      entry_path sample_layout oras_alpine q)
     (take 6 (trace_of oras_pull_into_cache))) /\
  (result_of oras_pull_of_bad_payload_over_stale
     = Some (Some (Errorf "cached file hash(%s) and expected hash(%s) does not match"
                     [AStr "sha256.def"; AStr "sha256.abc"])) /\
   Forall (fun ev => is_open_for_writing (ev_op ev) = false)
     (trace_of oras_pull_of_bad_payload_over_stale) /\
   files stale_alpine_world !! "alpine.sif" = Some "OLD" /\
   files (state_of oras_pull_of_bad_payload_over_stale) !! "alpine.sif"
     = files stale_alpine_world !! "alpine.sif").
Proof.
  assert (Hd : takes_disabled_branch oras_alpine = false) by reflexivity.
  assert (Hs : trace_of (run (machine sample_layout good_remote)
                           (pull sample_layout oras_alpine) empty_world)
               = take 6 (trace_of oras_pull_into_cache)
                 ++ Ev (OsOpenFile "alpine.sif" 577 493)
                       (Some (VFile {| Name := "alpine.sif" |} None))
                 :: drop 7 (trace_of oras_pull_into_cache))
    by (vm_compute; reflexivity).
  assert (Hne : forall q, entry_path sample_layout oras_alpine q -> q <> destination oras_alpine).
  { intros q [sum ->]. cbn. intros Heq. discriminate Heq. }
  assert (Hres : result_of (run (machine sample_layout bad_remote)
                              (pull sample_layout oras_alpine) stale_alpine_world)
                 = Some (Some (Errorf
                                 "cached file hash(%s) and expected hash(%s) does not match"
                                 [AStr "sha256.def"; AStr "sha256.abc"])))
    by (vm_compute; reflexivity).
  assert (Hno : Forall (fun ev => is_open_for_writing (ev_op ev) = false)
                  (trace_of (run (machine sample_layout bad_remote)
                               (pull sample_layout oras_alpine) stale_alpine_world)))
    by (vm_compute; repeat constructor).
  destruct (destination_opened_after_prior_steps sample_layout oras_alpine Hd)
    as [Hopen Hkeep].
  split; [exact Hd|]. split.
  - split; [exact Hs|].
    destruct (Hopen World _ _ _ _ _ _ _ _ Hs) as (_ & Hok & _ & Hpaths & _).
    split; [exact Hok | exact Hpaths].
  - split; [exact Hres|]. split; [exact Hno|]. split; [vm_compute; reflexivity|].
    exact (Hkeep bad_remote stale_alpine_world _ Hne Hres Hno).
Defined.

(** *** Disabled cache *)

(** With the cache disabled, [Shub.Pull] and [OciPull] only resolve the
    identity and fetch into the caller's destination. *)
Lemma hub_oci_disabled_bypass (L : Layout) St (h : Handler St) (s : St) (c : PullCall) :
  match c with OrasPull _ _ _ => False | _ => True end ->
  IsDisabled (handle_of c) = true ->
  Forall (fun e => is_resolve (ev_op e) \/
                   fetch_target (ev_op e) = Some (destination c) \/
                   exists b, ev_op e = BuildFull b)
    (trace_of (run h (pull L c) s)).
Proof.
  by_execs h (pull L c) s. intros r t Hex Hc Hd.
  destruct c; [ | | done]; simpl handle_of in Hd.
  all: unfold_pull Hex; rewrite Hd in Hex; exec Hex.
  all: all_events; eauto.
Qed.

(** C3: [Oras.Pull] does not consult the disabled flag.  With a disabled
    cache handle it still checks the cache, arms the guard on the cache
    path, downloads into the cache path, hashes it and copies from it; the
    cache path exists afterwards. *)
Theorem oras_pull_ignores_disabled_cache :
  IsDisabled (handle_of oras_alpine_nocache) = true /\
  map ev_op (trace_of oras_pull_cache_disabled) =
    [ OrasImageSHA "registry/alpine" None;
      OrasImageExists disabled_cache "sha256.abc" "alpine.sif";
      Infof "Downloading image with ORAS" [];
      GoInterruptCleanup "/cache/oras/sha256.abc/alpine.sif";
      OrasDownloadImage "/cache/oras/sha256.abc/alpine.sif" "registry/alpine" None;
      OrasImageHash "/cache/oras/sha256.abc/alpine.sif";
      OsOpenFile "alpine.sif" (Z.lor (Z.lor O_CREATE O_TRUNC) O_WRONLY) perm_0755;
      OsOpen "/cache/oras/sha256.abc/alpine.sif";
      IoCopy {| Name := "alpine.sif" |} {| Name := "/cache/oras/sha256.abc/alpine.sif" |};
      Infof "Pull complete: %s\n" [AStr "alpine.sif"];
      FileClose {| Name := "/cache/oras/sha256.abc/alpine.sif" |};
      FileClose {| Name := "alpine.sif" |} ] /\
  files empty_world !! "/cache/oras/sha256.abc/alpine.sif" = None /\
  files (state_of oras_pull_cache_disabled) !! "/cache/oras/sha256.abc/alpine.sif"
    = Some "IMAGE".
Proof. repeat split; vm_compute; reflexivity. Qed.

(** *** Interrupt guard *)

(** The path handed to the interrupt guard, and the path of the fetch that
    follows it: they are the same path in [Shub.Pull] and [Oras.Pull]; in
    [OciPull] the guard gets the logical image name and the build gets the
    cache path. *)
Lemma guard_armed_before_fetch (L : Layout) St (h : Handler St) (s : St) (c : PullCall)
    (pre post : list Event) (p : string) (v : option Val) (e : Event) :
  trace_of (run h (pull L c) s) = pre ++ Ev (GoInterruptCleanup p) v :: e :: post ->
  match c with
  | OciPullCall imgCache _ imageURI _ _ _ =>
      p = GetName L imageURI /\
      exists sum,
        fetch_target (ev_op e) = Some (OciTempImage L imgCache sum (GetName L imageURI))
  | _ => fetch_target (ev_op e) = Some p
  end.
Proof.
  by_execs h (pull L c) s. intros r t Hex Hs.
  destruct c.
  all: exec Hex.
  all: simplify_eq/=; eauto.
Qed.

(** C4: [OciPull] arms the interrupt guard with the logical image name, not
    with the cache path that the build writes.  When the build is
    interrupted the partial file survives at the cache path; the same
    interruption of [Oras.Pull], whose guard holds the cache path, leaves no
    file there. *)
Theorem oci_pull_guard_misses_cache_path :
  map ev_op (trace_of oci_pull_interrupted) =
    [ OciImageSHA "docker://alpine" (OciPull_sysCtx None false);
      OciTempExists enabled_cache "sha256.abc" "alpine.sif";
      Infof "Converting OCI blobs to SIF format" [];
      GoInterruptCleanup "alpine.sif";
      NewBuild "docker://alpine" oci_build_config;
      BuildFull {| buildSpec := "docker://alpine"; buildConf := oci_build_config |} ] /\
  result_of oci_pull_interrupted = None /\
  files (state_of oci_pull_interrupted) !! "/cache/oci-tmp/sha256.abc/alpine.sif"
    = Some "PART" /\
  result_of oras_pull_interrupted = None /\
  files (state_of oras_pull_interrupted) !! "/cache/oras/sha256.abc/alpine.sif" = None.
Proof. repeat split; vm_compute; reflexivity. Qed.

(** ** Further properties of the pulls *)

(** Symbolic execution that drops a case as soon as the event found
    contradicts what is known of its result. *)
Ltac prune :=
  try match goal with
      | Hc : is_resolve ?o |- _ => tryif is_var o then fail else (cbn in Hc; contradiction)
      | Hc : is_fetch ?o |- _ => tryif is_var o then fail else (cbn in Hc; contradiction)
      | He : val_err ?v = _ |- _ =>
          tryif is_var v then fail else
            (cbn in He; first [ discriminate He
                              | match type of He with ?x = _ => is_var x; subst x end ])
      end.

Ltac exec_pruning H :=
  unfold_pull H;
  repeat first [ split_step; prune | progress cbn -[String.eqb] in H | exec_step H ].

(** [Shub.Pull], [OciPull], [Oras.Pull]: when a resolution step (parsing
    the reference, getting the manifest or the digest) returns an error,
    the pull makes no further call and returns that error wrapped in the
    message of the step; only resolution steps came before. *)
Theorem resolution_failure_stops_pull (L : Layout) St (h : Handler St) (s : St)
    (c : PullCall) (pre post : list Event) (o : Op) (v : Val) (e : error) :
  trace_of (run h (pull L c) s) = pre ++ Ev o (Some v) :: post ->
  is_resolve o ->
  val_err v = Some e ->
  post = [] /\
  Forall (fun ev => is_resolve (ev_op ev)) pre /\
  result_of (run h (pull L c) s) = Some (Some (resolution_error c o e)).
Proof.
  by_execs h (pull L c) s. intros r t Hex Hs Hr He.
  destruct c.
  all: exec_pruning Hex.
  all: simplify_eq/=.
  all: repeat split; all_events.
Qed.

Lemma resolution_failure_stops_pull_witness :
  trace_of oras_pull_of_unknown_image
    = [] ++ Ev (OrasImageSHA "registry/alpine" None)
               (Some (VStr "" (Some (ExtError "manifest unknown")))) :: [] /\
  result_of oras_pull_of_unknown_image
    = Some (Some (Errorf "failed to get checksum for %s: %s"
                    [AStr "registry/alpine"; AErr (ExtError "manifest unknown")])).
Proof.
  assert (Hs : trace_of (run (machine sample_layout unknown_image)
                           (pull sample_layout oras_alpine) empty_world)
               = [] ++ Ev (OrasImageSHA "registry/alpine" None)
                          (Some (VStr "" (Some (ExtError "manifest unknown")))) :: [])
    by (vm_compute; reflexivity).
  split; [exact Hs|].
  exact (proj2 (proj2 (resolution_failure_stops_pull sample_layout World _ _ oras_alpine
                         _ _ _ _ _ Hs I eq_refl))).
Defined.

(** [Shub.Pull], [OciPull], [Oras.Pull]: when the download or the build
    returns an error, the pull makes no further call (no hash, no open of
    the destination, no removal of what was written) and returns the
    error: as it is from [shub.DownloadImage], wrapped otherwise. *)
Theorem fetch_failure_stops_pull (L : Layout) St (h : Handler St) (s : St)
    (c : PullCall) (pre post : list Event) (o : Op) (v : Val) (e : error) :
  trace_of (run h (pull L c) s) = pre ++ Ev o (Some v) :: post ->
  is_fetch o ->
  val_err v = Some e ->
  post = [] /\
  result_of (run h (pull L c) s) = Some (Some (fetch_error o e)).
Proof.
  by_execs h (pull L c) s. intros r t Hex Hs Hr He.
  destruct c.
  all: exec_pruning Hex.
  all: simplify_eq/=.
  all: repeat split; all_events.
Qed.

Lemma fetch_failure_stops_pull_witness :
  trace_of oras_pull_connection_reset
    = take 4 (trace_of oras_pull_connection_reset)
      ++ Ev (OrasDownloadImage "/cache/oras/sha256.abc/alpine.sif" "registry/alpine" None)
            (Some (VErr (Some (ExtError "connection reset by peer")))) :: [] /\
  result_of oras_pull_connection_reset
    = Some (Some (Errorf "unable to Download Image: %v"
                    [AErr (ExtError "connection reset by peer")])).
Proof.
  assert (Hs : trace_of (run (machine sample_layout connection_reset)
                           (pull sample_layout oras_alpine) empty_world)
               = take 4 (trace_of oras_pull_connection_reset)
                 ++ Ev (OrasDownloadImage "/cache/oras/sha256.abc/alpine.sif"
                          "registry/alpine" None)
                       (Some (VErr (Some (ExtError "connection reset by peer")))) :: [])
    by (vm_compute; reflexivity).
  split; [exact Hs|].
  exact (proj2 (fetch_failure_stops_pull sample_layout World _ _ oras_alpine
                  _ _ _ _ _ Hs I eq_refl)).
Defined.

(** The copy stage of a pull that returns: once the destination and the
    cache file are open, the pull copies from the cache file into the
    destination, logs at most, closes the cache file and then the
    destination, and returns no error exactly when the copy returned
    none. *)
Theorem copy_stage_shape (L : Layout) St (h : Handler St) (s : St) (c : PullCall)
    (pre post : list Event) (p q : string) (flag perm : Z) (dst src : File) :
  trace_of (run h (pull L c) s)
    = pre ++ Ev (OsOpenFile p flag perm) (Some (VFile dst None))
          :: Ev (OsOpen q) (Some (VFile src None)) :: post ->
  is_Some (result_of (run h (pull L c) s)) ->
  exists n ce mid c1 c2,
    post = Ev (IoCopy dst src) (Some (VInt n ce)) :: mid
           ++ [Ev (FileClose src) c1; Ev (FileClose dst) c2] /\
    Forall (fun e => is_log (ev_op e)) mid /\
    (result_of (run h (pull L c) s) = Some None <-> ce = None).
Proof.
  by_execs h (pull L c) s. intros r t Hex Hs Hr.
  destruct c.
  all: exec Hex.
  all: simplify_eq/=.
  all: try (exfalso; eapply is_Some_None; eassumption).
  all: do 2 eexists;
    first [ (exists []; do 2 eexists; split; [reflexivity|])
          | (eexists [_]; do 2 eexists; split; [reflexivity|]) ];
    (split; [all_events | split; congruence]).
Qed.

Lemma copy_stage_shape_witness :
  trace_of oras_pull_from_cache
    = take 3 (trace_of oras_pull_from_cache)
      ++ Ev (OsOpenFile "alpine.sif" 577 493) (Some (VFile {| Name := "alpine.sif" |} None))
      :: Ev (OsOpen "/cache/oras/sha256.abc/alpine.sif")
            (Some (VFile {| Name := "/cache/oras/sha256.abc/alpine.sif" |} None))
      :: drop 5 (trace_of oras_pull_from_cache) /\
  exists n ce mid c1 c2,
    drop 5 (trace_of oras_pull_from_cache)
      = Ev (IoCopy {| Name := "alpine.sif" |} {| Name := "/cache/oras/sha256.abc/alpine.sif" |})
           (Some (VInt n ce))
        :: mid ++ [Ev (FileClose {| Name := "/cache/oras/sha256.abc/alpine.sif" |}) c1;
                   Ev (FileClose {| Name := "alpine.sif" |}) c2].
Proof.
  assert (Hs : trace_of (run (machine sample_layout good_remote)
                           (pull sample_layout oras_alpine) cached_oras_world)
               = take 3 (trace_of oras_pull_from_cache)
                 ++ Ev (OsOpenFile "alpine.sif" 577 493)
                       (Some (VFile {| Name := "alpine.sif" |} None))
                 :: Ev (OsOpen "/cache/oras/sha256.abc/alpine.sif")
                       (Some (VFile {| Name := "/cache/oras/sha256.abc/alpine.sif" |} None))
                 :: drop 5 (trace_of oras_pull_from_cache))
    by (vm_compute; reflexivity).
  assert (Hr : is_Some (result_of (run (machine sample_layout good_remote)
                                     (pull sample_layout oras_alpine) cached_oras_world)))
    by (vm_compute; eauto).
  split; [exact Hs|].
  destruct (copy_stage_shape sample_layout World _ _ oras_alpine _ _ _ _ _ _ _ _ Hs Hr)
    as (n & ce & mid & c1 & c2 & Hpost & _).
  exists n, ce, mid, c1, c2. exact Hpost.
Defined.



(** The pulls remove a file in one case only: [Oras.Pull] removes the cache
    path of the image, directly after the existence check answered
    [ErrBadChecksum] and the warning was logged.  [Shub.Pull] and
    [OciPull] never call [os.Remove]. *)
Theorem only_corrupt_entries_are_removed (L : Layout) St (h : Handler St) (s : St)
    (c : PullCall) (pre post : list Event) (p : string) (v : option Val) :
  trace_of (run h (pull L c) s) = pre ++ Ev (OsRemove p) v :: post ->
  exists oras from to sum b before,
    c = OrasPull oras from to /\
    p = OrasImage L (orasCache oras) sum (GetName L ("oras:" +:+ from)) /\
    pre = before
          ++ [Ev (OrasImageExists (orasCache oras) sum (GetName L ("oras:" +:+ from)))
                (Some (VBool b (Some ErrBadChecksum)));
              Ev (Warningf "Removing cached image: %s: cache could be corrupted" [AStr p])
                (Some VUnit)].
Proof.
  by_execs h (pull L c) s. intros r t Hex Hs.
  destruct c.
  all: exec Hex.
  all: simplify_eq/=.
  all: do 5 eexists; eexists [_]; repeat split; reflexivity.
Qed.

Lemma only_corrupt_entries_are_removed_witness :
  trace_of oras_pull_on_corrupt_entry
    = take 3 (trace_of oras_pull_on_corrupt_entry)
      ++ Ev (OsRemove "/cache/oras/sha256.abc/alpine.sif") (Some (VErr None))
      :: drop 4 (trace_of oras_pull_on_corrupt_entry) /\
  exists oras from to, oras_alpine = OrasPull oras from to.
Proof.
  assert (Hs : trace_of (run (machine sample_layout good_remote)
                           (pull sample_layout oras_alpine) corrupt_oras_world)
               = take 3 (trace_of oras_pull_on_corrupt_entry)
                 ++ Ev (OsRemove "/cache/oras/sha256.abc/alpine.sif") (Some (VErr None))
                 :: drop 4 (trace_of oras_pull_on_corrupt_entry))
    by (vm_compute; reflexivity).
  split; [exact Hs|].
  destruct (only_corrupt_entries_are_removed sample_layout World _ _ oras_alpine _ _ _ _ Hs)
    as (oras & from & to & _ & _ & _ & Hc & _).
  exists oras, from, to. exact Hc.
Defined.

(** The interrupt guard is armed at most once in a pull, after a cache
    check answered that the entry is missing, before any download or
    build, and never with the cache disabled (in [Shub.Pull] and
    [OciPull], which test it). *)
Theorem guard_armed_once_after_miss (L : Layout) St (h : Handler St) (s : St)
    (c : PullCall) (pre post : list Event) (p : string) (v : option Val) :
  trace_of (run h (pull L c) s) = pre ++ Ev (GoInterruptCleanup p) v :: post ->
  Exists reported_missing pre /\
  Forall (fun e => ~ is_guard (ev_op e) /\ ~ is_fetch (ev_op e)) pre /\
  Forall (fun e => ~ is_guard (ev_op e)) post /\
  match c with OrasPull _ _ _ => True | _ => IsDisabled (handle_of c) = false end.
Proof.
  by_execs h (pull L c) s. intros r t Hex Hs.
  destruct c.
  all: exec Hex.
  all: simplify_eq/=.
  all: (split; [ repeat first [ by (apply Exists_cons_hd; exact I) | apply Exists_cons_tl ]
               | repeat split; all_events ]).
Qed.

Lemma guard_armed_once_after_miss_witness :
  trace_of oras_pull_into_cache
    = take 3 (trace_of oras_pull_into_cache)
      ++ Ev (GoInterruptCleanup "/cache/oras/sha256.abc/alpine.sif") (Some VUnit)
      :: drop 4 (trace_of oras_pull_into_cache) /\
  Exists reported_missing (take 3 (trace_of oras_pull_into_cache)).
Proof.
  assert (Hs : trace_of (run (machine sample_layout good_remote)
                           (pull sample_layout oras_alpine) empty_world)
               = take 3 (trace_of oras_pull_into_cache)
                 ++ Ev (GoInterruptCleanup "/cache/oras/sha256.abc/alpine.sif") (Some VUnit)
                 :: drop 4 (trace_of oras_pull_into_cache))
    by (vm_compute; reflexivity).
  split; [exact Hs|].
  exact (proj1 (guard_armed_once_after_miss sample_layout World _ _ oras_alpine _ _ _ _ Hs)).
Defined.

(** [OciPull], [convertDockerToSIF]: the build is created for the image
    URI with format "sif", tests off, the temporary directory, the
    credentials and the no-HTTPS flag of the call, and NoCache as the
    handle says; its destination is the name given by the caller when the
    cache is disabled, and otherwise the cache path under the digest that
    the first step resolved.  Nothing was downloaded or built before. *)
Theorem OciPull_build_request (L : Layout) St (h : Handler St) (s : St)
    (imgCache : Handle) (name imageURI tmpDir : string) (ociAuth : option DockerAuthConfig)
    (noHTTPS : bool) (pre post : list Event) (image : string) (conf : Config)
    (v : option Val) :
  trace_of (run h (OciPull L imgCache name imageURI tmpDir ociAuth noHTTPS) s)
    = pre ++ Ev (NewBuild image conf) v :: post ->
  exists sum,
    hd_error pre = Some (Ev (OciImageSHA imageURI (OciPull_sysCtx ociAuth noHTTPS))
                           (Some (VStr sum None))) /\
    image = imageURI /\
    conf = {| Dest := if IsDisabled imgCache then name
                      else OciTempImage L imgCache sum (GetName L imageURI);
              Format := "sif";
              Opts := {| TmpDir := tmpDir;
                         NoCache := IsDisabled imgCache;
                         NoTest := true;
                         NoHTTPS := noHTTPS;
                         optDockerAuthConfig := ociAuth;
                         ImgCache := imgCache |} |} /\
    Forall (fun e => ~ is_fetch (ev_op e)) pre.
Proof.
  by_execs h (OciPull L imgCache name imageURI tmpDir ociAuth noHTTPS) s. intros r t Hex Hs.
  exec Hex.
  all: simplify_eq/=.
  all: eexists; repeat split; try reflexivity; try all_events.
  all: try (rewrite Heqb; reflexivity).
Qed.

Lemma OciPull_build_request_witness :
  trace_of oci_pull_into_cache
    = take 4 (trace_of oci_pull_into_cache)
      ++ Ev (NewBuild "docker://alpine" oci_build_config)
            (Some (VBuild {| buildSpec := "docker://alpine"; buildConf := oci_build_config |}
                     None))
      :: drop 5 (trace_of oci_pull_into_cache) /\
  Forall (fun e => ~ is_fetch (ev_op e)) (take 4 (trace_of oci_pull_into_cache)).
Proof.
  assert (Hs : trace_of (run (machine sample_layout good_remote)
                           (OciPull sample_layout enabled_cache "alpine_latest.sif"
                              "docker://alpine" "/tmp" None false) empty_world)
               = take 4 (trace_of oci_pull_into_cache)
                 ++ Ev (NewBuild "docker://alpine" oci_build_config)
                       (Some (VBuild {| buildSpec := "docker://alpine";
                                        buildConf := oci_build_config |} None))
                 :: drop 5 (trace_of oci_pull_into_cache))
    by (vm_compute; reflexivity).
  split; [exact Hs|].
  destruct (OciPull_build_request sample_layout World _ _ _ _ _ _ _ _ _ _ _ _ _ Hs)
    as (sum & _ & _ & _ & Hpre).
  exact Hpre.
Defined.

(** ** Symbolic execution over further sets of operations *)

Lemma frun_fexecs {O Rsp V} (rec : forall o : O, Rsp o -> V) {St A}
    (h : FHandler O Rsp St) (p : fprog O Rsp A) (s : St) :
  fexecs rec p (ftrace (frun rec h p s)) (fresult (frun rec h p s)).
Proof.
  revert s; induction p as [r|o k IH]; intros s; simpl.
  - split; reflexivity.
  - destruct (h o s) as [s' [r|]].
    + right. exists r, (ftrace (frun rec h (k r) s')). specialize (IH r s').
      destruct (frun rec h (k r) s') as [[? ?] ?]. split; [reflexivity | exact IH].
    + left. split; reflexivity.
Qed.

#[local] Set Warnings "-unused-intro-pattern".

Ltac unfold_fn H :=
  unfold body, invoke, defer, call, return_, fn_ret, fn_bind, mbind, Fn_bind, mret, Fn_ret in H.

Ltac fexec_step H :=
  match type of H with
  | _ = [] /\ _ = Some _ =>
      let Ht := fresh in let Hv := fresh in
      destruct H as [Ht Hv]; use_eq Ht; try use_eq Hv
  | _ \/ _ =>
      let r := fresh "r" in let Ht := fresh in let Hv := fresh in
      destruct H as [[Ht Hv] | (r & ? & Ht & H)];
      [ use_eq Ht; try use_eq Hv | use_eq Ht; try destruct r as [? ?] ]
  | context [match ?x with _ => _ end] => is_var x; destruct x
  | context [if ?b then _ else _] => destruct b eqn:?
  | context [match ?f ?a ?b ?c with _ => _ end] => destruct (f a b c) eqn:?
  end.

Ltac fexec H :=
  unfold_fn H;
  repeat first [ split_step | progress cbn -[String.eqb String.append String.concat] in H
               | fexec_step H ].

(** Start from a statement about [frun]. *)
Ltac by_fexecs rec h p s :=
  let H := fresh "Hex" in
  pose proof (frun_fexecs rec h p s) as H;
  generalize dependent (ftrace (frun rec h p s));
  generalize dependent (fresult (frun rec h p s)).

Ltac unfold_plugin H :=
  unfold PluginCompile.CompilePlugin, PluginCompile.makeSIF, PluginCompile.compressDir,
    PluginCompile.walkFn, PluginCompile.generateManifest, PluginCompile.buildPlugin,
    PluginCompile.getSingularitySrcDir, PluginCompile.getPluginObjDescr,
    PluginCompile.getSourceGzObjDescr, PluginCompile.getPluginManifestDescr,
    PluginCompile.defer_Close_Fp, PluginCompile.panic in H.

Ltac unfold_cmd H :=
  unfold BuildCmd.run, BuildCmd.Earlier.run, BuildCmd.preRun, BuildCmd.Earlier.preRun,
    BuildCmd.makeDockerCredentials, BuildCmd.deref, BuildCmd.fatalf, BuildCmd.exit,
    BuildCmd.panic, Libexec.PullLibraryImage, Libexec.PullShubImage, Libexec.PullOciImage,
    Libexec.fatalf, Progress.printProgress in H.

(** Execution of the build command, with the lookups in the flag set. *)
Ltac exec_cmd Hex :=
  repeat first
    [ split_step
    | progress cbn -[String.eqb String.append lookup insert] in Hex
    | rewrite lookup_insert_eq in Hex
    | rewrite lookup_insert_ne in Hex by done
    | fexec_step Hex
    | match type of Hex with
      | context [match ?m !! ?k with _ => _ end] =>
          let f := fresh "f" in
          let Hf := fresh "Hf" in
          destruct (m !! k) as [f|] eqn:Hf; [destruct f as [[] ?]|]
      end ].

Ltac exec_flags Hex Hu Hp :=
  repeat first
    [ split_step
    | progress cbn -[String.eqb String.append lookup insert] in Hex
    | rewrite lookup_insert_eq in Hex
    | rewrite lookup_insert_ne in Hex by done
    | rewrite Hu in Hex
    | rewrite Hp in Hex
    | fexec_step Hex ].

Ltac negb_cases :=
  repeat match goal with
         | Hn : negb ?b = _ |- _ => destruct b; try discriminate Hn; clear Hn
         end.

(** ** Plugin compilation *)

Section PluginCompileProperties.
Import PluginCompile.

(** [CompilePlugin]: once the temporary directory is created, a call that
    returns has removed it as its last step, whether it returns an error
    or not. *)
Theorem CompilePlugin_removes_temp_dir (L : Lib) St (h : FHandler Op Rsp St) (s : St)
    (sourceDir mainPkg destSif tmpDir d p pluginDir : string) (post : list Event) :
  ftrace (frun rec h (CompilePlugin L sourceDir mainPkg destSif tmpDir) s)
    = FEv (IoutilTempDir d p) (Some (VStr pluginDir None)) :: post ->
  is_Some (fresult (frun rec h (CompilePlugin L sourceDir mainPkg destSif tmpDir) s)) ->
  exists cv, last post = Some (FEv (OsRemoveAll pluginDir) cv).
Proof.
  by_fexecs rec h (CompilePlugin L sourceDir mainPkg destSif tmpDir) s. intros r t Hex Hs Hr.
  unfold_plugin Hex.
  fexec Hex.
  all: try (exfalso; eapply is_Some_None; eassumption).
  all: try discriminate Hs.
  all: injection Hs as ? ? ? ?; subst.
  all: eexists; reflexivity.
Qed.

Lemma CompilePlugin_removes_temp_dir_witness :
  ftrace compile_example
    = FEv (IoutilTempDir "/tmp" "example") (Some (VStr "/tmp/example042" None))
      :: drop 1 (ftrace compile_example) /\
  is_Some (fresult compile_example) /\
  exists cv, last (drop 1 (ftrace compile_example))
             = Some (FEv (OsRemoveAll "/tmp/example042") cv).
Proof.
  assert (Hs : ftrace (frun rec (scripted no_failure)
                         (CompilePlugin sample_lib "plugins/example" "." "example.sif" "/tmp") tt)
               = FEv (IoutilTempDir "/tmp" "example") (Some (VStr "/tmp/example042" None))
                 :: drop 1 (ftrace compile_example))
    by (vm_compute; reflexivity).
  assert (Hr : is_Some (fresult (frun rec (scripted no_failure)
                                   (CompilePlugin sample_lib "plugins/example" "."
                                      "example.sif" "/tmp") tt)))
    by (vm_compute; eauto).
  split; [exact Hs|]. split; [exact Hr|].
  exact (CompilePlugin_removes_temp_dir sample_lib unit _ _ _ _ _ _ _ _ _ _ Hs Hr).
Defined.

(** [CompilePlugin], [makeSIF]: the container is created only after every
    earlier step returned without error (the errors of the removals and of
    the closes are dropped), directly after the removal of the target
    path; it is created at the target path from three descriptors: the
    partition [plugin.so], the JSON [manifest.json] and the generic
    [plugin.tar.gz], all of the temporary directory, each with its open
    file. *)
Theorem CompilePlugin_creates_sif_last (L : Lib) St (h : FHandler Op Rsp St) (s : St)
    (sourceDir mainPkg destSif tmpDir : string) (pre post : list Event)
    (info : CreateInfo) (v : option Val) :
  ftrace (frun rec h (CompilePlugin L sourceDir mainPkg destSif tmpDir) s)
    = pre ++ FEv (SifCreateContainer info) v :: post ->
  Forall step_ok pre /\
  (exists cv, last pre = Some (FEv (OsRemoveAll destSif) cv)) /\
  Pathname info = destSif /\
  map Fname (InputDescr info)
    = [ Join L [tempdir_of pre; "plugin.so"];
        Join L [tempdir_of pre; "manifest.json"];
        Join L [tempdir_of pre; "plugin.tar.gz"] ] /\
  map Datatype (InputDescr info) = [DataPartition L; DataGenericJSON L; DataGeneric L] /\
  Forall (fun d => is_Some (Fp d)) (InputDescr info).
Proof.
  by_fexecs rec h (CompilePlugin L sourceDir mainPkg destSif tmpDir) s. intros r t Hex Hs.
  unfold_plugin Hex.
  fexec Hex.
  all: simplify_eq/=.
  all: repeat split; eauto; all_events; eauto.
Qed.

Lemma CompilePlugin_creates_sif_last_witness :
  ftrace compile_example
    = take 26 (ftrace compile_example)
      ++ FEv (SifCreateContainer example_info) (Some (VErr None))
      :: drop 27 (ftrace compile_example) /\
  Forall step_ok (take 26 (ftrace compile_example)).
Proof.
  assert (Hs : ftrace (frun rec (scripted no_failure)
                         (CompilePlugin sample_lib "plugins/example" "." "example.sif" "/tmp") tt)
               = take 26 (ftrace compile_example)
                 ++ FEv (SifCreateContainer example_info) (Some (VErr None))
                 :: drop 27 (ftrace compile_example))
    by (vm_compute; reflexivity).
  split; [exact Hs|].
  exact (proj1 (CompilePlugin_creates_sif_last sample_lib unit _ _ _ _ _ _ _ _ _ _ Hs)).
Defined.

(** [makeSIF] and the three descriptor getters: a call that returns has
    closed, in reverse order of opening, every file it opened, except the
    file of a getter that failed after the open (on [Stat] or
    [SetPartExtra]): that file, the last opened, is left open. *)
Theorem makeSIF_closes_described_files (L : Lib) St (h : FHandler Op Rsp St) (s : St)
    (sifPath pluginPath manifestPath gzPath : string) :
  let r := frun rec h (makeSIF L sifPath pluginPath manifestPath gzPath) s in
  is_Some (fresult r) ->
  closed (ftrace r)
    = rev (if existsb failed_after_open (ftrace r) then removelast (opened (ftrace r))
           else opened (ftrace r)).
Proof.
  intros r. subst r.
  by_fexecs rec h (makeSIF L sifPath pluginPath manifestPath gzPath) s. intros r t Hex Hr.
  unfold_plugin Hex.
  fexec Hex.
  all: try (exfalso; eapply is_Some_None; eassumption).
  all: reflexivity.
Qed.

Lemma makeSIF_closes_described_files_witness :
  is_Some (fresult (make_example_sif manifest_stat_fails)) /\
  opened (ftrace (make_example_sif manifest_stat_fails))
    = [ {| Name := "/tmp/example042/plugin.so" |};
        {| Name := "/tmp/example042/manifest.json" |} ] /\
  closed (ftrace (make_example_sif manifest_stat_fails))
    = rev (if existsb failed_after_open (ftrace (make_example_sif manifest_stat_fails))
           then removelast (opened (ftrace (make_example_sif manifest_stat_fails)))
           else opened (ftrace (make_example_sif manifest_stat_fails))).
Proof.
  assert (Hr : is_Some (fresult (make_example_sif manifest_stat_fails)))
    by (vm_compute; eauto).
  split; [exact Hr|]. split; [vm_compute; reflexivity|].
  exact (makeSIF_closes_described_files sample_lib unit _ _ _ _ _ _ Hr).
Defined.

(** [makeSIF]: the only path it removes is the target path, and it removes
    it only after the three descriptors were obtained, their files opened
    in the order plugin object, manifest, source archive. *)
Theorem makeSIF_removes_target_last (L : Lib) St (h : FHandler Op Rsp St) (s : St)
    (sifPath pluginPath manifestPath gzPath : string) (pre post : list Event)
    (p : string) (v : option Val) :
  ftrace (frun rec h (makeSIF L sifPath pluginPath manifestPath gzPath) s)
    = pre ++ FEv (OsRemoveAll p) v :: post ->
  p = sifPath /\
  opened_paths pre = [pluginPath; manifestPath; gzPath] /\
  existsb failed_after_open pre = false.
Proof.
  by_fexecs rec h (makeSIF L sifPath pluginPath manifestPath gzPath) s. intros r t Hex Hs.
  unfold_plugin Hex.
  fexec Hex.
  all: simplify_eq/=.
  all: repeat split; reflexivity.
Qed.

Lemma makeSIF_removes_target_last_witness :
  ftrace (make_example_sif no_failure)
    = take 8 (ftrace (make_example_sif no_failure))
      ++ FEv (OsRemoveAll "example.sif") (Some (VErr None))
      :: drop 9 (ftrace (make_example_sif no_failure)) /\
  opened_paths (take 8 (ftrace (make_example_sif no_failure)))
    = [ "/tmp/example042/plugin.so"; "/tmp/example042/manifest.json";
        "/tmp/example042/plugin.tar.gz" ].
Proof.
  assert (Hs : ftrace (frun rec (scripted no_failure)
                         (makeSIF sample_lib "example.sif" "/tmp/example042/plugin.so"
                            "/tmp/example042/manifest.json" "/tmp/example042/plugin.tar.gz") tt)
               = take 8 (ftrace (make_example_sif no_failure))
                 ++ FEv (OsRemoveAll "example.sif") (Some (VErr None))
                 :: drop 9 (ftrace (make_example_sif no_failure)))
    by (vm_compute; reflexivity).
  split; [exact Hs|].
  exact (proj1 (proj2 (makeSIF_removes_target_last sample_lib unit _ _ _ _ _ _ _ _ _ _ Hs))).
Defined.

(** [buildPlugin]: the command that is run is [go build -o
    destDir/plugin.so -buildmode=plugin -mod=vendor -tags ... ] on the
    main package, in the source directory of singularity (the working
    directory, where the canary file was found), with the environment of
    the process extended by [GO111MODULE=on]; the function returns the
    output path with whatever the command returned. *)
Theorem buildPlugin_command (L : Lib) St (h : FHandler Op Rsp St) (s : St)
    (sourceDir mainPkg destDir : string) (pre post : list Event) (cmd : Cmd)
    (e : option error) :
  ftrace (frun rec h (buildPlugin L sourceDir mainPkg destDir) s)
    = pre ++ FEv (CmdRun cmd) (Some (VErr e)) :: post ->
  exists dir fi dbg env,
    pre = [ FEv OsGetwd (Some (VStr dir None));
            FEv (OsStat (Join L [dir; "cmd"; "singularity"; "cli.go"])) (Some (VInfo fi None));
            dbg;
            FEv OsEnviron (Some (VStrs env)) ] /\
    cmd = {| cmdName := "go";
             cmdArgs := [ "build"; "-o"; Join L [destDir; "plugin.so"];
                          "-buildmode=plugin"; "-mod=vendor"; "-tags"; GO_BUILD_TAGS L;
                          "-gcflags=all=-trimpath=" +:+ dir;
                          "-asmflags=all=-trimpath=" +:+ dir;
                          Join L [sourceDir; mainPkg] ];
             cmdDir := dir;
             cmdStderr := OsStderr;
             cmdStdout := OsStdout;
             cmdEnv := env ++ ["GO111MODULE=on"] |} /\
    post = [] /\
    fresult (frun rec h (buildPlugin L sourceDir mainPkg destDir) s)
      = Some (Join L [destDir; "plugin.so"], e).
Proof.
  by_fexecs rec h (buildPlugin L sourceDir mainPkg destDir) s. intros r t Hex Hs.
  unfold_plugin Hex.
  fexec Hex.
  all: simplify_eq/=.
  all: do 4 eexists; repeat split; reflexivity.
Qed.

Lemma buildPlugin_command_witness :
  ftrace (build_example no_failure)
    = take 4 (ftrace (build_example no_failure))
      ++ FEv (CmdRun example_command) (Some (VErr None)) :: [] /\
  fresult (build_example no_failure) = Some ("/tmp/example042/plugin.so", None).
Proof.
  assert (Hs : ftrace (frun rec (scripted no_failure)
                         (buildPlugin sample_lib "plugins/example" "." "/tmp/example042") tt)
               = take 4 (ftrace (build_example no_failure))
                 ++ FEv (CmdRun example_command) (Some (VErr None)) :: [])
    by (vm_compute; reflexivity).
  split; [exact Hs|].
  destruct (buildPlugin_command sample_lib unit _ _ _ _ _ _ _ _ _ Hs)
    as (dir & fi & dbg & env & _ & _ & _ & Hres).
  exact Hres.
Defined.

(** [buildPlugin], [getSingularitySrcDir]: when the working directory
    cannot be read or the canary file cannot be found, [buildPlugin] runs
    nothing and returns the fixed error "singularity source directory not
    found", whatever the cause was. *)
Theorem buildPlugin_hides_cause (L : Lib) St (h : FHandler Op Rsp St) (s : St)
    (sourceDir mainPkg destDir : string) (pre post : list Event) (o : Op) (v : Val)
    (e : error) :
  ftrace (frun rec h (buildPlugin L sourceDir mainPkg destDir) s)
    = pre ++ FEv o (Some v) :: post ->
  match o with OsGetwd | OsStat _ => True | _ => False end ->
  val_err v = Some e ->
  post = [] /\
  fresult (frun rec h (buildPlugin L sourceDir mainPkg destDir) s)
    = Some ("", Some (ExtError "singularity source directory not found")).
Proof.
  by_fexecs rec h (buildPlugin L sourceDir mainPkg destDir) s. intros r t Hex Hs Ho Hv.
  unfold_plugin Hex.
  fexec Hex.
  all: simplify_eq/=; try done.
Qed.

Lemma buildPlugin_hides_cause_witness :
  ftrace (build_example stat_fails)
    = take 1 (ftrace (build_example stat_fails))
      ++ FEv (OsStat "/go/src/singularity/cmd/singularity/cli.go")
             (Some (VInfo {| Size := 4096; IsDir := false |} (Some (ExtError "failed"))))
      :: [] /\
  fresult (build_example stat_fails)
    = Some ("", Some (ExtError "singularity source directory not found")).
Proof.
  assert (Hs : ftrace (frun rec (scripted stat_fails)
                         (buildPlugin sample_lib "plugins/example" "." "/tmp/example042") tt)
               = take 1 (ftrace (build_example stat_fails))
                 ++ FEv (OsStat "/go/src/singularity/cmd/singularity/cli.go")
                        (Some (VInfo {| Size := 4096; IsDir := false |}
                                 (Some (ExtError "failed"))))
                 :: [])
    by (vm_compute; reflexivity).
  split; [exact Hs|].
  exact (proj2 (buildPlugin_hides_cause sample_lib unit _ _ _ _ _ _ _ _ _
                  (ExtError "failed") Hs I eq_refl)).
Defined.

(** [generateManifest]: what is written is the JSON of the manifest of the
    [Plugin] symbol looked up in the plugin opened at [pluginPath], to
    [destDir/manifest.json] with mode 0644; the path is returned when the
    write succeeded, and the empty path with a wrapped error when not. *)
Theorem generateManifest_writes_plugin_manifest (L : Lib) St (h : FHandler Op Rsp St)
    (s : St) (pluginPath destDir : string) (pre post : list Event)
    (filename data : string) (perm : Z) (e : option error) :
  ftrace (frun rec h (generateManifest L pluginPath destDir) s)
    = pre ++ FEv (IoutilWriteFile filename data perm) (Some (VErr e)) :: post ->
  exists dbg obj p,
    pre = [ dbg;
            FEv (PluginOpen pluginPath) (Some (VObject obj None));
            FEv (PluginLookup obj (PluginSymbol L)) (Some (VSymbol (SymPlugin p) None));
            FEv (JsonMarshal (pluginManifest p)) (Some (VStr data None)) ] /\
    filename = Join L [destDir; "manifest.json"] /\
    perm = 420%Z /\
    post = [] /\
    fresult (frun rec h (generateManifest L pluginPath destDir) s)
      = Some (match e with
              | None => (filename, None)
              | Some e' => ("", Some (Errorf "could not write manifest: %v" [AErr e']))
              end).
Proof.
  by_fexecs rec h (generateManifest L pluginPath destDir) s. intros r t Hex Hs.
  unfold_plugin Hex.
  fexec Hex.
  all: simplify_eq/=.
  all: do 3 eexists; repeat split; reflexivity.
Qed.

Lemma generateManifest_writes_plugin_manifest_witness :
  ftrace manifest_example
    = take 4 (ftrace manifest_example)
      ++ FEv (IoutilWriteFile "/tmp/example042/manifest.json" "{name: example-plugin}" 420)
             (Some (VErr None))
      :: [] /\
  fresult manifest_example = Some ("/tmp/example042/manifest.json", None).
Proof.
  assert (Hs : ftrace (frun rec (scripted no_failure)
                         (generateManifest sample_lib "/tmp/example042/plugin.so"
                            "/tmp/example042") tt)
               = take 4 (ftrace manifest_example)
                 ++ FEv (IoutilWriteFile "/tmp/example042/manifest.json"
                           "{name: example-plugin}" 420) (Some (VErr None))
                 :: [])
    by (vm_compute; reflexivity).
  split; [exact Hs|].
  destruct (generateManifest_writes_plugin_manifest sample_lib unit _ _ _ _ _ _ _ _ _ _ Hs)
    as (dbg & obj & p & _ & _ & _ & _ & Hres).
  exact Hres.
Defined.

(** [compressDir]: the walk runs on the source path made relative to the
    working directory, into a tar writer on a gzip writer on the created
    file [destDir/plugin.tar.gz]; when the call returns, the tar writer,
    the gzip writer and the file were closed, in this order, whether the
    walk failed or not, and the archive path is returned only when the
    walk returned no error. *)
Theorem compressDir_closes_writers (L : Lib) St (h : FHandler Op Rsp St) (s : St)
    (sourcePath destDir : string) (pre post : list Event) (root : string) (w : TarWriter)
    (we : option error) :
  ftrace (frun rec h (compressDir L sourcePath destDir) s)
    = pre ++ FEv (FilepathWalk root w) (Some (VErr we)) :: post ->
  is_Some (fresult (frun rec h (compressDir L sourcePath destDir) s)) ->
  exists wd c1 c2 c3,
    pre = [ FEv OsGetwd (Some (VStr wd None));
            FEv (OsCreate (Join L [destDir; "plugin.tar.gz"]))
                (Some (VFile (gzOut (tarOut w)) None)) ] /\
    Rel L wd sourcePath = (root, None) /\
    post = [ FEv (TarClose w) c1; FEv (GzClose (tarOut w)) c2;
             FEv (FileClose (gzOut (tarOut w))) c3 ] /\
    fresult (frun rec h (compressDir L sourcePath destDir) s)
      = Some (match we with
              | None => (Join L [destDir; "plugin.tar.gz"], None)
              | Some e => ("", Some (Errorf "could not compress dir: %s" [AErr e]))
              end).
Proof.
  by_fexecs rec h (compressDir L sourcePath destDir) s. intros r t Hex Hs Hr.
  unfold_plugin Hex.
  fexec Hex.
  all: simplify_eq/=.
  all: try (exfalso; eapply is_Some_None; eassumption).
  all: do 4 eexists; repeat split; first [ reflexivity | eassumption ].
Qed.

Lemma compressDir_closes_writers_witness :
  ftrace compress_example
    = take 2 (ftrace compress_example)
      ++ FEv (FilepathWalk "plugins/example" example_tar) (Some (VErr None))
      :: drop 3 (ftrace compress_example) /\
  is_Some (fresult compress_example) /\
  exists c1 c2 c3,
    drop 3 (ftrace compress_example)
      = [ FEv (TarClose example_tar) c1; FEv (GzClose (tarOut example_tar)) c2;
          FEv (FileClose (gzOut (tarOut example_tar))) c3 ].
Proof.
  assert (Hs : ftrace (frun rec (scripted no_failure)
                         (compressDir sample_lib "plugins/example" "/tmp/example042") tt)
               = take 2 (ftrace compress_example)
                 ++ FEv (FilepathWalk "plugins/example" example_tar) (Some (VErr None))
                 :: drop 3 (ftrace compress_example))
    by (vm_compute; reflexivity).
  assert (Hr : is_Some (fresult (frun rec (scripted no_failure)
                                   (compressDir sample_lib "plugins/example"
                                      "/tmp/example042") tt)))
    by (vm_compute; eauto).
  split; [exact Hs|]. split; [exact Hr|].
  destruct (compressDir_closes_writers sample_lib unit _ _ _ _ _ _ _ _ _ Hs Hr)
    as (wd & c1 & c2 & c3 & _ & _ & Hpost & _).
  exists c1, c2, c3. exact Hpost.
Defined.

(** The function that [compressDir] passes to [filepath.Walk]: the header
    is written to the tar writer under the full path of the entry; a
    failed write is returned at once; after a successful one a directory
    is done, and a file is opened, copied into the tar writer and closed,
    the function returning the error of the open or of the copy. *)
Theorem walkFn_archives_one_entry St (h : FHandler Op Rsp St) (s : St)
    (trw : TarWriter) (file : string) (info : FileInfo) (pre post : list Event)
    (w : TarWriter) (hdr : Header) (e : option error) :
  ftrace (frun rec h (walkFn trw file (Some info)) s)
    = pre ++ FEv (TarWriteHeader w hdr) (Some (VErr e)) :: post ->
  is_Some (fresult (frun rec h (walkFn trw file (Some info)) s)) ->
  w = trw /\ hdrName hdr = file /\
  match e with
  | Some e' =>
      post = [] /\ fresult (frun rec h (walkFn trw file (Some info)) s) = Some (Some e')
  | None =>
      if IsDir info then
        post = [] /\ fresult (frun rec h (walkFn trw file (Some info)) s) = Some None
      else
        exists data oe,
          match oe with
          | Some e' =>
              post = [FEv (OsOpen file) (Some (VFile data (Some e')))] /\
              fresult (frun rec h (walkFn trw file (Some info)) s) = Some (Some e')
          | None =>
              exists n ce cv,
                post = [ FEv (OsOpen file) (Some (VFile data None));
                         FEv (IoCopy trw data) (Some (VInt n ce));
                         FEv (FileClose data) cv ] /\
                fresult (frun rec h (walkFn trw file (Some info)) s) = Some ce
          end
  end.
Proof.
  by_fexecs rec h (walkFn trw file (Some info)) s. intros r t Hex Hs Hr.
  unfold_plugin Hex.
  fexec Hex.
  all: simplify_eq/=.
  all: try (exfalso; eapply is_Some_None; eassumption).
  all: repeat split; try reflexivity.
  all: rewrite ?Heqb.
  all: first [ by (split; reflexivity)
             | by (eexists; eexists (Some _); split; reflexivity)
             | by (eexists; exists None; do 3 eexists; split; reflexivity) ].
Qed.

Lemma walkFn_archives_one_entry_witness :
  ftrace walk_example
    = take 1 (ftrace walk_example)
      ++ FEv (TarWriteHeader example_tar
                {| hdrName := "plugins/example/main.go"; hdrSize := 1024; hdrIsDir := false |})
             (Some (VErr None))
      :: drop 2 (ftrace walk_example) /\
  is_Some (fresult walk_example) /\
  exists data oe,
    match oe with
    | Some e' =>
        drop 2 (ftrace walk_example)
          = [FEv (OsOpen "plugins/example/main.go") (Some (VFile data (Some e')))] /\
        fresult walk_example = Some (Some e')
    | None =>
        exists n ce cv,
          drop 2 (ftrace walk_example)
            = [ FEv (OsOpen "plugins/example/main.go") (Some (VFile data None));
                FEv (IoCopy example_tar data) (Some (VInt n ce));
                FEv (FileClose data) cv ] /\
          fresult walk_example = Some ce
    end.
Proof.
  assert (Hs : ftrace (frun rec (scripted no_failure)
                         (walkFn example_tar "plugins/example/main.go"
                            (Some {| Size := 1024; IsDir := false |})) tt)
               = take 1 (ftrace walk_example)
                 ++ FEv (TarWriteHeader example_tar
                           {| hdrName := "plugins/example/main.go"; hdrSize := 1024;
                              hdrIsDir := false |})
                        (Some (VErr None))
                 :: drop 2 (ftrace walk_example))
    by (vm_compute; reflexivity).
  assert (Hr : is_Some (fresult (frun rec (scripted no_failure)
                                   (walkFn example_tar "plugins/example/main.go"
                                      (Some {| Size := 1024; IsDir := false |})) tt)))
    by (vm_compute; eauto).
  split; [exact Hs|]. split; [exact Hr|].
  exact (proj2 (proj2 (walkFn_archives_one_entry unit _ _ _ _ _ _ _ _ _ _ Hs Hr))).
Defined.

End PluginCompileProperties.

(** ** The build command *)

Section BuildCmdProperties.
Import BuildCmd.

(** [makeDockerCredentials] without [--docker-login]: nobody is asked, the
    state is left as it is, and credentials are returned exactly when both
    the user name and the password flag were set on the command line; they
    are the values of the two globals. *)
Theorem credentials_without_login St (h : FHandler Op Rsp St) (s : St)
    (st : State) (uf pf : Flag) :
  dockerLogin (globals st) = false ->
  flags st !! "docker-username" = Some uf ->
  flags st !! "docker-password" = Some pf ->
  ftrace (frun rec h (makeDockerCredentials st) s) = [] /\
  fresult (frun rec h (makeDockerCredentials st) s)
    = Some (st,
            (if Changed uf && Changed pf
             then Some {| Username := dockerUsername (globals st);
                          Password := dockerPassword (globals st) |}
             else None,
             None)).
Proof.
  intros Hl Hu Hp.
  by_fexecs rec h (makeDockerCredentials st) s. intros r t Hex.
  unfold_cmd Hex. unfold_fn Hex. rewrite Hl in Hex. cbn in Hex. rewrite Hu in Hex. cbn in Hex.
  destruct (Changed uf); cbn in Hex.
  - rewrite Hp in Hex. cbn in Hex. destruct (Changed pf); cbn in Hex;
      destruct Hex as [-> ->]; split; reflexivity.
  - destruct Hex as [-> ->]; split; reflexivity.
Qed.

Lemma credentials_without_login_witness :
  ftrace (credentials_example no_failure false true) = [] /\
  snd <$> fresult (credentials_example no_failure false true)
    = Some (Some {| Username := "bob"; Password := "hunter2" |}, None).
Proof.
  destruct (credentials_without_login unit (scripted no_failure) tt
              (sample_state false false true)
              {| Changed := true; Value := "bob" |} {| Changed := true; Value := "hunter2" |}
              eq_refl ltac:(vm_compute; reflexivity) ltac:(vm_compute; reflexivity))
    as [Ht Hr].
  split; [exact Ht|].
  unfold credentials_example. rewrite Hr. reflexivity.
Defined.

(** [makeDockerCredentials] with [--docker-login], when it returns no
    error: the password was asked, and the user name before it unless
    [--docker-username] was given; the credentials returned are the
    answers (the given user name otherwise); the globals hold them, and
    both flags are marked as set, the password flag with the answer as
    its value. *)
Theorem credentials_with_login St (h : FHandler Op Rsp St) (s : St)
    (st st' : State) (uf pf : Flag) (authConf : option DockerAuthConfig) :
  dockerLogin (globals st) = true ->
  flags st !! "docker-username" = Some uf ->
  flags st !! "docker-password" = Some pf ->
  fresult (frun rec h (makeDockerCredentials st) s) = Some (st', (authConf, None)) ->
  exists u p,
    (if Changed uf
     then u = dockerUsername (globals st) /\
          ftrace (frun rec h (makeDockerCredentials st) s)
            = [FEv (AskQuestionNoEcho "Enter Docker Password: ") (Some (VStr p None))]
     else ftrace (frun rec h (makeDockerCredentials st) s)
            = [FEv (AskQuestion "Enter Docker Username: ") (Some (VStr u None));
               FEv (AskQuestionNoEcho "Enter Docker Password: ") (Some (VStr p None))]) /\
    authConf = Some {| Username := u; Password := p |} /\
    dockerUsername (globals st') = u /\
    dockerPassword (globals st') = p /\
    flags st' !! "docker-password" = Some {| Changed := true; Value := p |} /\
    flags st' !! "docker-username"
      = Some (if Changed uf then uf else {| Changed := true; Value := u |}).
Proof.
  intros Hl Hu Hp.
  by_fexecs rec h (makeDockerCredentials st) s. intros r t Hex Hr.
  unfold_cmd Hex. unfold_fn Hex. rewrite Hl in Hex. cbn -[lookup insert] in Hex.
  rewrite Hu in Hex.
  destruct uf as [[] uv]; cbn -[lookup insert] in Hex.
  all: exec_flags Hex Hu Hp.
  all: try discriminate Hr.
  all: simplify_eq/=.
  all: do 2 eexists; repeat split;
    rewrite ?lookup_insert_eq; rewrite ?lookup_insert_ne by done;
    rewrite ?lookup_insert_eq; try eassumption; try reflexivity.
Qed.

Lemma credentials_with_login_witness :
  fresult (credentials_example no_failure true false)
    = Some (answered_state, (Some {| Username := "alice"; Password := "s3cret" |}, None)) /\
  dockerUsername (globals answered_state) = "alice" /\
  dockerPassword (globals answered_state) = "s3cret".
Proof.
  assert (Hr : fresult (frun rec (scripted no_failure)
                          (makeDockerCredentials (sample_state false true false)) tt)
               = Some (answered_state,
                       (Some {| Username := "alice"; Password := "s3cret" |}, None)))
    by (vm_compute; reflexivity).
  split; [exact Hr|].
  destruct (credentials_with_login unit (scripted no_failure) tt
              (sample_state false true false) _
              {| Changed := false; Value := "" |} {| Changed := false; Value := "" |} _
              eq_refl ltac:(vm_compute; reflexivity) ltac:(vm_compute; reflexivity) Hr)
    as (u & p & _ & Hc & Hu & Hp & _).
  injection Hc as <- <-. split; [exact Hu | exact Hp].
Defined.

(** [makeDockerCredentials] returns an error only with [--docker-login],
    and it is the error of the prompt asked last; no credentials are
    returned and the password flag is left as it was.  When the user name
    prompt failed, the password is not asked and the flags are unchanged;
    the global of the failed prompt holds what the prompt returned. *)
Theorem credentials_prompt_failure St (h : FHandler Op Rsp St) (s : St)
    (st st' : State) (uf pf : Flag) (authConf : option DockerAuthConfig) (e : error) :
  flags st !! "docker-username" = Some uf ->
  flags st !! "docker-password" = Some pf ->
  fresult (frun rec h (makeDockerCredentials st) s) = Some (st', (authConf, Some e)) ->
  authConf = None /\
  dockerLogin (globals st) = true /\
  flags st' !! "docker-password" = Some pf /\
  exists ev answer,
    last (ftrace (frun rec h (makeDockerCredentials st) s))
      = Some (FEv ev (Some (VStr answer (Some e)))) /\
    match ev with
    | AskQuestion _ =>
        Changed uf = false /\
        ftrace (frun rec h (makeDockerCredentials st) s)
          = [FEv ev (Some (VStr answer (Some e)))] /\
        dockerUsername (globals st') = answer /\
        flags st' = flags st
    | AskQuestionNoEcho _ => dockerPassword (globals st') = answer
    | _ => False
    end.
Proof.
  intros Hu Hp.
  by_fexecs rec h (makeDockerCredentials st) s. intros r t Hex Hr.
  unfold_cmd Hex. unfold_fn Hex.
  destruct (dockerLogin (globals st)) eqn:Hl;
    destruct uf as [[] uv]; cbn -[lookup insert] in Hex.
  all: exec_flags Hex Hu Hp.
  all: try discriminate Hr.
  all: simplify_eq/=.
  all: repeat split; rewrite ?lookup_insert_ne by done; try eassumption;
    do 2 eexists; (split; [reflexivity|]); cbn; repeat split; reflexivity.
Qed.

Lemma credentials_prompt_failure_witness :
  fresult (credentials_example password_prompt_fails true false)
    = Some (half_answered_state, (None, Some (ExtError "failed"))) /\
  flags half_answered_state !! "docker-password" = Some {| Changed := false; Value := "" |}.
Proof.
  assert (Hr : fresult (frun rec (scripted password_prompt_fails)
                          (makeDockerCredentials (sample_state false true false)) tt)
               = Some (half_answered_state, (None, Some (ExtError "failed"))))
    by (vm_compute; reflexivity).
  split; [exact Hr|].
  exact (proj1 (proj2 (proj2
           (credentials_prompt_failure unit (scripted password_prompt_fails) tt
              (sample_state false true false) _
              {| Changed := false; Value := "" |} {| Changed := false; Value := "" |} _ _
              ltac:(vm_compute; reflexivity) ltac:(vm_compute; reflexivity) Hr)))).
Defined.

(** [run] returns only after a build that returned no error: the target
    check answered true and came first, every step returned without
    error, the last step is the remote build or the local [Full], and a
    remote build had a non-empty token. *)
Theorem run_returns_only_after_a_build St (h : FHandler Op Rsp St) (s : St) (st : State)
    (args : list string) :
  fresult (frun rec h (run st args) s) = Some tt ->
  Forall step_ok (ftrace (frun rec h (run st args) s)) /\
  exists dest spec rest b,
    args = dest :: spec :: rest /\
    hd_error (ftrace (frun rec h (run st args) s))
      = Some (FEv (CheckBuildTarget dest (update (globals st))) (Some (VBool true))) /\
    last (ftrace (frun rec h (run st args) s)) = Some (FEv b (Some (VErr None))) /\
    is_build b /\
    (remote (globals st) = true -> authToken (globals st) <> "").
Proof.
  by_fexecs rec h (run st args) s. intros r t Hex Hr.
  unfold_cmd Hex. unfold_fn Hex.
  destruct args as [|dest [|spec rest]].
  all: exec_cmd Hex.
  all: try discriminate Hr.
  all: negb_cases.
  all: (split; [ all_events | ]).
  all: do 4 eexists; repeat split; try reflexivity; try exact I.
  all: intros Hrem; try discriminate Hrem.
  all: intros Htok; rewrite Htok in *; discriminate.
Qed.

Lemma run_returns_only_after_a_build_witness :
  fresult (run_example no_failure false true) = Some tt /\
  Forall step_ok (ftrace (run_example no_failure false true)).
Proof.
  assert (Hr : fresult (frun rec (scripted no_failure)
                          (run (sample_state false true false) build_args) tt) = Some tt)
    by (vm_compute; reflexivity).
  split; [exact Hr|].
  exact (proj1 (run_returns_only_after_a_build unit _ _ _ _ Hr)).
Defined.

(** [run]: the failure of any step is fatal.  After a target check that
    answered false the next and last call is [os.Exit(1)]; after a step
    that returned an error it is [sylog.Fatalf] with the message of the
    step and the error (the error text itself for [checkSections]); no
    further step runs and [run] does not return.  Every earlier step had
    succeeded. *)
Theorem run_failure_is_fatal St (h : FHandler Op Rsp St) (s : St) (st : State)
    (args : list string) (pre post : list Event) (e : Event) (o : Op) :
  ftrace (frun rec h (run st args) s) = pre ++ e :: post ->
  fatal_after (nth 1 args "") e = Some o ->
  post = [FEv o None] /\
  Forall step_ok pre /\
  fresult (frun rec h (run st args) s) = None.
Proof.
  by_fexecs rec h (run st args) s. intros r t Hex Hs Hf.
  unfold_cmd Hex. unfold_fn Hex.
  destruct args as [|dest [|spec rest]].
  all: exec_cmd Hex.
  all: negb_cases.
  all: try discriminate Hf.
  all: cbn in Hf; simplify_eq/=.
  all: repeat split; all_events.
Qed.

Lemma run_failure_is_fatal_witness :
  ftrace (run_example remote_build_fails true false)
    = take 3 (ftrace (run_example remote_build_fails true false))
      ++ FEv (RemoteBuild {| rbDest := "alpine.sif" |}) (Some (VErr (Some (ExtError "failed"))))
      :: drop 4 (ftrace (run_example remote_build_fails true false)) /\
  drop 4 (ftrace (run_example remote_build_fails true false))
    = [FEv (Fatalf (Lit "While performing build: %v") [AErr (ExtError "failed")]) None] /\
  fresult (run_example remote_build_fails true false) = None.
Proof.
  assert (Hs : ftrace (frun rec (scripted remote_build_fails)
                         (run (sample_state true false false) build_args) tt)
               = take 3 (ftrace (run_example remote_build_fails true false))
                 ++ FEv (RemoteBuild {| rbDest := "alpine.sif" |})
                        (Some (VErr (Some (ExtError "failed"))))
                 :: drop 4 (ftrace (run_example remote_build_fails true false)))
    by (vm_compute; reflexivity).
  split; [exact Hs|].
  destruct (run_failure_is_fatal unit _ _ _ _ _ _ _ _ Hs eq_refl) as (Hpost & _ & Hres).
  split; [exact Hpost | exact Hres].
Defined.

(** [run] asks for credentials only in a local build with
    [--docker-login], after the sections were checked without error, and
    before any build step. *)
Theorem run_prompts_only_for_local_login St (h : FHandler Op Rsp St) (s : St) (st : State)
    (args : list string) (pre post : list Event) (o : Op) (v : option Val) :
  ftrace (frun rec h (run st args) s) = pre ++ FEv o v :: post ->
  is_prompt o ->
  remote (globals st) = false /\
  dockerLogin (globals st) = true /\
  (exists before, pre = before ++ [FEv CheckSections (Some (VErr None))]
                  \/ exists u, pre = before ++ [FEv CheckSections (Some (VErr None));
                                      FEv (AskQuestion "Enter Docker Username: ")
                                        (Some (VStr u None))]) /\
  Forall (fun e => ~ is_build (fev_op e)) pre.
Proof.
  by_fexecs rec h (run st args) s. intros r t Hex Hs Hp.
  unfold_cmd Hex. unfold_fn Hex.
  destruct args as [|dest [|spec rest]].
  all: destruct (dockerLogin (globals st)) eqn:Hl.
  all: exec_cmd Hex.
  all: try (cbn in Hp; contradiction).
  all: simplify_eq/=.
  all: repeat split; try assumption; try all_events.
  all: first [ by (eexists [_]; left; reflexivity)
             | by (eexists [_]; right; eexists; reflexivity) ].
Qed.

Lemma run_prompts_only_for_local_login_witness :
  ftrace (run_example no_failure false true)
    = take 3 (ftrace (run_example no_failure false true))
      ++ FEv (AskQuestionNoEcho "Enter Docker Password: ") (Some (VStr "s3cret" None))
      :: drop 4 (ftrace (run_example no_failure false true)) /\
  Forall (fun e => ~ is_build (fev_op e)) (take 3 (ftrace (run_example no_failure false true))).
Proof.
  assert (Hs : ftrace (frun rec (scripted no_failure)
                         (run (sample_state false true false) build_args) tt)
               = take 3 (ftrace (run_example no_failure false true))
                 ++ FEv (AskQuestionNoEcho "Enter Docker Password: ")
                        (Some (VStr "s3cret" None))
                 :: drop 4 (ftrace (run_example no_failure false true)))
    by (vm_compute; reflexivity).
  split; [exact Hs|].
  exact (proj2 (proj2 (proj2
           (run_prompts_only_for_local_login unit _ _ _ _ _ _ _ _ Hs I)))).
Defined.

(** The request that a local [run] makes of [build.NewBuild]: spec and
    destination are the second and the first argument, the format is
    "sandbox" with [--sandbox] and "sif" otherwise, the options are the
    values of the flags, and the credentials are those of
    [makeDockerCredentials]: with [--docker-login] the answers to the
    prompts that precede the request, without it the given user name and
    password when both were given, and none otherwise. *)
Theorem run_local_build_request St (h : FHandler Op Rsp St) (s : St) (st : State)
    (args : list string) (pre post : list Event)
    (spec dest format lib tok : string) (opts : Options) (v : option Val) (uf pf : Flag) :
  flags st !! "docker-username" = Some uf ->
  flags st !! "docker-password" = Some pf ->
  ftrace (frun rec h (run st args) s)
    = pre ++ FEv (NewBuild spec dest format lib tok opts) v :: post ->
  let g := globals st in
  remote g = false /\
  (exists rest, args = dest :: spec :: rest) /\
  format = (if sandbox g then "sandbox" else "sif") /\
  lib = libraryURL g /\ tok = authToken g /\
  opts = {| TmpDir := tmpDir g; Update := update g; Force := force g;
            Sections := sections g; NoTest := noTest g; NoHTTPS := noHTTPS g;
            NoCleanUp := noCleanUp g; DockerAuthConfig' := DockerAuthConfig' opts |} /\
  if dockerLogin g then
    exists u p before,
      pre = before
            ++ (if Changed uf then []
                else [FEv (AskQuestion "Enter Docker Username: ") (Some (VStr u None))])
            ++ [FEv (AskQuestionNoEcho "Enter Docker Password: ") (Some (VStr p None))] /\
      (Changed uf = true -> u = dockerUsername g) /\
      DockerAuthConfig' opts = Some {| Username := u; Password := p |}
  else
    Forall (fun e => ~ is_prompt (fev_op e)) pre /\
    DockerAuthConfig' opts
      = if Changed uf && Changed pf
        then Some {| Username := dockerUsername g; Password := dockerPassword g |}
        else None.
Proof.
  intros Hu Hp.
  by_fexecs rec h (run st args) s. intros r t Hex Hs g. subst g.
  unfold_cmd Hex. unfold_fn Hex.
  destruct args as [|dest0 [|spec0 rest]].
  all: destruct (dockerLogin (globals st)) eqn:Hl.
  all: destruct uf as [[] uv]; destruct pf as [[] pv].
  all: exec_flags Hex Hu Hp.
  all: simplify_eq/=.
  all: repeat split; eauto; try all_events.
  all: first [ by (do 2 eexists; eexists [_; _]; repeat split; reflexivity)
             | by (do 2 eexists; eexists [_; _]; repeat split; try reflexivity;
                   intros; discriminate)
             | idtac ].
Qed.

Lemma run_local_build_request_witness :
  ftrace (run_example no_failure false true)
    = take 4 (ftrace (run_example no_failure false true))
      ++ FEv (NewBuild "docker://alpine" "alpine.sif" "sif" "https://library.sylabs.io"
                "token" example_options)
             (Some (VBuild {| buildOf := "docker://alpine" |} None))
      :: drop 5 (ftrace (run_example no_failure false true)) /\
  exists rest, build_args = "alpine.sif" :: "docker://alpine" :: rest.
Proof.
  assert (Hs : ftrace (frun rec (scripted no_failure)
                         (run (sample_state false true false) build_args) tt)
               = take 4 (ftrace (run_example no_failure false true))
                 ++ FEv (NewBuild "docker://alpine" "alpine.sif" "sif"
                           "https://library.sylabs.io" "token" example_options)
                        (Some (VBuild {| buildOf := "docker://alpine" |} None))
                 :: drop 5 (ftrace (run_example no_failure false true)))
    by (vm_compute; reflexivity).
  split; [exact Hs|].
  exact (proj1 (proj2
           (run_local_build_request unit (scripted no_failure) tt
              (sample_state false true false) build_args _ _ _ _ _ _ _ _ _
              {| Changed := false; Value := "" |} {| Changed := false; Value := "" |}
              ltac:(vm_compute; reflexivity) ltac:(vm_compute; reflexivity) Hs))).
Defined.

(** The earlier [run] does not look at the result of the remote build:
    whatever [b.Build] returns, an error included, nothing follows and
    [run] returns normally. *)
Theorem earlier_run_ignores_remote_build_error St (h : FHandler Op Rsp St) (s : St)
    (st : State) (args : list string) (pre post : list Event) (b : RemoteBuilder)
    (err : option error) :
  ftrace (frun rec h (Earlier.run st args) s)
    = pre ++ FEv (RemoteBuild b) (Some (VErr err)) :: post ->
  post = [] /\
  fresult (frun rec h (Earlier.run st args) s) = Some tt.
Proof.
  by_fexecs rec h (Earlier.run st args) s. intros r t Hex Hs.
  unfold_cmd Hex. unfold_fn Hex.
  destruct args as [|dest [|spec rest]].
  all: exec_cmd Hex.
  all: simplify_eq/=.
  all: split; reflexivity.
Qed.

Lemma earlier_run_ignores_remote_build_error_witness :
  ftrace earlier_run_example
    = take 3 (ftrace earlier_run_example)
      ++ FEv (RemoteBuild {| rbDest := "alpine.sif" |}) (Some (VErr (Some (ExtError "failed"))))
      :: [] /\
  fresult earlier_run_example = Some tt.
Proof.
  assert (Hs : ftrace (frun rec (scripted remote_build_fails)
                         (Earlier.run (sample_state true false false) build_args) tt)
               = take 3 (ftrace earlier_run_example)
                 ++ FEv (RemoteBuild {| rbDest := "alpine.sif" |})
                        (Some (VErr (Some (ExtError "failed"))))
                 :: [])
    by (vm_compute; reflexivity).
  split; [exact Hs|].
  exact (proj2 (earlier_run_ignores_remote_build_error unit _ _ _ _ _ _ _ _ Hs)).
Defined.

End BuildCmdProperties.

(** ** [libexec.PullOciImage] and [printProgress] *)

(** [PullOciImage] asks for a build of the URI into the path with format
    "sif", empty library URL and token, and the two flags as options; it
    runs [Full] on the build it got, only when [NewBuild] returned no
    error; it returns only when [Full] returned no error; each of the two
    errors ends the process through [sylog.Fatalf] with "Unable to pull",
    the URI and the error. *)
Theorem PullOciImage_outcomes St (h : FHandler Libexec.Op Libexec.Rsp St) (s : St)
    (path uri : string) (force noHTTPS : bool) (pre post : list Libexec.Event)
    (o : Libexec.Op) (v : Libexec.Val) :
  let r := frun Libexec.rec h (Libexec.PullOciImage path uri force noHTTPS) s in
  let request := Libexec.NewBuild uri path "sif" "" ""
                   {| Libexec.Force := force; Libexec.NoHTTPS := noHTTPS |} in
  let fatal e := FEv (Libexec.Fatalf "Unable to pull %v: %v" [AStr uri; AErr e]) None in
  ftrace r = pre ++ FEv o (Some v) :: post ->
  match v with
  | Libexec.VBuild b None =>
      pre = [] /\ o = request /\
      exists full, hd_error post = Some (FEv (Libexec.BuildFull b) full)
  | Libexec.VBuild b (Some e) =>
      pre = [] /\ o = request /\ post = [fatal e] /\ fresult r = None
  | Libexec.VErr None =>
      exists b, pre = [FEv request (Some (Libexec.VBuild b None))] /\
                o = Libexec.BuildFull b /\ post = [] /\ fresult r = Some tt
  | Libexec.VErr (Some e) =>
      exists b, pre = [FEv request (Some (Libexec.VBuild b None))] /\
                o = Libexec.BuildFull b /\ post = [fatal e] /\ fresult r = None
  end.
Proof.
  intros r request fatal. subst r request fatal.
  by_fexecs Libexec.rec h (Libexec.PullOciImage path uri force noHTTPS) s. intros r t Hex Hs.
  unfold_cmd Hex. unfold_fn Hex.
  exec_cmd Hex.
  all: simplify_eq/=.
  all: repeat split; eauto.
Qed.

Lemma PullOciImage_outcomes_witness :
  ftrace Libexec.pull_oci_example
    = take 1 (ftrace Libexec.pull_oci_example)
      ++ FEv (Libexec.BuildFull {| Libexec.buildOf := "docker://alpine" |})
             (Some (Libexec.VErr (Some (ExtError "failed"))))
      :: drop 2 (ftrace Libexec.pull_oci_example) /\
  exists b,
    drop 2 (ftrace Libexec.pull_oci_example)
      = [FEv (Libexec.Fatalf "Unable to pull %v: %v"
                [AStr "docker://alpine"; AErr (ExtError "failed")]) None] /\
    Libexec.BuildFull {| Libexec.buildOf := "docker://alpine" |} = Libexec.BuildFull b /\
    fresult Libexec.pull_oci_example = None.
Proof.
  assert (Hs : ftrace (frun Libexec.rec (Libexec.scripted Libexec.full_fails)
                         (Libexec.PullOciImage "alpine.sif" "docker://alpine" false false) tt)
               = take 1 (ftrace Libexec.pull_oci_example)
                 ++ FEv (Libexec.BuildFull {| Libexec.buildOf := "docker://alpine" |})
                        (Some (Libexec.VErr (Some (ExtError "failed"))))
                 :: drop 2 (ftrace Libexec.pull_oci_example))
    by (vm_compute; reflexivity).
  split; [exact Hs|].
  destruct (PullOciImage_outcomes unit _ _ _ _ _ _ _ _ _ _ Hs) as (b & _ & Ho & Hpost & Hres).
  exists b. split; [exact Hpost|]. split; [exact Ho | exact Hres].
Defined.

(** [printProgress], when it returns: the bar was started, then the copy
    ran from a proxy reader of the bar (in bytes, of the given total) on
    the given reader into the given writer, and the bar was finished
    exactly when the copy returned no error; the result is the error of
    the copy. *)
Theorem printProgress_finishes_bar_on_success St
    (h : FHandler Progress.Op Progress.Rsp St) (s : St) (totalSize : Z)
    (r : Progress.Reader) (w : Progress.Writer) (res : option error) :
  let x := frun Progress.rec h (Progress.printProgress totalSize r w) s in
  let bar := {| Progress.Total := totalSize; Progress.BarUnits := Progress.U_BYTES;
                Progress.ShowTimeLeft := true; Progress.ShowSpeed := true |} in
  fresult x = Some res ->
  exists n,
    ftrace x
      = [FEv (Progress.BarStart bar) (Some Progress.VUnit);
         FEv (Progress.IoCopy w (Progress.ProxyReader bar r)) (Some (Progress.VInt n res))]
        ++ (if res is None then [FEv (Progress.BarFinish bar) (Some Progress.VUnit)] else []).
Proof.
  intros x bar. subst x bar.
  by_fexecs Progress.rec h (Progress.printProgress totalSize r w) s. intros v t Hex Hr.
  unfold_cmd Hex. unfold_fn Hex.
  exec_cmd Hex.
  all: try discriminate Hr.
  all: simplify_eq/=.
  all: eexists; reflexivity.
Qed.

Lemma printProgress_finishes_bar_on_success_witness :
  fresult Progress.progress_example = Some None /\
  length (ftrace Progress.progress_example) = 3.
Proof.
  assert (Hr : fresult (frun Progress.rec (Progress.scripted 1024 None)
                          (Progress.printProgress 1024 (Progress.Stream "response body")
                             {| Progress.writerName := "alpine.sif" |}) tt) = Some None)
    by (vm_compute; reflexivity).
  split; [exact Hr|].
  destruct (printProgress_finishes_bar_on_success unit _ _ _ _ _ _ Hr) as (n & Ht).
  unfold Progress.progress_example. rewrite Ht. reflexivity.
Defined.
